(** * rsa-multikey: key-representation conversions and sign/verify capabilities

    A shallow embedding of the library's JavaScript sources
    ([lib/helpers.js], [lib/serialize.js], [lib/translators.js],
    [lib/factory.js], [lib/index.js]) together with the properties of the
    conversion layer.

    - JavaScript values are the inductive [val]; plain objects are finite maps
      from property names to values, so that equality of two objects is
      field-for-field equality.
    - [async] functions are programs of the type [async A]: they resolve,
      throw, or await one call of the WebCrypto engine and continue with its
      outcome.  Synchronous functions return an [outcome].
    - The three methods that the library puts on a key pair interface are
      function values: closures over the interface, which carry its data
      properties.
    - The text codecs of the runtime ([base58btc], [TextEncoder],
      [Buffer.from(_, 'base64url')]) are the operations of the class
      [Codec]. *)

From Stdlib Require Import ZArith String List Ascii DecimalString Lia.
From Stdlib.Strings Require Import Byte.
From stdpp Require Import base option gmap strings list.

Local Open Scope string_scope.
Local Open Scope Z_scope.

(** ** JavaScript values *)

(** The three functions that [_createKeyPairInterface] puts on a key pair
    interface. *)
Inductive method : Type := method_export | method_signer | method_verifier.

(** Numbers are the integer-valued ones (modulus lengths, byte counts): the
    number written with the integer [n], that is the double nearest to it.
    [VBytes] is a [Uint8Array]; [VKey h] is a native [CryptoKey] of the
    engine, opaque but for its handle; [VObj] is a plain object; [VArr] an
    array.  [VFun m self] is a function value: the method [m] of a key pair
    interface, a closure over the interface object, of which [self] holds
    the data properties. *)
#[warnings="-register-all"]
Inductive val : Type :=
| VUndef
| VNull
| VBool (b : bool)
| VNum (n : Z)
| VStr (s : string)
| VBytes (bs : list byte)
| VKey (h : N)
| VObj (fs : gmap string val)
| VArr (xs : list val)
| VFun (m : method) (self : gmap string val).

(** The name under which [_createKeyPairInterface] defines each function:
    the variable [exportFn] for the arrow function, the method names for the
    other two. *)
Definition method_name (m : method) : string :=
  match m with
  | method_export => "exportFn"
  | method_signer => "signer"
  | method_verifier => "verifier"
  end.

(** What a native [CryptoKey] answers for [.algorithm]: an object, of which
    the library only ever observes that it is truthy. *)
Definition native_algorithm : val :=
  VObj {[ "name" := VStr "RSA-PSS" ]}.

(** Property read [v.k] (and [v?.k]: reading from [undefined] or [null]
    yields [undefined] here; the places where the source would throw on such
    a receiver use [object_coercible] first). *)
Definition get (v : val) (k : string) : val :=
  match v with
  | VObj fs => default VUndef (fs !! k)
  | VKey _ => if String.eqb k "algorithm" then native_algorithm else VUndef
  | VArr xs => if String.eqb k "length" then VNum (Z.of_nat (length xs)) else VUndef
  | VBytes bs => if String.eqb k "length" then VNum (Z.of_nat (length bs)) else VUndef
  | VStr s => if String.eqb k "length" then VNum (Z.of_nat (String.length s)) else VUndef
  | VFun m _ =>
      if String.eqb k "name" then VStr (method_name m)
      else if String.eqb k "length" then VNum 0
      else VUndef
  | _ => VUndef
  end.

#[global] Instance val_lookup_total : LookupTotal string val val :=
  fun k v => get v k.

(** Property write [o.k = x] on a plain object. *)
#[global] Instance val_insert : Insert string val val :=
  fun k x v => match v with VObj fs => VObj (<[k:=x]> fs) | _ => v end.

(** [delete o.k]. *)
#[global] Instance val_delete : Delete string val :=
  fun k v => match v with VObj fs => VObj (delete k fs) | _ => v end.

(** [k in o] for own properties of a plain object, as [chai]'s
    [to.have.property(k)] tests it. *)
Definition has_property (v : val) (k : string) : bool :=
  match v with
  | VObj fs => bool_decide (is_Some (fs !! k))
  | _ => false
  end.

(** ToBoolean. *)
Definition truthy (v : val) : bool :=
  match v with
  | VUndef | VNull => false
  | VBool b => b
  | VNum n => negb (n =? 0)
  | VStr s => negb (String.eqb s "")
  | _ => true
  end.

(** [typeof v]. *)
Definition typeof (v : val) : string :=
  match v with
  | VUndef => "undefined"
  | VBool _ => "boolean"
  | VNum _ => "number"
  | VStr _ => "string"
  | VFun _ _ => "function"
  | _ => "object"
  end.

(** [v === 'literal'] and [v === 123]. *)
Definition is_str (v : val) (s : string) : bool :=
  match v with VStr t => String.eqb t s | _ => false end.

Definition is_num (v : val) (n : Z) : bool :=
  match v with VNum m => m =? n | _ => false end.

(** [v instanceof Uint8Array] and [Array.isArray(v)]. *)
Definition instanceof_Uint8Array (v : val) : bool :=
  match v with VBytes _ => true | _ => false end.

Definition Array_isArray (v : val) : bool :=
  match v with VArr _ => true | _ => false end.

(** [a || b] and the default value of a destructured parameter. *)
Definition or_else (a b : val) : val := if truthy a then a else b.

Definition param_default (v d : val) : val :=
  match v with VUndef => d | _ => v end.

Definition string_of_Z (n : Z) : string := NilZero.string_of_int (Z.to_int n).

Definition join_comma (l : list string) : string :=
  match l with
  | [] => ""
  | s :: r => fold_left (fun acc t => acc ++ "," ++ t) r s
  end.

(** ** Number::toString

    The decimal text of a number.  An integer below [2^53] is a double and
    is printed digit by digit.  From there on a number is printed with the
    fewest significant digits that still denote it, followed by zeros up to
    21 digits and in exponent form beyond. *)

Definition nearest_double (n : Z) : Z :=
  if n <? 2 ^ 53 then n
  else
    let e := Z.log2 n - 52 in
    let q := Z.shiftr n e in
    let r := n - Z.shiftl q e in
    let half := Z.shiftl 1 (e - 1) in
    let q := if (half <? r) || ((r =? half) && Z.odd q) then q + 1 else q in
    Z.shiftl q e.

(** The multiple of a power of ten, the highest power first, that lies in
    the rounding interval of the double [x]; [lo2] and [hi2] are twice the
    bounds of the interval, which are part of it when [closed].  Of two
    multiples of the same power the one closer to [x] is taken, and the even
    one on a tie. *)
Fixpoint shortest_decimal (power : nat) (x lo2 hi2 : Z) (closed : bool) : Z :=
  let p := 10 ^ Z.of_nat power in
  let below := x / p * p in
  let above := below + p in
  let inside (c : Z) : bool :=
    (0 <? c)
    && (if closed then (lo2 <=? 2 * c) && (2 * c <=? hi2)
        else (lo2 <? 2 * c) && (2 * c <? hi2)) in
  let found :=
    match inside below, inside above with
    | true, true =>
        Some (if x - below <? above - x then below
              else if above - x <? x - below then above
              else if Z.even (x / p) then below else above)
    | true, false => Some below
    | false, true => Some above
    | false, false => None
    end in
  match found, power with
  | Some v, _ => v
  | None, S power' => shortest_decimal power' x lo2 hi2 closed
  | None, O => x
  end.

Fixpoint strip_zeros (digits : list ascii) : list ascii :=
  match digits with
  | [] => []
  | d :: r =>
      match strip_zeros r with
      | [] => if Ascii.eqb d "0" then [] else [d]
      | r' => d :: r'
      end
  end.

Definition Number_toString (n : Z) : string :=
  let x := nearest_double (Z.abs n) in
  let sign := if n <? 0 then "-" else "" in
  if x <? 2 ^ 53 then sign ++ string_of_Z x
  else if 2 ^ 1024 <=? x then sign ++ "Infinity"
  else
    let e := Z.log2 x - 52 in
    let q := Z.shiftr x e in
    let ulp := Z.shiftl 1 e in
    let lo2 := 2 * x - (if q =? 2 ^ 52 then Z.shiftl 1 (e - 1) else ulp) in
    let hi2 := 2 * x + ulp in
    let digits := string_of_Z x in
    let v := shortest_decimal (String.length digits) x lo2 hi2 (Z.even q) in
    let digits := string_of_Z v in
    let n := String.length digits in
    if (n <=? 21)%nat then sign ++ digits
    else
      let exponent := "e+" ++ string_of_Z (Z.of_nat n - 1) in
      match strip_zeros (list_ascii_of_string digits) with
      | [] => sign ++ digits
      | [d] => sign ++ String d exponent
      | d :: r => sign ++ String d ("." ++ string_of_list_ascii r ++ exponent)
      end.

Fixpoint indexed {A} (i : nat) (l : list A) : list (string * A) :=
  match l with
  | [] => []
  | x :: r => (string_of_Z (Z.of_nat i), x) :: indexed (S i) r
  end.

Fixpoint chars (s : string) : list val :=
  match s with
  | EmptyString => []
  | String c r => VStr (String c EmptyString) :: chars r
  end.

(** Object spread [{...v}]: a copy of the own enumerable properties. *)
Definition spread (v : val) : val :=
  match v with
  | VObj fs => VObj fs
  | VArr xs => VObj (list_to_map (indexed 0 xs))
  | VBytes bs =>
      VObj (list_to_map (indexed 0 (map (fun b => VNum (Z.of_N (Byte.to_N b))) bs)))
  | VStr s => VObj (list_to_map (indexed 0 (chars s)))
  | _ => VObj ∅
  end.

(** ** Exceptions and outcomes *)

Inductive exn : Type :=
| TypeError (message : string)
| Error (message : string)
| DOMException (name : string).

Inductive outcome (A : Type) : Type :=
| Ok (a : A)
| Err (e : exn).
Arguments Ok {A} a.
Arguments Err {A} e.

#[global] Instance outcome_ret : MRet outcome := fun A a => Ok a.
#[global] Instance outcome_bind : MBind outcome := fun A B f m =>
  match m with Ok a => f a | Err e => Err e end.

Definition dquote : string := String "034"%char EmptyString.
Definition quoted (s : string) : string := dquote ++ s ++ dquote.

(** Reading a property of [undefined] or [null] throws. *)
Definition object_coercible (v : val) (k : string) : outcome unit :=
  match v with
  | VUndef => Err (TypeError ("Cannot read properties of undefined (reading '" ++ k ++ "')"))
  | VNull => Err (TypeError ("Cannot read properties of null (reading '" ++ k ++ "')"))
  | _ => Ok ()
  end.

(** ** The WebCrypto engine and asynchronous programs *)

Inductive KeyFormat : Type := fmt_jwk | fmt_spki | fmt_pkcs8.

(** The five operations of [webcrypto.subtle] that the library calls. *)
Inductive EngineCall : Type :=
| subtle_generateKey (algorithm : val) (extractable : bool) (keyUsages : list string)
| subtle_importKey (format : KeyFormat) (keyData : val) (algorithm : val)
    (extractable : bool) (keyUsages : list string)
| subtle_exportKey (format : KeyFormat) (key : val)
| subtle_sign (algorithm : val) (key : val) (data : list byte)
| subtle_verify (algorithm : val) (key : val) (signature : list byte) (data : list byte).

(** What the engine resolves each call to: a pair of key handles (public,
    private), a key handle, a JSON Web Key or a DER buffer, signature bytes,
    a boolean. *)
Definition Reply (c : EngineCall) : Type :=
  match c with
  | subtle_generateKey _ _ _ => (N * N)%type
  | subtle_importKey _ _ _ _ _ => N
  | subtle_exportKey fmt_jwk _ => gmap string val
  | subtle_exportKey _ _ => list byte
  | subtle_sign _ _ _ => list byte
  | subtle_verify _ _ _ _ => bool
  end.

(** An engine resolves or rejects every call. *)
Definition Engine : Type := forall c : EngineCall, outcome (Reply c).

Inductive async (A : Type) : Type :=
| Resolve (a : A)
| Throw (e : exn)
| Await (c : EngineCall) (k : outcome (Reply c) -> async A).
Arguments Resolve {A} a.
Arguments Throw {A} e.
Arguments Await {A} c k.

Fixpoint async_bind {A B} (f : A -> async B) (m : async A) : async B :=
  match m with
  | Resolve a => f a
  | Throw e => Throw e
  | Await c k => Await c (fun r => async_bind f (k r))
  end.

#[global] Instance async_ret : MRet async := fun A a => Resolve a.
#[global] Instance async_mbind : MBind async := fun A B f m => async_bind f m.

(** [await engine.op(...)]: a rejected call throws at the [await]. *)
Definition await (c : EngineCall) : async (Reply c) :=
  Await c (fun r => match r with Ok x => Resolve x | Err e => Throw e end).

(** A synchronous call inside an [async] function. *)
Definition lift {A} (o : outcome A) : async A :=
  match o with Ok a => Resolve a | Err e => Throw e end.

(** [try { m } catch(e) { h e }]. *)
Fixpoint try_catch {A} (m : async A) (h : exn -> async A) : async A :=
  match m with
  | Resolve a => Resolve a
  | Throw e => h e
  | Await c k => Await c (fun r => try_catch (k r) h)
  end.

(** Running a program against an engine. *)
Fixpoint run {A} (E : Engine) (m : async A) : outcome A :=
  match m with
  | Resolve a => Ok a
  | Throw e => Err e
  | Await c k => run E (k (E c))
  end.

(** The engine calls a program makes against an engine, in order. *)
Fixpoint calls {A} (E : Engine) (m : async A) : list EngineCall :=
  match m with
  | Resolve _ | Throw _ => []
  | Await c k => c :: calls E (k (E c))
  end.

(** ** The text codecs of the runtime *)

Class Codec : Type := {
  (** [base58btc.encode]: multibase text, with its leading marker. *)
  base58btc_encode : list byte -> string;
  (** [base58btc.decode]: throws on a bad marker or alphabet. *)
  base58btc_decode : string -> outcome (list byte);
  (** [new TextEncoder().encode]: the UTF-8 bytes of a string. *)
  TextEncoder_encode : string -> list byte;
  (** [Buffer.from(x, 'base64url')]. *)
  Buffer_from_base64url : val -> outcome (list byte)
}.

(** ** lib/constants.js *)

Definition ALGORITHM : string := "RSA-PSS".
Definition MULTIKEY_CONTEXT_V1_URL : string := "https://w3id.org/security/multikey/v1".
Definition EXTRACTABLE : bool := true.
Definition DEFAULT_MODULUS_LENGTH : Z := 4096.

(** The table of RSA modulus lengths, an object keyed by the decimal text of
    each length. *)
Definition RSA_MODULUS_LENGTH : gmap string val :=
  {[ "2048" := VNum 2048; "3072" := VNum 3072; "4096" := VNum 4096 ]}.

(** ** lib/crypto.js *)

(** [v instanceof CryptoKey] for the library's own wrapper class.  Neither
    the library nor the engine constructs an instance of it, and no value of
    the model is one. *)
Definition instanceof_CryptoKey (v : val) : bool := false.

Section Library.
Context `{runtime : Codec}.

(** ** lib/helpers.js *)


Definition getModulusLengthFromJwk (jwk : val) : outcome val :=
  if negb (truthy jwk) || negb (truthy (jwk !!! "n")) then
    Err (TypeError (quoted "jwk" ++ " must have an " ++ quoted "n" ++ " property."))
  else
    nBytes ← Buffer_from_base64url (jwk !!! "n");
    Ok (VNum (Z.of_nat (length nBytes) * 8)).

(** ** lib/serialize.js *)

(** The algorithm descriptor [{name: 'RSA-PSS', hash: 'SHA-256'}]. *)
Definition RSA_PSS_SHA256 : val :=
  VObj {[ "name" := VStr "RSA-PSS"; "hash" := VStr "SHA-256" ]}.

Definition toPublicKeyBytes (jwk : val) : async val :=
  if negb (truthy jwk) || negb (String.eqb (typeof jwk) "object") then
    Throw (TypeError (quoted "jwk" ++ " must be an object."))
  else
    publicKey ← await (subtle_importKey fmt_jwk jwk RSA_PSS_SHA256 true ["verify"]);
    exported ← await (subtle_exportKey fmt_spki (VKey publicKey));
    Resolve (VBytes exported).

Definition toSecretKeyBytes (jwk : val) : async val :=
  if negb (truthy jwk) || negb (String.eqb (typeof jwk) "object") then
    Throw (TypeError (quoted "jwk" ++ " must be an object."))
  else if negb (truthy (jwk !!! "d")) then
    Throw (Error "JWK does not contain a private key.")
  else
    privateKey ← await (subtle_importKey fmt_jwk jwk RSA_PSS_SHA256 true ["sign"]);
    exported ← await (subtle_exportKey fmt_pkcs8 (VKey privateKey));
    Resolve (VBytes exported).

Definition toPublicKeyMultibase (publicKeyBytes : val) : outcome val :=
  match publicKeyBytes with
  | VBytes bs => Ok (VStr (base58btc_encode bs))
  | _ => Err (TypeError (quoted "publicKeyBytes" ++ " must be a Uint8Array."))
  end.

Definition toSecretKeyMultibase (secretKeyBytes : val) : outcome val :=
  match secretKeyBytes with
  | VBytes bs => Ok (VStr (base58btc_encode bs))
  | _ => Err (TypeError (quoted "secretKeyBytes" ++ " must be a Uint8Array."))
  end.

(** The four public fields [{kty, n, e, alg}] of a JWK. *)
Definition public_fields (jwk : val) : val :=
  VObj {[ "kty" := jwk !!! "kty"; "n" := jwk !!! "n";
          "e" := jwk !!! "e"; "alg" := jwk !!! "alg" ]}.

Definition toPublicKeyMultibaseFromJwk (jwk : val) : async val :=
  _ ← lift (object_coercible jwk "kty");
  let publicJwk := public_fields jwk in
  publicKeyBytes ← toPublicKeyBytes publicJwk;
  lift (toPublicKeyMultibase publicKeyBytes).

Definition toSecretKeyMultibaseFromJwk (jwk : val) : async val :=
  secretKeyBytes ← toSecretKeyBytes jwk;
  lift (toSecretKeyMultibase secretKeyBytes).

Definition fromPublicKeyMultibase (publicKeyMultibase : val) : outcome val :=
  match publicKeyMultibase with
  | VStr s => bs ← base58btc_decode s; Ok (VBytes bs)
  | _ => Err (TypeError (quoted "publicKeyMultibase" ++ " must be a string."))
  end.

Definition fromSecretKeyMultibase (secretKeyMultibase : val) : outcome val :=
  match secretKeyMultibase with
  | VStr s => bs ← base58btc_decode s; Ok (VBytes bs)
  | _ => Err (TypeError (quoted "secretKeyMultibase" ++ " must be a string."))
  end.

Definition cryptoKeyfromRaw (modulusLength secretKey publicKey keyAgreement : val)
  : async val :=
  let keyAgreement := param_default keyAgreement (VBool false) in
  if negb (String.eqb (typeof modulusLength) "number") then
    Throw (TypeError (quoted "modulusLength" ++ " must be a number."))
  else if negb (instanceof_Uint8Array publicKey) then
    Throw (TypeError (quoted "publicKey" ++ " must be a Uint8Array."))
  else if truthy secretKey && negb (instanceof_Uint8Array secretKey) then
    Throw (TypeError (quoted "secretKey" ++ " must be a Uint8Array."))
  else
    let algorithm :=
      VObj {[ "name" := VStr "RSA-PSS"; "hash" := VStr "SHA-256";
              "modulusLength" := modulusLength ]} in
    if truthy secretKey then
      key ← await (subtle_importKey fmt_pkcs8 secretKey algorithm true
                     (if truthy keyAgreement then ["deriveBits"] else ["sign"]));
      Resolve (VKey key)
    else
      key ← await (subtle_importKey fmt_spki publicKey algorithm true
                     (if truthy keyAgreement then ["deriveBits"] else ["verify"]));
      Resolve (VKey key).

Definition importKeyPair (keyPair : val) : async val :=
  if negb (truthy keyPair) || negb (String.eqb (typeof keyPair) "object") then
    Throw (TypeError (quoted "keyPair" ++ " must be an object."))
  else if instanceof_CryptoKey (keyPair !!! "publicKey")
          || (truthy (keyPair !!! "publicKey")
              && truthy ((keyPair !!! "publicKey") !!! "algorithm")) then
    Resolve keyPair
  else if truthy (keyPair !!! "publicKeyJwk") then
    publicKey ← await (subtle_importKey fmt_jwk (keyPair !!! "publicKeyJwk")
                         RSA_PSS_SHA256 true
                         (if truthy (keyPair !!! "keyAgreement")
                          then ["deriveBits"] else ["verify"]));
    let result := <["publicKey" := VKey publicKey]> (spread keyPair) in
    if truthy (keyPair !!! "secretKeyJwk") || truthy (keyPair !!! "privateKeyJwk") then
      let secretJwk := or_else (keyPair !!! "secretKeyJwk") (keyPair !!! "privateKeyJwk") in
      secretKey ← await (subtle_importKey fmt_jwk secretJwk RSA_PSS_SHA256 true
                           (if truthy (keyPair !!! "keyAgreement")
                            then ["deriveBits"] else ["sign"]));
      Resolve (<["secretKey" := VKey secretKey]> result)
    else Resolve result
  else if truthy (keyPair !!! "publicKeyMultibase") then
    publicKeyBytes ← lift (fromPublicKeyMultibase (keyPair !!! "publicKeyMultibase"));
    let modulusLength := or_else (keyPair !!! "modulusLength") (VNum 4096) in
    publicKey ← cryptoKeyfromRaw modulusLength VUndef publicKeyBytes
                  (keyPair !!! "keyAgreement");
    let result := <["publicKey" := publicKey]> (spread keyPair) in
    if truthy (keyPair !!! "secretKeyMultibase") then
      secretKeyBytes ← lift (fromSecretKeyMultibase (keyPair !!! "secretKeyMultibase"));
      secretKey ← cryptoKeyfromRaw modulusLength secretKeyBytes publicKeyBytes
                    (keyPair !!! "keyAgreement");
      Resolve (<["secretKey" := secretKey]> result)
    else Resolve result
  else
    Throw (Error "Key pair must have publicKeyJwk or publicKeyMultibase.").

Definition exportKeyPair (keyPair publicKey secretKey includeContext : val)
  : async val :=
  let publicKey := param_default publicKey (VBool true) in
  let secretKey := param_default secretKey (VBool false) in
  let includeContext := param_default includeContext (VBool true) in
  if negb (truthy keyPair) || negb (String.eqb (typeof keyPair) "object") then
    Throw (TypeError (quoted "keyPair" ++ " must be an object."))
  else
    let result := VObj {[ "type" := VStr "Multikey" ]} in
    let result :=
      if truthy includeContext
      then <["@context" := VStr "https://w3id.org/security/multikey/v1"]> result
      else result in
    let result :=
      if truthy (keyPair !!! "id")
      then <["id" := keyPair !!! "id"]> result else result in
    let result :=
      if truthy (keyPair !!! "controller")
      then <["controller" := keyPair !!! "controller"]> result else result in
    (* Export public key *)
    result ←
      (if truthy publicKey && truthy (keyPair !!! "publicKey") then
         publicKeyJwk ← await (subtle_exportKey fmt_jwk (keyPair !!! "publicKey"));
         publicKeyBytes ← toPublicKeyBytes (VObj publicKeyJwk);
         publicKeyMultibase ← lift (toPublicKeyMultibase publicKeyBytes);
         Resolve (<["publicKeyJwk" := VObj publicKeyJwk]>
                    (<["publicKeyMultibase" := publicKeyMultibase]> result))
       else Resolve result);
    (* Export secret key *)
    result ←
      (if truthy secretKey && truthy (keyPair !!! "secretKey") then
         secretKeyJwk ← await (subtle_exportKey fmt_jwk (keyPair !!! "secretKey"));
         secretKeyBytes ← toSecretKeyBytes (VObj secretKeyJwk);
         secretKeyMultibase ← lift (toSecretKeyMultibase secretKeyBytes);
         Resolve (<["secretKeyJwk" := VObj secretKeyJwk]>
                    (<["secretKeyMultibase" := secretKeyMultibase]> result))
       else Resolve result);
    Resolve result.

(** ** lib/translators.js *)

Definition toMultikey (keyPair : val) : async val :=
  if negb (truthy keyPair) || negb (String.eqb (typeof keyPair) "object") then
    Throw (TypeError (quoted "keyPair" ++ " must be an object."))
  else
    let multikey :=
      VObj {[ "@context" := VStr MULTIKEY_CONTEXT_V1_URL; "type" := VStr "Multikey" ]} in
    let multikey :=
      if truthy (keyPair !!! "id")
      then <["id" := keyPair !!! "id"]> multikey else multikey in
    let multikey :=
      if truthy (keyPair !!! "controller")
      then <["controller" := keyPair !!! "controller"]> multikey else multikey in
    multikey ←
      (if truthy (keyPair !!! "publicKeyJwk") then
         publicKeyMultibase ← toPublicKeyMultibaseFromJwk (keyPair !!! "publicKeyJwk");
         Resolve (<["publicKeyJwk" := keyPair !!! "publicKeyJwk"]>
                    (<["publicKeyMultibase" := publicKeyMultibase]> multikey))
       else Resolve multikey);
    multikey ←
      (if truthy (keyPair !!! "secretKeyJwk") || truthy (keyPair !!! "privateKeyJwk") then
         let secretJwk :=
           or_else (keyPair !!! "secretKeyJwk") (keyPair !!! "privateKeyJwk") in
         secretKeyMultibase ← toSecretKeyMultibaseFromJwk secretJwk;
         Resolve (<["secretKeyJwk" := secretJwk]>
                    (<["secretKeyMultibase" := secretKeyMultibase]> multikey))
       else Resolve multikey);
    Resolve multikey.

(** ** lib/factory.js *)

(** The parameters [{name: 'RSA-PSS', saltLength: 32}] of a signature. *)
Definition RSA_PSS_SALT32 : val :=
  VObj {[ "name" := VStr "RSA-PSS"; "saltLength" := VNum 32 ]}.

(** The bytes of a [Uint8Array]. *)
Definition Uint8Array_bytes (v : val) : list byte :=
  match v with VBytes bs => bs | _ => [] end.

(** The text of a string. *)
Definition String_text (v : val) : string :=
  match v with VStr s => s | _ => "" end.

(** A signer capability [{algorithm, id, sign}]. *)
Record Signer : Type := {
  signer_algorithm : val;
  signer_id : val;
  sign : val -> async val
}.

(** A verifier capability [{algorithm, id, verify}]; [verify] takes [data]
    and [signature]. *)
Record Verifier : Type := {
  verifier_algorithm : val;
  verifier_id : val;
  verify : val -> val -> async val
}.

Definition createSigner (id secretKey : val) : outcome Signer :=
  if negb (truthy id) || negb (String.eqb (typeof id) "string") then
    Err (TypeError (quoted "id" ++ " must be a non-empty string."))
  else if negb (truthy secretKey) then
    Err (TypeError (quoted "secretKey" ++ " is required."))
  else
    (* Get modulus length from secret key algorithm *)
    let modulusLength :=
      or_else ((secretKey !!! "algorithm") !!! "modulusLength") (VNum 4096) in
    Ok {| signer_algorithm := VStr "PS256";
          signer_id := id;
          sign := fun data =>
            if negb (truthy data) then
              Throw (TypeError (quoted "data" ++ " is required."))
            else
              dataToSign ←
                (if String.eqb (typeof data) "string" then
                   Resolve (TextEncoder_encode (String_text data))
                 else if instanceof_Uint8Array data then
                   Resolve (Uint8Array_bytes data)
                 else
                   Throw (TypeError (quoted "data" ++ " must be a string or Uint8Array.")));
              signature ← await (subtle_sign RSA_PSS_SALT32 secretKey dataToSign);
              Resolve (VBytes signature) |}.

Definition createVerifier (id publicKey : val) : outcome Verifier :=
  if negb (truthy id) || negb (String.eqb (typeof id) "string") then
    Err (TypeError (quoted "id" ++ " must be a non-empty string."))
  else if negb (truthy publicKey) then
    Err (TypeError (quoted "publicKey" ++ " is required."))
  else
    (* Get modulus length from public key algorithm *)
    let modulusLength :=
      or_else ((publicKey !!! "algorithm") !!! "modulusLength") (VNum 4096) in
    Ok {| verifier_algorithm := VStr "PS256";
          verifier_id := id;
          verify := fun data signature =>
            if negb (truthy data) then
              Throw (TypeError (quoted "data" ++ " is required."))
            else if negb (truthy signature) then
              Throw (TypeError (quoted "signature" ++ " is required."))
            else
              dataToVerify ←
                (if String.eqb (typeof data) "string" then
                   Resolve (TextEncoder_encode (String_text data))
                 else if instanceof_Uint8Array data then
                   Resolve (Uint8Array_bytes data)
                 else
                   Throw (TypeError (quoted "data" ++ " must be a string or Uint8Array.")));
              if negb (instanceof_Uint8Array signature) then
                Throw (TypeError (quoted "signature" ++ " must be a Uint8Array."))
              else
                try_catch
                  (isValid ← await (subtle_verify RSA_PSS_SALT32 publicKey
                                      (Uint8Array_bytes signature) dataToVerify);
                   Resolve (VBool isValid))
                  (fun e => Resolve (VBool false)) |}.

(** ** lib/index.js *)

Definition toJwk (keyPair secretKey : val) : async val :=
  let secretKey := param_default secretKey (VBool false) in
  keyPair ←
    (if negb (instanceof_CryptoKey (keyPair !!! "publicKey"))
        && negb (truthy ((keyPair !!! "publicKey") !!! "algorithm"))
     then importKeyPair keyPair else Resolve keyPair);
  let useSecretKey := truthy secretKey && truthy (keyPair !!! "secretKey") in
  let cryptoKey :=
    if useSecretKey then keyPair !!! "secretKey" else keyPair !!! "publicKey" in
  jwk ← await (subtle_exportKey fmt_jwk cryptoKey);
  let jwk := VObj jwk in
  (* Ensure alg is set for PS256 compatibility *)
  let jwk := if negb (truthy (jwk !!! "alg"))
             then <["alg" := VStr "PS256"]> jwk else jwk in
  Resolve jwk.

(** The [export] method of a key pair interface.  The closure of the source
    reads the variable [keyPair] when it is called: that is the imported key
    pair for the call inside [_createKeyPairInterface], and the returned
    interface object, with the properties assigned to it since, for every
    later call.  The object is therefore an argument here. *)
Definition exportFn (keyPair publicKey secretKey includeContext raw : val)
  : async val :=
  let publicKey := param_default publicKey (VBool true) in
  let secretKey := param_default secretKey (VBool false) in
  let includeContext := param_default includeContext (VBool true) in
  let raw := param_default raw (VBool false) in
  if truthy raw then
    jwk ← toJwk keyPair secretKey;
    let result := VObj ∅ in
    result ←
      (if truthy publicKey then
         (* Extract only public key fields for public key bytes *)
         let publicJwk := public_fields jwk in
         publicKeyBytes ← toPublicKeyBytes publicJwk;
         Resolve (<["publicKey" := publicKeyBytes]> result)
       else Resolve result);
    result ←
      (if truthy secretKey then
         secretKeyBytes ← toSecretKeyBytes jwk;
         Resolve (<["secretKey" := secretKeyBytes]> result)
       else Resolve result);
    Resolve result
  else
    exportKeyPair keyPair publicKey secretKey includeContext.

(** The last three entries of the object literal that makes the interface:
    [export], [signer] and [verifier], closures over the object they are put
    on.  What they do when they are called is [exportFn], [keyPair_signer]
    and [keyPair_verifier] on that object. *)
Definition data_properties (fs : gmap string val) : gmap string val :=
  delete "verifier" (delete "signer" (delete "export" fs)).

Definition attach_methods (fs : gmap string val) : gmap string val :=
  let self := data_properties fs in
  <["verifier" := VFun method_verifier self]>
    (<["signer" := VFun method_signer self]>
       (<["export" := VFun method_export self]> fs)).

Definition with_methods (keyPair : val) : val :=
  match keyPair with
  | VObj fs => VObj (attach_methods fs)
  | _ => keyPair
  end.

Definition _createKeyPairInterface (keyPair modulusLength : val) : async val :=
  keyPair ←
    (if negb (instanceof_CryptoKey (keyPair !!! "publicKey"))
        && negb (truthy ((keyPair !!! "publicKey") !!! "algorithm"))
     then importKeyPair keyPair else Resolve keyPair);
  (* Determine modulus length if not provided *)
  modulusLength ←
    (if negb (truthy modulusLength) then
       if truthy (keyPair !!! "modulusLength") then
         Resolve (keyPair !!! "modulusLength")
       else if truthy (keyPair !!! "publicKeyJwk") then
         lift (getModulusLengthFromJwk (keyPair !!! "publicKeyJwk"))
       else Resolve (VNum DEFAULT_MODULUS_LENGTH)
     else Resolve modulusLength);
  exported ← exportFn keyPair (VBool true) (VBool true) (VBool true) VUndef;
  let publicKeyMultibase := exported !!! "publicKeyMultibase" in
  let secretKeyMultibase := exported !!! "secretKeyMultibase" in
  Resolve (with_methods
             (<["modulusLength" := modulusLength]>
                (<["secretKeyMultibase" := secretKeyMultibase]>
                   (<["publicKeyMultibase" := publicKeyMultibase]> (spread keyPair))))).

Definition keyPair_signer (keyPair : val) : outcome Signer :=
  let id := keyPair !!! "id" in
  let secretKey := keyPair !!! "secretKey" in
  if negb (truthy secretKey) then
    Err (Error "Secret key is required for signing.")
  else createSigner id secretKey.

Definition keyPair_verifier (keyPair : val) : outcome Verifier :=
  let id := keyPair !!! "id" in
  let publicKey := keyPair !!! "publicKey" in
  createVerifier id publicKey.

(** ** ToString, as a template literal applies it *)

Definition nl : string := String "010"%char EmptyString.

(** The source text of the three functions, which is what
    [Function.prototype.toString] gives for them. *)
Definition method_source (m : method) : string :=
  match m with
  | method_export =>
      "async ({" ++ nl ++
      "    publicKey = true," ++ nl ++
      "    secretKey = false," ++ nl ++
      "    includeContext = true," ++ nl ++
      "    raw = false" ++ nl ++
      "  } = {}) => {" ++ nl ++
      "    if(raw) {" ++ nl ++
      "      const jwk = await toJwk({keyPair, secretKey});" ++ nl ++
      "      const result = {};" ++ nl ++
      "      if(publicKey) {" ++ nl ++
      "        // Extract only public key fields for public key bytes" ++ nl ++
      "        const publicJwk = {" ++ nl ++
      "          kty: jwk.kty," ++ nl ++
      "          n: jwk.n," ++ nl ++
      "          e: jwk.e," ++ nl ++
      "          alg: jwk.alg" ++ nl ++
      "        };" ++ nl ++
      "        result.publicKey = await toPublicKeyBytes({jwk: publicJwk});" ++ nl ++
      "      }" ++ nl ++
      "      if(secretKey) {" ++ nl ++
      "        result.secretKey = await toSecretKeyBytes({jwk});" ++ nl ++
      "      }" ++ nl ++
      "      return result;" ++ nl ++
      "    }" ++ nl ++
      "    return exportKeyPair({keyPair, publicKey, secretKey, includeContext});" ++ nl ++
      "  }"
  | method_signer =>
      "signer() {" ++ nl ++
      "      const {id, secretKey} = keyPair;" ++ nl ++
      "      if(!secretKey) {" ++ nl ++
      "        throw new Error('Secret key is required for signing.');" ++ nl ++
      "      }" ++ nl ++
      "      return createSigner({id, secretKey});" ++ nl ++
      "    }"
  | method_verifier =>
      "verifier() {" ++ nl ++
      "      const {id, publicKey} = keyPair;" ++ nl ++
      "      return createVerifier({id, publicKey});" ++ nl ++
      "    }"
  end.

(** A call without arguments of a function value, as the conversion of an
    object makes it on an own [toString] or [valueOf].  [signer] and
    [verifier] throw or return an object.  The [async] function [export]
    returns a promise at once; by then its body has run up to its first
    [await], so the first engine call of a document export is made, and
    nobody awaits its outcome.  A value that is not a function is not
    called. *)
Definition call_if_callable (f : val) : async unit :=
  match f with
  | VFun method_export self =>
      match exportFn (VObj self) VUndef VUndef VUndef VUndef with
      | Await c _ => Await c (fun _ => Resolve ())
      | _ => Resolve ()
      end
  | VFun method_signer self => _ ← lift (keyPair_signer (VObj self)); Resolve ()
  | VFun method_verifier self => _ ← lift (keyPair_verifier (VObj self)); Resolve ()
  | _ => Resolve ()
  end.

(** A primitive value has its text.  A plain object without an own
    [toString] inherits the one giving ['[object Object]']; with an own
    [toString] the conversion calls it if it is a function, then [valueOf]
    likewise (the inherited [valueOf] returns the object), and as no call
    returns a primitive value it ends in a [TypeError].  Arrays and byte
    arrays join the texts of their elements. *)
Fixpoint ToString (v : val) : async string :=
  match v with
  | VUndef => Resolve "undefined"
  | VNull => Resolve "null"
  | VBool b => Resolve (if b then "true" else "false")
  | VNum n => Resolve (Number_toString n)
  | VStr s => Resolve s
  | VBytes bs =>
      Resolve (join_comma (map (fun b => Number_toString (Z.of_N (Byte.to_N b))) bs))
  | VKey _ => Resolve "[object CryptoKey]"
  | VFun m _ => Resolve (method_source m)
  | VObj fs =>
      match fs !! "toString" with
      | None => Resolve "[object Object]"
      | Some toString =>
          _ ← call_if_callable toString;
          _ ← call_if_callable (default VUndef (fs !! "valueOf"));
          Throw (TypeError "Cannot convert object to primitive value")
      end
  | VArr xs =>
      texts ← (fix join (xs : list val) : async (list string) :=
                 match xs with
                 | [] => Resolve []
                 | x :: r =>
                     text ← match x with
                            | VUndef | VNull => Resolve ""
                            | _ => ToString x
                            end;
                     texts ← join r;
                     Resolve (text :: texts)
                 end) xs;
      Resolve (join_comma texts)
  end.

(** A property written to a key pair interface after it is made: the
    closures of the interface read the object when they are called, so they
    see the new value. *)
Definition interface_assign (k : string) (x : val) (keyPairInterface : val) : val :=
  with_methods (<[k := x]> keyPairInterface).

Definition generate (id controller modulusLength : val) : async val :=
  let modulusLength := param_default modulusLength (VNum DEFAULT_MODULUS_LENGTH) in
  if negb (is_num modulusLength 2048) && negb (is_num modulusLength 3072)
     && negb (is_num modulusLength 4096) then
    Throw (TypeError (quoted "modulusLength" ++ " must be one of: 2048, 3072, or 4096."))
  else
    let algorithm :=
      VObj {[ "name" := VStr ALGORITHM; "hash" := VStr "SHA-256";
              "modulusLength" := modulusLength;
              "publicExponent" := VBytes [x01; x00; x01] ]} in
    let usage := ["sign"; "verify"] in
    '(publicKey, privateKey) ← await (subtle_generateKey algorithm EXTRACTABLE usage);
    let keyPair :=
      VObj {[ "publicKey" := VKey publicKey; "privateKey" := VKey privateKey ]} in
    let keyPair := <["secretKey" := keyPair !!! "privateKey"]> keyPair in
    let keyPair := delete "privateKey" keyPair in
    keyPairInterface ← _createKeyPairInterface keyPair modulusLength;
    exportedKeyPair ← exportFn keyPairInterface (VBool true) VUndef VUndef VUndef;
    let publicKeyMultibase := exportedKeyPair !!! "publicKeyMultibase" in
    id ←
      (if negb (truthy id) then
         if truthy controller then
           controller ← ToString controller;
           publicKeyMultibase ← ToString publicKeyMultibase;
           Resolve (VStr (controller ++ "#" ++ publicKeyMultibase))
         else
           (* Generate a default id if neither id nor controller is provided *)
           publicKeyMultibase ← ToString publicKeyMultibase;
           Resolve (VStr ("#" ++ publicKeyMultibase))
       else Resolve id);
    let keyPairInterface := interface_assign "id" id keyPairInterface in
    let keyPairInterface := interface_assign "controller" controller keyPairInterface in
    let keyPairInterface :=
      interface_assign "modulusLength" modulusLength keyPairInterface in
    Resolve keyPairInterface.

Definition _assertMultikey (key : val) : outcome unit :=
  if negb (truthy key && String.eqb (typeof key) "object") then
    Err (TypeError (quoted "key" ++ " must be an object."))
  else if negb (is_str (key !!! "type") "Multikey") then
    Err (TypeError (quoted "key" ++ " must be a Multikey with type "
                      ++ quoted "Multikey" ++ "."))
  else if negb (is_str (key !!! "@context") MULTIKEY_CONTEXT_V1_URL
                || (Array_isArray (key !!! "@context")
                    && match key !!! "@context" with
                       | VArr xs => existsb (fun x => is_str x MULTIKEY_CONTEXT_V1_URL) xs
                       | _ => false
                       end)) then
    Err (TypeError (quoted "key" ++ " must be a Multikey with context "
                      ++ quoted MULTIKEY_CONTEXT_V1_URL ++ "."))
  else Ok ().

(** [from] and [fromJwk] call each other; each body takes the other function
    as its first argument.  In [from_body], [literal] is the rest of [from]
    after its first [if] block: the statements that a key of type
    ['Multikey'] reaches directly and a key without [type] and without
    [publicKeyJwk] reaches by falling through the block. *)
Definition fromJwk_body (from : val -> async val)
    (jwk secretKey id controller : val) : async val :=
  let secretKey := param_default secretKey (VBool false) in
  if negb (truthy jwk) || negb (String.eqb (typeof jwk) "object") then
    Throw (TypeError (quoted "jwk" ++ " is required."))
  else if negb (is_str (jwk !!! "kty") "RSA") then
    Throw (TypeError ("JWK must have kty " ++ quoted "RSA" ++ "."))
  else
    modulusLength ← lift (getModulusLengthFromJwk jwk);
    (* Extract only public key fields for multibase conversion *)
    let publicJwk := public_fields jwk in
    publicKeyMultibase ← toPublicKeyMultibaseFromJwk publicJwk;
    let multikey :=
      VObj {[ "@context" := VStr MULTIKEY_CONTEXT_V1_URL;
              "type" := VStr "Multikey";
              "publicKeyMultibase" := publicKeyMultibase;
              "publicKeyJwk" :=
                VObj {[ "kty" := jwk !!! "kty"; "n" := jwk !!! "n";
                        "e" := jwk !!! "e";
                        "alg" := or_else (jwk !!! "alg") (VStr "PS256") ]};
              "modulusLength" := modulusLength ]} in
    let multikey :=
      if String.eqb (typeof id) "string" then <["id" := id]> multikey else multikey in
    let multikey :=
      if String.eqb (typeof controller) "string"
      then <["controller" := controller]> multikey else multikey in
    multikey ←
      (if truthy secretKey && truthy (jwk !!! "d") then
         secretKeyMultibase ← toSecretKeyMultibaseFromJwk jwk;
         Resolve (<["secretKeyJwk" :=
                      VObj {[ "kty" := jwk !!! "kty"; "n" := jwk !!! "n";
                              "e" := jwk !!! "e"; "d" := jwk !!! "d";
                              "p" := jwk !!! "p"; "q" := jwk !!! "q";
                              "dp" := jwk !!! "dp"; "dq" := jwk !!! "dq";
                              "qi" := jwk !!! "qi";
                              "alg" := or_else (jwk !!! "alg") (VStr "PS256") ]}]>
                    (<["secretKeyMultibase" := secretKeyMultibase]> multikey))
       else Resolve multikey);
    from multikey.

Definition from_body (fromJwk : val -> val -> val -> val -> async val)
    (key : val) : async val :=
  let multikey := spread key in
  let literal (multikey : val) : async val :=
    let multikey :=
      if negb (truthy (multikey !!! "type"))
      then <["type" := VStr "Multikey"]> multikey else multikey in
    let multikey :=
      if negb (truthy (multikey !!! "@context"))
      then <["@context" := VStr MULTIKEY_CONTEXT_V1_URL]> multikey else multikey in
    multikey ←
      (if truthy (multikey !!! "controller") && negb (truthy (multikey !!! "id")) then
         controller ← ToString (multikey !!! "controller");
         publicKeyMultibase ← ToString (multikey !!! "publicKeyMultibase");
         Resolve (<["id" := VStr (controller ++ "#" ++ publicKeyMultibase)]> multikey)
       else Resolve multikey);
    _ ← lift (_assertMultikey multikey);
    _createKeyPairInterface multikey VUndef in
  if negb (is_str (multikey !!! "type") "Multikey") then
    (* attempt loading from JWK if `publicKeyJwk` is present *)
    if truthy (multikey !!! "publicKeyJwk") then
      let '(id, controller) :=
        if is_str (multikey !!! "type") "JsonWebKey"
           || is_str (multikey !!! "type") "JsonWebKey2020"
        then (multikey !!! "id", multikey !!! "controller")
        else (VUndef, VUndef) in
      fromJwk (multikey !!! "publicKeyJwk")
              (VBool (truthy (multikey !!! "secretKeyJwk")
                      || truthy (multikey !!! "privateKeyJwk")))
              id controller
    else if truthy (multikey !!! "type") then
      multikey ← toMultikey multikey;
      _createKeyPairInterface multikey VUndef
    else literal multikey
  else literal multikey.

(** The recursion is tied with a call depth: [from] enters [fromJwk] only
    for a key whose [type] is not ['Multikey'], and [fromJwk] calls [from]
    with a key whose [type] is ['Multikey'], so depth two is never
    exhausted ([from_fuel_enough]). *)
Fixpoint from_fuel (fuel : nat) (key : val) : async val :=
  match fuel with
  | O => Throw (Error "call depth exhausted")
  | S n => from_body (fromJwk_body (from_fuel n)) key
  end.

Definition fromJwk (jwk secretKey id controller : val) : async val :=
  fromJwk_body (from_fuel 1) jwk secretKey id controller.

Definition from (key : val) : async val := from_body fromJwk key.

Definition fromRaw (modulusLength secretKey publicKey : val) : async val :=
  if negb (String.eqb (typeof modulusLength) "number") then
    Throw (TypeError (quoted "modulusLength" ++ " must be a number."))
  else if truthy secretKey && negb (instanceof_Uint8Array secretKey) then
    Throw (TypeError (quoted "secretKey" ++ " must be a Uint8Array."))
  else if negb (instanceof_Uint8Array publicKey) then
    Throw (TypeError (quoted "publicKey" ++ " must be a Uint8Array."))
  else
    cryptoKey ← cryptoKeyfromRaw modulusLength secretKey publicKey VUndef;
    jwk ← await (subtle_exportKey fmt_jwk cryptoKey);
    fromJwk (VObj jwk) (VBool (truthy secretKey)) VUndef VUndef.

End Library.

(** ** A reference runtime

    One concrete codec and one concrete engine, on which the properties
    below are exercised.  The codec is base58btc with the multibase marker
    [z], base64url, and the identity on strings read as UTF-8 text.  The
    engine numbers its keys: handle [2k] is the public half of key [k] and
    handle [2k+1] its private half; a JWK carries [k] in decimal as its
    modulus text, and the DER encoding of a key is the big-endian bytes of
    its handle. *)
Module Reference.

#[global] Instance byte_eq_decision : EqDecision byte := Byte.byte_eq_dec.

Definition byte_of_N (n : N) : byte :=
  match Byte.of_N (n mod 256)%N with Some b => b | None => x00 end.

(** Big-endian bytes and numbers. *)
Definition N_of_bytes (bs : list byte) : N :=
  fold_left (fun acc b => (acc * 256 + Byte.to_N b)%N) bs 0%N.

Fixpoint bytes_of_N_fuel (fuel : nat) (n : N) (acc : list byte) : list byte :=
  match fuel with
  | O => acc
  | S f => if (n =? 0)%N then acc
           else bytes_of_N_fuel f (n / 256)%N (byte_of_N n :: acc)
  end.

Definition bytes_of_N (n : N) : list byte :=
  bytes_of_N_fuel (S (N.to_nat (N.log2 n))) n [].

Definition base58_alphabet : string :=
  "123456789ABCDEFGHJKLMNPQRSTUVWXYZabcdefghijkmnopqrstuvwxyz".

Definition base64url_alphabet : string :=
  "ABCDEFGHIJKLMNOPQRSTUVWXYZabcdefghijklmnopqrstuvwxyz0123456789-_".

Fixpoint index_of (c : ascii) (s : string) (i : N) : option N :=
  match s with
  | EmptyString => None
  | String d r => if Ascii.eqb c d then Some i else index_of c r (i + 1)%N
  end.

Definition digit_char (alphabet : string) (d : N) : ascii :=
  match String.get (N.to_nat d) alphabet with Some c => c | None => "?"%char end.

Fixpoint base58_digits (fuel : nat) (n : N) (acc : string) : string :=
  match fuel with
  | O => acc
  | S f => if (n =? 0)%N then acc
           else base58_digits f (n / 58)%N
                  (String (digit_char base58_alphabet (n mod 58)%N) acc)
  end.

Fixpoint leading_zeros (bs : list byte) : nat :=
  match bs with
  | x00 :: r => S (leading_zeros r)
  | _ => O
  end.

Fixpoint repeat_char (c : ascii) (n : nat) (tail : string) : string :=
  match n with O => tail | S m => String c (repeat_char c m tail) end.

Definition base58btc_encode_ref (bs : list byte) : string :=
  let n := N_of_bytes bs in
  String "z"%char
    (repeat_char "1"%char (leading_zeros bs)
       (base58_digits (S (N.to_nat (N.log2 n))) n EmptyString)).

Fixpoint base58_value (s : string) (acc : N) : option N :=
  match s with
  | EmptyString => Some acc
  | String c r =>
      match index_of c base58_alphabet 0%N with
      | Some d => base58_value r (acc * 58 + d)%N
      | None => None
      end
  end.

Fixpoint leading_ones (s : string) : nat :=
  match s with
  | String c r => if Ascii.eqb c "1"%char then S (leading_ones r) else O
  | EmptyString => O
  end.

Definition base58btc_decode_ref (s : string) : outcome (list byte) :=
  match s with
  | String c r =>
      if Ascii.eqb c "z"%char then
        match base58_value r 0%N with
        | Some n => Ok (repeat x00 (leading_ones r) ++ bytes_of_N n)%list
        | None => Err (Error "Non-base58btc character")
        end
      else Err (Error "base58btc decoder only supports inputs prefixed with z")
  | EmptyString => Err (Error "base58btc decoder only supports inputs prefixed with z")
  end.

(** Base64url text to bytes: every character carries six bits, every eight
    collected bits give a byte, and decoding stops at the first character
    outside the alphabet. *)
Fixpoint base64url_bytes (s : string) (acc : N) (nbits : N) : list byte :=
  match s with
  | EmptyString => []
  | String c r =>
      match index_of c base64url_alphabet 0%N with
      | None => []
      | Some d =>
          let acc := (acc * 64 + d)%N in
          let nbits := (nbits + 6)%N in
          if (8 <=? nbits)%N then
            byte_of_N (acc / 2 ^ (nbits - 8))%N
              :: base64url_bytes r (acc mod 2 ^ (nbits - 8))%N (nbits - 8)%N
          else base64url_bytes r acc nbits
      end
  end.

Definition Buffer_from_base64url_ref (v : val) : outcome (list byte) :=
  match v with
  | VStr s => Ok (base64url_bytes s 0%N 0%N)
  | VBytes bs => Ok bs
  | _ => Err (TypeError "The first argument must be of type string or an instance of Buffer, ArrayBuffer, or Array or an Array-like Object.")
  end.

#[export] Instance codec : Codec := {|
  base58btc_encode := base58btc_encode_ref;
  base58btc_decode := base58btc_decode_ref;
  TextEncoder_encode := list_byte_of_string;
  Buffer_from_base64url := Buffer_from_base64url_ref
|}.

Definition string_of_N (k : N) : string := NilZero.string_of_uint (N.to_uint k).

Definition N_of_string (s : string) : option N :=
  match NilZero.uint_of_string s with
  | Some u => Some (N.of_uint u)
  | None => None
  end.

(** The JWK of a handle. *)
Definition jwk_of_handle (h : N) : gmap string val :=
  let k := VStr (string_of_N (N.div2 h)) in
  let public : gmap string val :=
    {[ "kty" := VStr "RSA"; "n" := k; "e" := VStr "AQAB";
       "alg" := VStr "PS256"; "ext" := VBool true ]} in
  if N.odd h then
    <["key_ops" := VArr [VStr "sign"]]>
      (<["d" := k]> (<["p" := k]> (<["q" := k]>
         (<["dp" := k]> (<["dq" := k]> (<["qi" := k]> public))))))
  else <["key_ops" := VArr [VStr "verify"]]> public.

(** Importing a JWK: private material needs the usage [sign], public
    material the usage [verify]. *)
Definition handle_of_jwk (jwk : val) (keyUsages : list string) : outcome N :=
  if negb (is_str (jwk !!! "kty") "RSA") then Err (DOMException "DataError")
  else
    match jwk !!! "n" with
    | VStr n =>
        match N_of_string n with
        | Some k =>
            if truthy (jwk !!! "d") then
              if bool_decide (keyUsages = ["sign"]) then Ok (2 * k + 1)%N
              else Err (DOMException "SyntaxError")
            else
              if bool_decide (keyUsages = ["verify"]) then Ok (2 * k)%N
              else Err (DOMException "SyntaxError")
        | None => Err (DOMException "DataError")
        end
    | _ => Err (DOMException "DataError")
    end.

Definition signature_of (h : N) (data : list byte) : list byte :=
  (bytes_of_N (N.div2 h) ++ data)%list.

(** The handle of a native key. *)
Definition handle_of (key : val) : outcome N :=
  match key with
  | VKey h => Ok h
  | _ => Err (TypeError "parameter is not of type 'CryptoKey'")
  end.

Definition bytes_of (keyData : val) : outcome (list byte) :=
  match keyData with
  | VBytes bs => Ok bs
  | _ => Err (TypeError "parameter is not a BufferSource")
  end.

Definition public_half (h : N) : outcome N :=
  if N.odd h then Err (DOMException "InvalidAccessError") else Ok h.

Definition private_half (h : N) : outcome N :=
  if N.odd h then Ok h else Err (DOMException "InvalidAccessError").

Definition engine : Engine := fun c =>
  match c as c0 return outcome (Reply c0) with
  | subtle_generateKey algorithm _ _ =>
      match algorithm !!! "modulusLength" with
      | VNum n => Ok ((2 * Z.to_N n)%N, (2 * Z.to_N n + 1)%N)
      | _ => Err (TypeError "modulusLength")
      end
  | subtle_importKey fmt_jwk keyData _ _ keyUsages => handle_of_jwk keyData keyUsages
  | subtle_importKey fmt_spki keyData _ _ _ =>
      bs ← bytes_of keyData; public_half (N_of_bytes bs)
  | subtle_importKey fmt_pkcs8 keyData _ _ _ =>
      bs ← bytes_of keyData; private_half (N_of_bytes bs)
  | subtle_exportKey fmt_jwk key =>
      h ← handle_of key; Ok (jwk_of_handle h)
  | subtle_exportKey fmt_spki key =>
      h ← handle_of key; h ← public_half h; Ok (bytes_of_N h)
  | subtle_exportKey fmt_pkcs8 key =>
      h ← handle_of key; h ← private_half h; Ok (bytes_of_N h)
  | subtle_sign _ key data =>
      h ← handle_of key; h ← private_half h; Ok (signature_of h data)
  | subtle_verify _ key signature data =>
      h ← handle_of key; h ← public_half h;
      Ok (bool_decide (signature = signature_of h data))
  end.

(** The public half of the 2048-bit pair of the reference engine, as the
    library holds it. *)
Definition publicOnly2048 : val :=
  VObj {[ "publicKey" := VKey 4096%N ]}.

(** The key pair [generate] returns for the controller [did:example:1234]
    and 2048 bits, and the one it returns when neither an id nor a
    controller is given. *)
Definition generated2048 : val :=
  Eval vm_compute in
    match run engine (generate VUndef (VStr "did:example:1234") (VNum 2048)) with
    | Ok keyPair => keyPair
    | Err _ => VUndef
    end.

Definition generatedBare2048 : val :=
  Eval vm_compute in
    match run engine (generate VUndef VUndef (VNum 2048)) with
    | Ok keyPair => keyPair
    | Err _ => VUndef
    end.

(** The key pair [generate] returns for a controller that is the number
    [1e21]. *)
Definition generatedNumeric2048 : val :=
  Eval vm_compute in
    match run engine (generate VUndef (VNum (10 ^ 21)) (VNum 2048)) with
    | Ok keyPair => keyPair
    | Err _ => VUndef
    end.

(** The document the [export] method gives for [generated2048], both
    halves included. *)
Definition document2048 : val :=
  Eval vm_compute in
    match run engine (exportKeyPair generated2048 (VBool true) (VBool true) VUndef) with
    | Ok doc => doc
    | Err _ => VUndef
    end.

(** A JWK-wrapping document for the public key of [publicOnly2048]. *)
Definition jsonWebKey2048 : val :=
  VObj {[ "type" := VStr "JsonWebKey";
          "id" := VStr "did:example:1234#key-1";
          "controller" := VStr "did:example:1234";
          "publicKeyJwk" := VObj (jwk_of_handle 4096%N) ]}.

(** The same key under a type that is not a JWK-wrapping one. *)
Definition otherTyped2048 : val :=
  VObj {[ "type" := VStr "Ed25519VerificationKey2020";
          "id" := VStr "did:example:1234#key-1";
          "controller" := VStr "did:example:1234";
          "publicKeyJwk" := VObj (jwk_of_handle 4096%N) ]}.

(** The document exported for [generated2048] without its secret half. *)
Definition publicDocument2048 : gmap string val :=
  Eval vm_compute in
    match run engine (exportKeyPair generated2048 (VBool true) (VBool false) VUndef) with
    | Ok (VObj doc) => doc
    | _ => ∅
    end.

(** The document exported for [generated2048] without the context. *)
Definition document2048_bare : val :=
  Eval vm_compute in
    match run engine (exportKeyPair generated2048 VUndef (VBool true) (VBool false)) with
    | Ok doc => doc
    | Err _ => VUndef
    end.

(** The key pair [importKeyPair] makes of [document2048]. *)
Definition imported2048 : val :=
  Eval vm_compute in
    match run engine (importKeyPair document2048) with
    | Ok keyPair => keyPair
    | Err _ => VUndef
    end.

(** A document that carries its public key as a JWK and as a text that is
    not multibase, and its secret key as multibase text only. *)
Definition mixedDocument2048 : gmap string val :=
  {[ "type" := VStr "Multikey";
     "publicKeyJwk" := VObj (jwk_of_handle 4096%N);
     "publicKeyMultibase" := VStr "not multibase";
     "secretKeyMultibase" := VStr "z2De" ]}.

(** The key pair [importKeyPair] makes of [mixedDocument2048]. *)
Definition importedMixed2048 : val :=
  Eval vm_compute in
    match run engine (importKeyPair (VObj mixedDocument2048)) with
    | Ok keyPair => keyPair
    | Err _ => VUndef
    end.

(** The key pair interface made of [mixedDocument2048] with a property
    [export] of its own. *)
Definition interfaceMixed2048 : val :=
  Eval vm_compute in
    match run engine
            (_createKeyPairInterface
               (VObj (<["export" := VStr "mine"]> mixedDocument2048)) VUndef) with
    | Ok keyPair => keyPair
    | Err _ => VUndef
    end.

(** The Multikey [toMultikey] makes of [jsonWebKey2048] with a stray
    multibase text added. *)
Definition multikeyOfJsonWebKey2048 : val :=
  Eval vm_compute in
    match run engine
            (toMultikey (<["publicKeyMultibase" := VStr "zOther"]> jsonWebKey2048)) with
    | Ok multikey => multikey
    | Err _ => VUndef
    end.

(** The private JWK [toJwk] gives for [generated2048]. *)
Definition privateJwk2048 : val :=
  Eval vm_compute in
    match run engine (toJwk generated2048 (VBool true)) with
    | Ok jwk => jwk
    | Err _ => VUndef
    end.

(** The key pair [from] makes of [document2048_bare]. *)
Definition fromBare2048 : val :=
  Eval vm_compute in
    match run engine (from document2048_bare) with
    | Ok keyPair => keyPair
    | Err _ => VUndef
    end.

(** A key of another suite that carries its public key as multibase text. *)
Definition otherSuite2048 : val :=
  VObj {[ "type" := VStr "Ed25519VerificationKey2020";
          "controller" := VStr "did:example:1234";
          "publicKeyMultibase" := VStr "z2Dd" ]}.

(** A Multikey that carries its public key as a JWK only, with a
    controller and no id, and the key pair [from] makes of it. *)
Definition jwkOnlyMultikey2048 : gmap string val :=
  {[ "type" := VStr "Multikey";
     "controller" := VStr "did:example:1234";
     "publicKeyJwk" := VObj (jwk_of_handle 4096%N) ]}.

Definition fromJwkOnlyMultikey2048 : val :=
  Eval vm_compute in
    match run engine (from (VObj jwkOnlyMultikey2048)) with
    | Ok keyPair => keyPair
    | Err _ => VUndef
    end.

(** The same Multikey with the number [1e21] for its controller, and the key
    pair [from] makes of it. *)
Definition numericControllerMultikey2048 : gmap string val :=
  <["controller" := VNum (10 ^ 21)]> jwkOnlyMultikey2048.

Definition fromNumericControllerMultikey2048 : val :=
  Eval vm_compute in
    match run engine (from (VObj numericControllerMultikey2048)) with
    | Ok keyPair => keyPair
    | Err _ => VUndef
    end.

(** The key pair [fromJwk] makes of the private JWK of the 2048-bit pair,
    secret key included, and the one [fromRaw] makes of its raw public
    key. *)
Definition fromPrivateJwk2048 : val :=
  Eval vm_compute in
    match run engine
            (fromJwk (VObj (jwk_of_handle 4097%N)) (VBool true) VUndef VUndef) with
    | Ok keyPair => keyPair
    | Err _ => VUndef
    end.

Definition fromRawPublic2048 : val :=
  Eval vm_compute in
    match run engine (fromRaw (VNum 2048) VUndef (VBytes [x10; x00])) with
    | Ok keyPair => keyPair
    | Err _ => VUndef
    end.

(** The raw export of [generated2048], both keys. *)
Definition raw2048 : val :=
  Eval vm_compute in
    match run engine (exportFn generated2048 VUndef (VBool true) VUndef (VBool true)) with
    | Ok result => result
    | Err _ => VUndef
    end.

(** The key pair [from] makes of [document2048]. *)
Definition fromDocument2048 : val :=
  Eval vm_compute in
    match run engine (from document2048) with
    | Ok keyPair => keyPair
    | Err _ => VUndef
    end.

End Reference.

(** * Specification vocabulary *)

(** The modulus lengths [generate] accepts. *)
Definition allowed_modulusLength (v : val) : Prop :=
  v = VNum 2048 \/ v = VNum 3072 \/ v = VNum 4096.

(** A non-null value whose [typeof] is ['object']. *)
Definition is_object (v : val) : Prop := typeof v = "object" /\ v <> VNull.

(** The [@context] of a Multikey: the fixed URL, or an array containing it. *)
Definition context_ok (c : val) : Prop :=
  c = VStr MULTIKEY_CONTEXT_V1_URL
  \/ exists xs, c = VArr xs /\ In (VStr MULTIKEY_CONTEXT_V1_URL) xs.

Definition valid_Multikey (key : val) : Prop :=
  is_object key /\ key !!! "type" = VStr "Multikey" /\ context_ok (key !!! "@context").


(** Data a signer or verifier works on: a non-empty string or a byte
    string. *)
Definition signable (data : val) : Prop :=
  (exists s, data = VStr s /\ s <> "") \/ (exists bs, data = VBytes bs).

(** The bytes that are signed for [data]: the UTF-8 encoding of a string,
    the bytes of a byte string as they are. *)
Definition signed_bytes `{runtime : Codec} (data : val) : list byte :=
  match data with
  | VStr s => TextEncoder_encode s
  | VBytes bs => bs
  | _ => []
  end.

(** ** Readings of the exporter used in the proofs *)

(** The envelope of an exported document: [type], and [@context], [id] and
    [controller] when they apply. *)
Definition envelope (keyPair includeContext : val) : gmap string val :=
  let fs : gmap string val := {[ "type" := VStr "Multikey" ]} in
  let fs := if truthy (param_default includeContext (VBool true))
            then <["@context" := VStr "https://w3id.org/security/multikey/v1"]> fs
            else fs in
  let fs := if truthy (keyPair !!! "id")
            then <["id" := keyPair !!! "id"]> fs else fs in
  if truthy (keyPair !!! "controller")
  then <["controller" := keyPair !!! "controller"]> fs else fs.

(** The public half of a key against an engine: its multibase text and its
    JWK. *)
Definition public_half_of `{runtime : Codec} (E : Engine) (key : val)
  : outcome (val * val) :=
  publicKeyJwk ← E (subtle_exportKey fmt_jwk key);
  publicKeyBytes ← run E (toPublicKeyBytes (VObj publicKeyJwk));
  publicKeyMultibase ← toPublicKeyMultibase publicKeyBytes;
  Ok (publicKeyMultibase, VObj publicKeyJwk).

Definition secret_half_of `{runtime : Codec} (E : Engine) (key : val)
  : outcome (val * val) :=
  secretKeyJwk ← E (subtle_exportKey fmt_jwk key);
  secretKeyBytes ← run E (toSecretKeyBytes (VObj secretKeyJwk));
  secretKeyMultibase ← toSecretKeyMultibase secretKeyBytes;
  Ok (secretKeyMultibase, VObj secretKeyJwk).

(** Re-exporting a key that was imported from the JWK the engine exported
    for [key] gives that JWK again: the engine's JWK serialization is
    deterministic. *)
Definition jwk_reexport_stable (E : Engine) (key : val) (keyUsages : list string)
  : Prop :=
  forall (jwk : gmap string val) (h : N),
    E (subtle_exportKey fmt_jwk key) = Ok jwk ->
    E (subtle_importKey fmt_jwk (VObj jwk) RSA_PSS_SHA256 true keyUsages) = Ok h ->
    E (subtle_exportKey fmt_jwk (VKey h)) = Ok jwk.

(** The key pair that [toJwk] and [_createKeyPairInterface] work on: the
    argument itself when its [publicKey] is a key of the engine, and what
    [importKeyPair] makes of it otherwise (the first statement of both
    functions). *)
Definition engine_backed `{runtime : Codec} (keyPair : val) : async val :=
  if negb (instanceof_CryptoKey (keyPair !!! "publicKey"))
     && negb (truthy ((keyPair !!! "publicKey") !!! "algorithm"))
  then importKeyPair keyPair else Resolve keyPair.

(** [if(!jwk.alg) jwk.alg = 'PS256'] on an exported JWK. *)
Definition with_alg (jwk : gmap string val) : gmap string val :=
  if truthy (VObj jwk !!! "alg") then jwk else <["alg" := VStr "PS256"]> jwk.

(** The Multikey that [fromJwk] builds before it looks at the secret half:
    context, type, the public multibase text, the public JWK with [alg]
    ensured, the modulus length, and [id] and [controller] when they are
    strings. *)
Definition jwk_multikey (jwk publicKeyMultibase modulusLength id controller : val)
  : gmap string val :=
  let multikey : gmap string val :=
    {[ "@context" := VStr MULTIKEY_CONTEXT_V1_URL;
       "type" := VStr "Multikey";
       "publicKeyMultibase" := publicKeyMultibase;
       "publicKeyJwk" :=
         VObj {[ "kty" := jwk !!! "kty"; "n" := jwk !!! "n";
                 "e" := jwk !!! "e";
                 "alg" := or_else (jwk !!! "alg") (VStr "PS256") ]};
       "modulusLength" := modulusLength ]} in
  let multikey :=
    if String.eqb (typeof id) "string" then <["id" := id]> multikey else multikey in
  if String.eqb (typeof controller) "string"
  then <["controller" := controller]> multikey else multikey.

(** The last adjustment [from] makes to a literal Multikey: an [id] derived
    from the controller when there is a controller and no [id]. *)
Definition with_derived_id `{runtime : Codec} (multikey : val) : async val :=
  if truthy (multikey !!! "controller") && negb (truthy (multikey !!! "id")) then
    controller ← ToString (multikey !!! "controller");
    publicKeyMultibase ← ToString (multikey !!! "publicKeyMultibase");
    Resolve (<["id" := VStr (controller ++ "#" ++ publicKeyMultibase)]> multikey)
  else Resolve multikey.

(** A value whose conversion to a string neither throws nor calls anything:
    everything but a plain object with an own [toString], and an array
    holding one. *)
Definition converts `{runtime : Codec} (v : val) (text : string) : Prop :=
  ToString v = Resolve text.

(** The primitive values. *)
Definition primitive (v : val) : Prop :=
  match v with
  | VUndef | VNull | VBool _ | VNum _ | VStr _ => True
  | _ => False
  end.

(** A Multikey for which [from] derives no [id], or derives it from values
    that convert to strings without throwing or calling anything. *)
Definition quiet_id `{runtime : Codec} (multikey : val) : Prop :=
  truthy (multikey !!! "controller") && negb (truthy (multikey !!! "id")) = false
  \/ exists controller publicKeyMultibase,
       converts (multikey !!! "controller") controller
       /\ converts (multikey !!! "publicKeyMultibase") publicKeyMultibase.

(** The early return of [importKeyPair]: the [publicKey] of the key pair is
    already a key of the engine. *)
Definition holds_engine_key (keyPair : val) : bool :=
  instanceof_CryptoKey (keyPair !!! "publicKey")
  || (truthy (keyPair !!! "publicKey")
      && truthy ((keyPair !!! "publicKey") !!! "algorithm")).

(** A property name other than those of the three methods of an
    interface. *)
Definition data_property (k : string) : Prop :=
  k <> "export" /\ k <> "signer" /\ k <> "verifier".

(** A string other than the empty one. *)
Definition nonempty_string (v : val) : Prop := exists s, v = VStr s /\ s <> "".

(** The properties a Multikey document can have. *)
Definition document_properties : list string :=
  ["type"; "@context"; "id"; "controller"; "publicKeyMultibase"; "publicKeyJwk";
   "secretKeyMultibase"; "secretKeyJwk"].

(** The fields of a document: a public half and a secret half laid over a
    base. *)
Definition with_halves (base : gmap string val) (public secret : option (val * val))
  : gmap string val :=
  let fs := match public with
            | Some (multibase, jwk) =>
                <["publicKeyJwk" := jwk]> (<["publicKeyMultibase" := multibase]> base)
            | None => base
            end in
  match secret with
  | Some (multibase, jwk) =>
      <["secretKeyJwk" := jwk]> (<["secretKeyMultibase" := multibase]> fs)
  | None => fs
  end.

(** * Properties *)

(** ** Objects *)

Lemma insert_VObj (fs : gmap string val) (k : string) (x : val) :
  <[k:=x]> (VObj fs) = VObj (<[k:=x]> fs).
Proof. reflexivity. Qed.

Lemma get_VObj (fs : gmap string val) (k : string) :
  VObj fs !!! k = default VUndef (fs !! k).
Proof. reflexivity. Qed.

(** The three methods of an interface leave its data properties alone. *)
Lemma attach_methods_lookup (fs : gmap string val) (k : string) :
  data_property k -> attach_methods fs !! k = fs !! k.
Proof.
  intros (He & Hs & Hv). unfold attach_methods. cbv zeta.
  by rewrite !lookup_insert_ne.
Qed.

Lemma attach_methods_methods (fs : gmap string val) :
  attach_methods fs !! "export" = Some (VFun method_export (data_properties fs))
  /\ attach_methods fs !! "signer" = Some (VFun method_signer (data_properties fs))
  /\ attach_methods fs !! "verifier" = Some (VFun method_verifier (data_properties fs)).
Proof.
  unfold attach_methods. cbv zeta.
  rewrite lookup_insert_ne, lookup_insert_ne, lookup_insert_eq by done.
  rewrite lookup_insert_ne, lookup_insert_eq by done.
  by rewrite lookup_insert_eq.
Qed.

Lemma with_methods_VObj (fs : gmap string val) :
  with_methods (VObj fs) = VObj (attach_methods fs).
Proof. reflexivity. Qed.

Lemma with_methods_get (keyPair : val) (k : string) :
  data_property k -> with_methods keyPair !!! k = keyPair !!! k.
Proof.
  intros Hk. destruct keyPair; try reflexivity.
  by rewrite with_methods_VObj, !get_VObj, attach_methods_lookup.
Qed.

Lemma data_properties_attach (fs : gmap string val) :
  data_properties (attach_methods fs) = data_properties fs.
Proof.
  apply map_eq. intros k. unfold data_properties, attach_methods. cbv zeta.
  destruct (decide (k = "verifier")) as [-> | Hv]; [by rewrite !lookup_delete_eq |].
  rewrite !(lookup_delete_ne _ "verifier") by done.
  destruct (decide (k = "signer")) as [-> | Hs]; [by rewrite !lookup_delete_eq |].
  rewrite !(lookup_delete_ne _ "signer") by done.
  destruct (decide (k = "export")) as [-> | He]; [by rewrite !lookup_delete_eq |].
  rewrite !(lookup_delete_ne _ "export") by done.
  by rewrite !lookup_insert_ne.
Qed.

Lemma interface_assign_VObj (fs : gmap string val) (k : string) (x : val) :
  interface_assign k x (VObj fs) = VObj (attach_methods (<[k := x]> fs)).
Proof. reflexivity. Qed.

Lemma interface_assign_get_eq (fs : gmap string val) (k : string) (x : val) :
  data_property k -> interface_assign k x (VObj fs) !!! k = x.
Proof.
  intros Hk.
  by rewrite interface_assign_VObj, get_VObj, attach_methods_lookup, lookup_insert_eq.
Qed.

Lemma interface_assign_get_ne (keyPair : val) (k k' : string) (x : val) :
  k <> k' -> data_property k' -> interface_assign k x keyPair !!! k' = keyPair !!! k'.
Proof.
  intros Hne Hk. unfold interface_assign. rewrite with_methods_get by done.
  destruct keyPair; try reflexivity.
  by rewrite insert_VObj, !get_VObj, lookup_insert_ne.
Qed.

Lemma data_property_test (k : string) :
  negb (String.eqb k "export") && negb (String.eqb k "signer")
  && negb (String.eqb k "verifier") = true -> data_property k.
Proof.
  intros Hk. apply andb_prop in Hk as [Hk Hv]. apply andb_prop in Hk as [He Hs].
  repeat split; intros ->; discriminate.
Qed.

(** Looking a data property up in an interface. *)
Ltac interface_lookup :=
  repeat first
    [ rewrite attach_methods_lookup by (by apply data_property_test)
    | rewrite lookup_insert_eq
    | rewrite lookup_insert_ne by done ].


(** ** Running programs *)

Lemma run_bind {A B} (E : Engine) (m : async A) (f : A -> async B) :
  run E (m ≫= f) = run E m ≫= (fun a => run E (f a)).
Proof.
  induction m as [a | e | c k IH]; simpl; try reflexivity.
  apply IH.
Qed.

Lemma run_await (E : Engine) (c : EngineCall) : run E (await c) = E c.
Proof. unfold await; simpl. by destruct (E c). Qed.

Lemma run_lift {A} (E : Engine) (o : outcome A) : run E (lift o) = o.
Proof. by destruct o. Qed.

Lemma outcome_bind_Ok {A B} (m : outcome A) (f : A -> outcome B) (b : B) :
  m ≫= f = Ok b -> exists a, m = Ok a /\ f a = Ok b.
Proof. destruct m as [a | e]; [intros Hf; by exists a | discriminate]. Qed.

(** Tactics that push [run] through a program: [run_norm] turns the run of
    a sequence into a sequence of outcomes, [ok_step] continues after an
    outcome is known. *)
Ltac ok_step := cbn [mbind outcome_bind mret outcome_ret run].

Ltac run_await_step :=
  match goal with
  | |- context [run ?E (await ?c)] =>
      change (run E (await c)) with (run E (lift (E c)))
  end.

Ltac run_norm :=
  repeat first [rewrite run_bind | run_await_step | rewrite run_lift].

(** The engine calls of a program, in order. *)
Lemma calls_bind {A B} (E : Engine) (m : async A) (f : A -> async B) :
  calls E (m ≫= f)
  = (calls E m ++ match run E m with Ok a => calls E (f a) | Err _ => [] end)%list.
Proof.
  induction m as [a | e | c k IH]; simpl; try reflexivity.
  f_equal. apply IH.
Qed.

Lemma calls_lift {A} (E : Engine) (o : outcome A) : calls E (lift o) = [].
Proof. by destruct o. Qed.

Ltac calls_await_step :=
  match goal with
  | |- context [calls ?E (await ?c)] =>
      change (calls E (await c)) with (c :: calls E (lift (E c)))
  end.

Ltac calls_norm :=
  repeat first [rewrite calls_bind | calls_await_step | rewrite calls_lift
               | run_await_step | rewrite run_lift].


(** ** Validation: [generate] and [_assertMultikey] *)

Section Validation.
Context `{runtime : Codec}.

Lemma is_str_true (v : val) (s : string) : is_str v s = true <-> v = VStr s.
Proof.
  destruct v; simpl; try (split; [discriminate | intros [=]]).
  rewrite String.eqb_eq. split; [by intros -> | by intros [= ->]].
Qed.

Lemma is_str_false (v : val) (s : string) : is_str v s = false <-> v <> VStr s.
Proof.
  rewrite <- is_str_true. destruct (is_str v s); split; congruence.
Qed.

Lemma is_num_true (v : val) (n : Z) : is_num v n = true <-> v = VNum n.
Proof.
  destruct v; simpl; try (split; [discriminate | intros [=]]).
  rewrite Z.eqb_eq. split; [by intros -> | by intros [= ->]].
Qed.

Lemma allowed_modulusLength_test (m : val) :
  negb (is_num m 2048) && negb (is_num m 3072) && negb (is_num m 4096) = false
  <-> allowed_modulusLength m.
Proof.
  unfold allowed_modulusLength. rewrite <- !is_num_true.
  destruct (is_num m 2048), (is_num m 3072), (is_num m 4096); simpl;
    intuition congruence.
Qed.

(** C2.  [generate] rejects every modulus length other than 2048, 3072 and
    4096 (after the default 4096 has replaced an omitted one) with a
    [TypeError], before any engine call; for the three allowed lengths it
    passes the validation and proceeds to the engine's key generation with
    exactly that length: nothing is clamped. *)
Theorem generate_modulusLength_validation (id controller modulusLength : val) :
  let m := param_default modulusLength (VNum DEFAULT_MODULUS_LENGTH) in
  (~ allowed_modulusLength m ->
   generate id controller modulusLength
   = Throw (TypeError (quoted "modulusLength"
                         ++ " must be one of: 2048, 3072, or 4096.")))
  /\ (allowed_modulusLength m ->
      exists k,
        generate id controller modulusLength
        = Await (subtle_generateKey
                   (VObj {[ "name" := VStr "RSA-PSS"; "hash" := VStr "SHA-256";
                            "modulusLength" := m;
                            "publicExponent" := VBytes [x01; x00; x01] ]})
                   true ["sign"; "verify"]) k).
Proof.
  intros m. unfold generate. fold m.
  destruct (negb (is_num m 2048) && negb (is_num m 3072) && negb (is_num m 4096))
    eqn:Htest.
  - split; [reflexivity |].
    intros Hm. apply allowed_modulusLength_test in Hm. congruence.
  - apply allowed_modulusLength_test in Htest. split; [tauto |].
    intros _. eexists. reflexivity.
Qed.

Lemma includes_context (xs : list val) :
  existsb (fun x => is_str x MULTIKEY_CONTEXT_V1_URL) xs = true
  <-> In (VStr MULTIKEY_CONTEXT_V1_URL) xs.
Proof.
  rewrite existsb_exists. split.
  - intros (x & Hin & Hx). apply is_str_true in Hx. by subst.
  - intros Hin. exists (VStr MULTIKEY_CONTEXT_V1_URL). split; [done |].
    by apply is_str_true.
Qed.

Lemma is_object_test (v : val) :
  truthy v && String.eqb (typeof v) "object" = true <-> is_object v.
Proof.
  unfold is_object.
  destruct v; simpl; rewrite ?andb_false_r; split;
    try discriminate; try (intros [? ?]; congruence);
    intros _; (split; [reflexivity | discriminate]).
Qed.

Lemma context_test (c : val) :
  is_str c MULTIKEY_CONTEXT_V1_URL
  || (Array_isArray c
      && match c with
         | VArr xs => existsb (fun x => is_str x MULTIKEY_CONTEXT_V1_URL) xs
         | _ => false
         end) = true
  <-> context_ok c.
Proof.
  unfold context_ok. rewrite orb_true_iff, is_str_true. split.
  - intros [-> | Harr]; [by left | right].
    destruct c; try discriminate. simpl in Harr.
    exists xs. split; [done |]. by apply includes_context.
  - intros [-> | (xs & -> & Hin)]; [by left | right].
    simpl. by apply includes_context.
Qed.

(** C4.  [_assertMultikey] accepts a key exactly when it is an object, its
    [type] is ['Multikey'] and its [@context] is the fixed URL or an array
    containing it; otherwise it throws a [TypeError] whose message names the
    first clause that fails.  A context array [[{}, URL]] is accepted like
    the bare URL. *)
Theorem assertMultikey_accepts_iff_valid (key : val) :
  (_assertMultikey key = Ok () <-> valid_Multikey key)
  /\ (~ is_object key ->
      _assertMultikey key = Err (TypeError (quoted "key" ++ " must be an object.")))
  /\ (is_object key -> key !!! "type" <> VStr "Multikey" ->
      _assertMultikey key
      = Err (TypeError (quoted "key" ++ " must be a Multikey with type "
                          ++ quoted "Multikey" ++ ".")))
  /\ (is_object key -> key !!! "type" = VStr "Multikey" ->
      ~ context_ok (key !!! "@context") ->
      _assertMultikey key
      = Err (TypeError (quoted "key" ++ " must be a Multikey with context "
                          ++ quoted MULTIKEY_CONTEXT_V1_URL ++ ".")))
  /\ (forall fs : gmap string val,
        _assertMultikey
          (VObj (<["@context" := VArr [VObj ∅; VStr MULTIKEY_CONTEXT_V1_URL]]> fs))
        = _assertMultikey (VObj (<["@context" := VStr MULTIKEY_CONTEXT_V1_URL]> fs))).
Proof.
  pose proof (is_object_test key) as Hobj.
  pose proof (context_test (key !!! "@context")) as Hctx.
  pose proof (is_str_true (key !!! "type") "Multikey") as Hty.
  unfold _assertMultikey, valid_Multikey.
  split; [| split; [| split; [| split]]].
  - destruct (truthy key && String.eqb (typeof key) "object"); simpl.
    + destruct (is_str (key !!! "type") "Multikey"); simpl.
      * destruct (is_str (key !!! "@context") MULTIKEY_CONTEXT_V1_URL || _); simpl.
        -- intuition.
        -- split; [discriminate |]. intros (_ & _ & Hc). apply Hctx in Hc. discriminate.
      * split; [discriminate |]. intros (_ & Ht & _). apply Hty in Ht. discriminate.
    + split; [discriminate |]. intros (Ho & _). apply Hobj in Ho. discriminate.
  - intros Hno.
    destruct (truthy key && String.eqb (typeof key) "object"); [| reflexivity].
    exfalso. apply Hno, Hobj. reflexivity.
  - intros Ho Hno. apply Hobj in Ho. rewrite Ho. simpl.
    destruct (is_str (key !!! "type") "Multikey"); [| reflexivity].
    exfalso. apply Hno, Hty. reflexivity.
  - intros Ho Ht Hno. apply Hobj in Ho. apply Hty in Ht. rewrite Ho, Ht. simpl.
    destruct (is_str (key !!! "@context") MULTIKEY_CONTEXT_V1_URL || _);
      [| reflexivity].
    exfalso. apply Hno, Hctx. reflexivity.
  - intros fs.
    rewrite !get_VObj, !lookup_insert_eq, !lookup_insert_ne by done.
    simpl. reflexivity.
Qed.

End Validation.

(** ** lib/helpers.js *)

Section Helpers.
Context `{runtime : Codec}.

(** C8, as amended.  For a JWK whose [n] is present and not empty (truthy),
    the modulus length is eight times the number of bytes that
    [Buffer.from(n, 'base64url')] yields, whatever these bytes are: a
    modulus that has lost a leading zero byte is reported eight bits
    shorter.  A JWK whose [n] is absent, or present but empty, is rejected
    with a [TypeError]. *)
Theorem getModulusLengthFromJwk_counts_bytes (jwk : val) :
  (truthy (jwk !!! "n") = true ->
   getModulusLengthFromJwk jwk
   = nBytes ← Buffer_from_base64url (jwk !!! "n");
     Ok (VNum (8 * Z.of_nat (length nBytes))))
  /\ (truthy (jwk !!! "n") = false ->
      getModulusLengthFromJwk jwk
      = Err (TypeError (quoted "jwk" ++ " must have an " ++ quoted "n"
                          ++ " property.")))
  /\ (forall (stripped : val) (bs : list byte),
        truthy (jwk !!! "n") = true -> truthy (stripped !!! "n") = true ->
        Buffer_from_base64url (jwk !!! "n") = Ok (x00 :: bs) ->
        Buffer_from_base64url (stripped !!! "n") = Ok bs ->
        exists bits : Z,
          getModulusLengthFromJwk jwk = Ok (VNum bits)
          /\ getModulusLengthFromJwk stripped = Ok (VNum (bits - 8))).
Proof.
  assert (Hpresent : forall j : val, truthy (j !!! "n") = true ->
            getModulusLengthFromJwk j
            = nBytes ← Buffer_from_base64url (j !!! "n");
              Ok (VNum (8 * Z.of_nat (length nBytes)))).
  { intros j Hn. unfold getModulusLengthFromJwk.
    assert (Hj : truthy j = true) by (destruct j; try discriminate; reflexivity).
    rewrite Hj, Hn. simpl.
    destruct (Buffer_from_base64url (j !!! "n")) as [bs | e]; simpl; [| reflexivity].
    do 2 f_equal. lia. }
  split; [apply Hpresent | split].
  - intros Hn. unfold getModulusLengthFromJwk. rewrite Hn.
    by rewrite orb_true_r.
  - intros stripped bs Hn Hs Hfull Hstripped.
    exists (8 * Z.of_nat (length (x00 :: bs))).
    rewrite (Hpresent jwk Hn), (Hpresent stripped Hs), Hfull, Hstripped.
    simpl. split; [reflexivity |]. do 2 f_equal. lia.
Qed.

End Helpers.


(** ** lib/factory.js: signers and verifiers *)

Section Factory.
Context `{runtime : Codec}.

Lemma truthy_VStr (s : string) : truthy (VStr s) = true <-> s <> "".
Proof.
  simpl. rewrite negb_true_iff. split.
  - intros Hs ->. discriminate.
  - intros Hs. destruct (String.eqb_spec s ""); congruence.
Qed.

(** What the first three steps of [sign] and [verify] make of [data]. *)
Lemma data_steps (data : val) :
  (signable data ->
   truthy data = true
   /\ (if String.eqb (typeof data) "string"
       then Resolve (TextEncoder_encode (String_text data))
       else if instanceof_Uint8Array data then Resolve (Uint8Array_bytes data)
       else Throw (TypeError (quoted "data" ++ " must be a string or Uint8Array.")))
      = Resolve (signed_bytes data))
  /\ (~ signable data ->
      truthy data = false
      \/ (if String.eqb (typeof data) "string"
          then Resolve (TextEncoder_encode (String_text data))
          else if instanceof_Uint8Array data then Resolve (Uint8Array_bytes data)
          else Throw (TypeError (quoted "data" ++ " must be a string or Uint8Array.")))
         = Throw (TypeError (quoted "data" ++ " must be a string or Uint8Array."))).
Proof.
  split.
  - intros [(s & -> & Hs) | (bs & ->)]; simpl; [| done].
    split; [| done]. by apply truthy_VStr.
  - intros Hno.
    destruct data as [| | b | n | s | bs | h | fs | xs | f self]; simpl; auto.
    + left. destruct (String.eqb_spec s "") as [-> | Hs]; [done |].
      exfalso. apply Hno. left. by exists s.
    + exfalso. apply Hno. right. by exists bs.
Qed.

(** C7, as amended.  A signer carries the fixed algorithm label ['PS256'].
    Its [sign] makes exactly one engine call, [subtle.sign] with the
    parameters [{name: 'RSA-PSS', saltLength: 32}] and the signer's key: on
    the UTF-8 bytes of a non-empty string, on the bytes of a byte string as
    they are; it resolves to the signature bytes as a [Uint8Array].  Any
    other [data], the empty string included, is rejected with a [TypeError]
    and no engine call. *)
Theorem signer_sign_encodes_and_signs (id secretKey : val) (S : Signer) :
  createSigner id secretKey = Ok S ->
  signer_algorithm S = VStr "PS256"
  /\ (forall data, signable data ->
      exists k,
        sign S data
        = Await (subtle_sign RSA_PSS_SALT32 secretKey (signed_bytes data)) k
        /\ forall r, k r = match r with
                           | Ok signature => Resolve (VBytes signature)
                           | Err e => Throw e
                           end)
  /\ (forall s, s <> "" -> signed_bytes (VStr s) = TextEncoder_encode s)
  /\ (forall bs, signed_bytes (VBytes bs) = bs)
  /\ (forall data, ~ signable data ->
      exists message, sign S data = Throw (TypeError message)).
Proof.
  unfold createSigner. intros Hcreate.
  destruct (negb (truthy id) || negb (String.eqb (typeof id) "string"));
    [discriminate |].
  destruct (negb (truthy secretKey)); [discriminate |].
  injection Hcreate as <-. simpl.
  split; [reflexivity |].
  split; [| split; [reflexivity | split; [reflexivity |]]].
  - intros data Hdata.
    destruct (data_steps data) as [Hyes _].
    destruct (Hyes Hdata) as [Htruthy Hbytes].
    rewrite Htruthy, Hbytes. simpl.
    eexists. split; [reflexivity |].
    intros [signature | e]; reflexivity.
  - intros data Hdata.
    destruct (data_steps data) as [_ Hno].
    destruct (Hno Hdata) as [Hfalsy | Hthrow].
    + rewrite Hfalsy. simpl. by eexists.
    + destruct (truthy data); simpl; [| by eexists].
      rewrite Hthrow. simpl. by eexists.
Qed.

(** C6, as amended.  [verify] with a [signature] that is not a [Uint8Array]
    throws a [TypeError] and makes no engine call.  With a byte-string
    signature and signable [data] it makes one engine call, [subtle.verify]
    with [{name: 'RSA-PSS', saltLength: 32}], and resolves to a boolean: the
    engine's answer, or [false] when the engine rejects the call.  With a
    byte-string signature and any other [data] it throws a [TypeError], again
    without an engine call. *)
Theorem verifier_verify_boolean (id publicKey : val) (V : Verifier) :
  createVerifier id publicKey = Ok V ->
  forall data signature : val,
    (instanceof_Uint8Array signature = false ->
     exists message, verify V data signature = Throw (TypeError message))
    /\ (forall sig, signature = VBytes sig -> signable data ->
        exists k,
          verify V data signature
          = Await (subtle_verify RSA_PSS_SALT32 publicKey sig (signed_bytes data)) k
          /\ forall r, k r = Resolve (VBool match r with
                                            | Ok isValid => isValid
                                            | Err _ => false
                                            end))
    /\ (instanceof_Uint8Array signature = true -> ~ signable data ->
        exists message, verify V data signature = Throw (TypeError message)).
Proof.
  unfold createVerifier. intros Hcreate data signature.
  destruct (negb (truthy id) || negb (String.eqb (typeof id) "string"));
    [discriminate |].
  destruct (negb (truthy publicKey)); [discriminate |].
  injection Hcreate as <-. simpl.
  destruct (data_steps data) as [Hyes Hno].
  split; [| split].
  - intros Hsig.
    destruct (truthy data); simpl; [| by eexists].
    destruct (truthy signature); simpl; [| by eexists].
    destruct (String.eqb (typeof data) "string"); simpl;
      [rewrite Hsig; by eexists |].
    destruct (instanceof_Uint8Array data); simpl; [| by eexists].
    rewrite Hsig. by eexists.
  - intros sig -> Hdata.
    destruct (Hyes Hdata) as [Htruthy Hbytes].
    rewrite Htruthy, Hbytes. simpl.
    eexists. split; [reflexivity |].
    intros [isValid | e]; reflexivity.
  - intros _ Hdata.
    destruct (Hno Hdata) as [Hfalsy | Hthrow].
    + rewrite Hfalsy. simpl. by eexists.
    + destruct (truthy data); simpl; [| by eexists].
      destruct (truthy signature); simpl; [| by eexists].
      rewrite Hthrow. simpl. by eexists.
Qed.

End Factory.

(** ** lib/serialize.js: the exporter *)

Section Serialize.
Context `{runtime : Codec}.

Lemma truthy_param_default (v : val) (b : bool) :
  truthy (param_default v (VBool b)) = match v with VUndef => b | _ => truthy v end.
Proof. by destruct v. Qed.

Lemma run_toPublicKeyBytes (E : Engine) (fs : gmap string val) :
  run E (toPublicKeyBytes (VObj fs))
  = publicKey ← E (subtle_importKey fmt_jwk (VObj fs) RSA_PSS_SHA256 true ["verify"]);
    exported ← E (subtle_exportKey fmt_spki (VKey publicKey));
    Ok (VBytes exported).
Proof.
  unfold toPublicKeyBytes.
  replace (negb (truthy (VObj fs)) || negb (String.eqb (typeof (VObj fs)) "object"))
    with false by reflexivity.
  cbv iota. run_norm.
  destruct (E (subtle_importKey _ _ _ _ _)) as [h | e]; ok_step; [| reflexivity].
  run_norm. by destruct (E (subtle_exportKey _ _)).
Qed.

Lemma run_toSecretKeyBytes (E : Engine) (fs : gmap string val) :
  run E (toSecretKeyBytes (VObj fs))
  = if truthy (VObj fs !!! "d") then
      privateKey ← E (subtle_importKey fmt_jwk (VObj fs) RSA_PSS_SHA256 true ["sign"]);
      exported ← E (subtle_exportKey fmt_pkcs8 (VKey privateKey));
      Ok (VBytes exported)
    else Err (Error "JWK does not contain a private key.").
Proof.
  unfold toSecretKeyBytes.
  replace (negb (truthy (VObj fs)) || negb (String.eqb (typeof (VObj fs)) "object"))
    with false by reflexivity.
  cbv iota.
  destruct (truthy (VObj fs !!! "d")); cbn [negb]; [| reflexivity]. run_norm.
  destruct (E (subtle_importKey _ _ _ _ _)) as [h | e]; ok_step; [| reflexivity].
  run_norm. by destruct (E (subtle_exportKey _ _)).
Qed.

(** The envelope is what [exportKeyPair] starts its result from. *)
Lemma envelope_steps (keyPair includeContext : val) :
  (let result := VObj {[ "type" := VStr "Multikey" ]} in
   let result :=
     if truthy (param_default includeContext (VBool true))
     then <["@context" := VStr "https://w3id.org/security/multikey/v1"]> result
     else result in
   let result :=
     if truthy (keyPair !!! "id")
     then <["id" := keyPair !!! "id"]> result else result in
   if truthy (keyPair !!! "controller")
   then <["controller" := keyPair !!! "controller"]> result else result)
  = VObj (envelope keyPair includeContext).
Proof.
  unfold envelope. cbv zeta.
  destruct (truthy (keyPair !!! "controller")), (truthy (keyPair !!! "id")),
    (truthy (param_default includeContext (VBool true))); reflexivity.
Qed.

(** [exportKeyPair], run against an engine, in terms of the two halves. *)
Lemma run_exportKeyPair (E : Engine) (keyPair publicKey secretKey includeContext : val) :
  truthy keyPair && String.eqb (typeof keyPair) "object" = true ->
  run E (exportKeyPair keyPair publicKey secretKey includeContext)
  = result ←
      (if truthy (param_default publicKey (VBool true))
          && truthy (keyPair !!! "publicKey")
       then '(multibase, jwk) ← public_half_of E (keyPair !!! "publicKey");
            Ok (<["publicKeyJwk" := jwk]>
                  (<["publicKeyMultibase" := multibase]>
                     (envelope keyPair includeContext)))
       else Ok (envelope keyPair includeContext));
    if truthy (param_default secretKey (VBool false))
       && truthy (keyPair !!! "secretKey")
    then '(multibase, jwk) ← secret_half_of E (keyPair !!! "secretKey");
         Ok (VObj (<["secretKeyJwk" := jwk]>
                     (<["secretKeyMultibase" := multibase]> result)))
    else Ok (VObj result).
Proof.
  intros Hobj. unfold exportKeyPair.
  apply andb_true_iff in Hobj as [Ht Hty]. rewrite Ht, Hty.
  cbn [negb orb]. cbv zeta.
  pose proof (envelope_steps keyPair includeContext) as Henv.
  cbv zeta in Henv. rewrite Henv. clear Henv.
  generalize (envelope keyPair includeContext). intros env.
  assert (Hsecret : forall result : gmap string val,
    run E
      ((if truthy (param_default secretKey (VBool false))
           && truthy (keyPair !!! "secretKey")
        then
          secretKeyJwk ← await (subtle_exportKey fmt_jwk (keyPair !!! "secretKey"));
          secretKeyBytes ← toSecretKeyBytes (VObj secretKeyJwk);
          secretKeyMultibase ← lift (toSecretKeyMultibase secretKeyBytes);
          Resolve (<["secretKeyJwk" := VObj secretKeyJwk]>
                     (<["secretKeyMultibase" := secretKeyMultibase]> (VObj result)))
        else Resolve (VObj result)) ≫= (fun result => Resolve result))
    = if truthy (param_default secretKey (VBool false))
         && truthy (keyPair !!! "secretKey")
      then '(multibase, jwk) ← secret_half_of E (keyPair !!! "secretKey");
           Ok (VObj (<["secretKeyJwk" := jwk]>
                       (<["secretKeyMultibase" := multibase]> result)))
      else Ok (VObj result)).
  { intros result.
    destruct (truthy (param_default secretKey (VBool false))
              && truthy (keyPair !!! "secretKey")); [| reflexivity].
    unfold secret_half_of. run_norm.
    destruct (E (subtle_exportKey fmt_jwk (keyPair !!! "secretKey"))) as [js | e];
      ok_step; [| reflexivity].
    run_norm.
    destruct (run E (toSecretKeyBytes (VObj js))) as [bs | e]; ok_step; [| reflexivity].
    run_norm.
    destruct (toSecretKeyMultibase bs) as [ms | e]; ok_step; reflexivity. }
  rewrite run_bind.
  destruct (truthy (param_default publicKey (VBool true))
            && truthy (keyPair !!! "publicKey")).
  - unfold public_half_of. run_norm.
    destruct (E (subtle_exportKey fmt_jwk (keyPair !!! "publicKey"))) as [jp | e];
      ok_step; [| reflexivity].
    run_norm.
    destruct (run E (toPublicKeyBytes (VObj jp))) as [bp | e]; ok_step; [| reflexivity].
    run_norm.
    destruct (toPublicKeyMultibase bp) as [mp | e]; ok_step; [| reflexivity].
    apply Hsecret.
  - ok_step. apply Hsecret.
Qed.


Lemma envelope_lookup_None (keyPair includeContext : val) (k : string) :
  k <> "type" -> k <> "@context" -> k <> "id" -> k <> "controller" ->
  envelope keyPair includeContext !! k = None.
Proof.
  intros Ht Hc Hi Hco. unfold envelope. cbv zeta.
  destruct (truthy (keyPair !!! "controller")), (truthy (keyPair !!! "id")),
    (truthy (param_default includeContext (VBool true)));
    rewrite ?lookup_insert_ne by congruence; by apply lookup_singleton_ne.
Qed.

Lemma object_or_throw (E : Engine) (keyPair publicKey secretKey includeContext doc : val) :
  run E (exportKeyPair keyPair publicKey secretKey includeContext) = Ok doc ->
  truthy keyPair && String.eqb (typeof keyPair) "object" = true.
Proof.
  unfold exportKeyPair. cbv zeta.
  destruct (truthy keyPair), (String.eqb (typeof keyPair) "object");
    cbn [negb orb andb]; intros Hrun; try reflexivity; discriminate.
Qed.

Lemma truthy_default_twice (v : val) (b : bool) :
  param_default (param_default v (VBool b)) (VBool b) = param_default v (VBool b).
Proof. by destruct v. Qed.

(** A document-mode call of the [export] method is [exportKeyPair]. *)
Lemma exportFn_document (keyPair publicKey secretKey includeContext raw : val) :
  truthy raw = false ->
  exportFn keyPair publicKey secretKey includeContext raw
  = exportKeyPair keyPair publicKey secretKey includeContext.
Proof.
  intros Hraw. unfold exportFn. cbv zeta.
  assert (Hr : truthy (param_default raw (VBool false)) = false)
    by (destruct raw; try done).
  rewrite Hr. unfold exportKeyPair. cbv zeta.
  by rewrite !truthy_default_twice.
Qed.

(** C5.  A document export carries [secretKeyMultibase] and [secretKeyJwk]
    exactly when the secret half was requested and the key pair holds a
    secret key.  When both hold, the export is the export without the
    secret half followed by the export of the secret key: it resolves
    exactly when both do, to the document of the former with the two secret
    fields added, the engine's JWK of the secret key and the multibase text
    of its PKCS#8 bytes.  For a key pair without a secret key, requesting
    the secret half changes nothing: the export is the very program of the
    export without it, so it succeeds whenever the public half does, and its
    document has neither secret field.  The [export] method of a key pair
    interface in document mode ([raw] not set) is this export. *)
Theorem exportKeyPair_secret_iff_requested_and_held
    (keyPair publicKey secretKey includeContext : val) :
  (forall (E : Engine) (doc : val),
     run E (exportKeyPair keyPair publicKey secretKey includeContext) = Ok doc ->
     has_property doc "secretKeyMultibase"
     = truthy secretKey && truthy (keyPair !!! "secretKey")
     /\ has_property doc "secretKeyJwk"
        = truthy secretKey && truthy (keyPair !!! "secretKey"))
  /\ (forall (E : Engine) (base : gmap string val),
        truthy secretKey = true ->
        truthy (keyPair !!! "secretKey") = true ->
        run E (exportKeyPair keyPair publicKey (VBool false) includeContext)
        = Ok (VObj base) ->
        run E (exportKeyPair keyPair publicKey secretKey includeContext)
        = '(multibase, jwk) ← secret_half_of E (keyPair !!! "secretKey");
          Ok (VObj (<["secretKeyJwk" := jwk]>
                      (<["secretKeyMultibase" := multibase]> base))))
  /\ (forall (E : Engine) (e : exn),
        truthy secretKey = true ->
        truthy (keyPair !!! "secretKey") = true ->
        run E (exportKeyPair keyPair publicKey (VBool false) includeContext) = Err e ->
        run E (exportKeyPair keyPair publicKey secretKey includeContext) = Err e)
  /\ (forall (E : Engine) (publicKeyMultibase publicKeyJwk : val)
             (secretKeyMultibase secretKeyJwk : val),
        truthy (keyPair !!! "publicKey") = true ->
        truthy (keyPair !!! "secretKey") = true ->
        public_half_of E (keyPair !!! "publicKey") = Ok (publicKeyMultibase, publicKeyJwk) ->
        secret_half_of E (keyPair !!! "secretKey") = Ok (secretKeyMultibase, secretKeyJwk) ->
        run E (exportKeyPair keyPair (VBool true) (VBool true) includeContext)
        = Ok (VObj (<["secretKeyJwk" := secretKeyJwk]>
                      (<["secretKeyMultibase" := secretKeyMultibase]>
                         (<["publicKeyJwk" := publicKeyJwk]>
                            (<["publicKeyMultibase" := publicKeyMultibase]>
                               (envelope keyPair includeContext)))))))
  /\ (truthy (keyPair !!! "secretKey") = false ->
      exportKeyPair keyPair publicKey secretKey includeContext
      = exportKeyPair keyPair publicKey (VBool false) includeContext)
  /\ (forall (E : Engine) (multibase jwk : val),
        truthy (keyPair !!! "secretKey") = false ->
        truthy (keyPair !!! "publicKey") = true ->
        public_half_of E (keyPair !!! "publicKey") = Ok (multibase, jwk) ->
        run E (exportKeyPair keyPair (VBool true) (VBool true) includeContext)
        = Ok (VObj (<["publicKeyJwk" := jwk]>
                      (<["publicKeyMultibase" := multibase]>
                         (envelope keyPair includeContext)))))
  /\ (forall raw : val,
        truthy raw = false ->
        exportFn keyPair publicKey secretKey includeContext raw
        = exportKeyPair keyPair publicKey secretKey includeContext).
Proof.
  assert (Hrequested : truthy secretKey = true ->
            truthy (param_default secretKey (VBool false)) = true).
  { intros Hreq. by destruct secretKey. }
  split; [| split; [| split; [| split; [| split; [| split]]]]];
    [| | | | | | apply exportFn_document].
  4:{ intros E pmb pjwk smb sjwk Hpk Hsk Hpublic Hsecret.
      assert (Hobj : truthy keyPair && String.eqb (typeof keyPair) "object" = true).
      { destruct keyPair; try discriminate; reflexivity. }
      rewrite (run_exportKeyPair E _ _ _ _ Hobj).
      cbn [param_default truthy]. rewrite Hpk, Hsk, Hpublic.
      cbn [andb mbind outcome_bind]. by rewrite Hsecret. }
  2:{ intros E base Hreq Hheld Hbase.
      pose proof (object_or_throw _ _ _ _ _ _ Hbase) as Hobj.
      rewrite (run_exportKeyPair E _ _ _ _ Hobj) in Hbase.
      rewrite (run_exportKeyPair E _ _ _ _ Hobj).
      rewrite (Hrequested Hreq), Hheld. cbn [param_default truthy andb] in Hbase |- *.
      destruct (if truthy (param_default publicKey (VBool true))
                   && truthy (keyPair !!! "publicKey") then _ else _)
        as [result | e]; [| discriminate].
      cbn [mbind outcome_bind] in Hbase |- *. by injection Hbase as ->. }
  2:{ intros E e Hreq Hheld Hbase.
      destruct (truthy keyPair && String.eqb (typeof keyPair) "object") eqn:Hobj.
      - rewrite (run_exportKeyPair E _ _ _ _ Hobj) in Hbase.
        rewrite (run_exportKeyPair E _ _ _ _ Hobj).
        cbn [param_default truthy andb] in Hbase.
        destruct (if truthy (param_default publicKey (VBool true))
                     && truthy (keyPair !!! "publicKey") then _ else _)
          as [result | e']; [discriminate |].
        cbn [mbind outcome_bind] in Hbase |- *. exact Hbase.
      - unfold exportKeyPair in Hbase |- *. cbv zeta in Hbase |- *.
        apply andb_false_iff in Hobj.
        assert (Hguard : negb (truthy keyPair)
                         || negb (String.eqb (typeof keyPair) "object") = true).
        { destruct Hobj as [-> | ->]; [reflexivity | apply orb_true_r]. }
        rewrite Hguard in Hbase |- *. exact Hbase. }
  - intros E doc Hrun.
    pose proof (object_or_throw _ _ _ _ _ _ Hrun) as Hobj.
    rewrite (run_exportKeyPair E _ _ _ _ Hobj) in Hrun.
    apply outcome_bind_Ok in Hrun as (result & Hpublic & Hsecret).
    assert (Hfresh : result !! "secretKeyMultibase" = None
                     /\ result !! "secretKeyJwk" = None).
    { destruct (truthy (param_default publicKey (VBool true))
                && truthy (keyPair !!! "publicKey")).
      - apply outcome_bind_Ok in Hpublic as ([mb j] & _ & Hresult).
        injection Hresult as <-.
        rewrite !lookup_insert_ne by done.
        split; by apply envelope_lookup_None.
      - injection Hpublic as <-. split; by apply envelope_lookup_None. }
    destruct Hfresh as [Hmb Hjwk].
    rewrite truthy_param_default in Hsecret.
    assert (Hreq : match secretKey with VUndef => false | _ => truthy secretKey end
                   = truthy secretKey) by (by destruct secretKey).
    rewrite Hreq in Hsecret.
    destruct (truthy secretKey && truthy (keyPair !!! "secretKey")).
    + apply outcome_bind_Ok in Hsecret as ([mb j] & _ & Hdoc).
      injection Hdoc as <-. unfold has_property.
      rewrite lookup_insert_ne, !lookup_insert_eq by done.
      split; apply bool_decide_eq_true; by eexists.
    + injection Hsecret as <-. unfold has_property. rewrite Hmb, Hjwk.
      split; apply bool_decide_eq_false; by intros [? ?].
  - intros Hnone. unfold exportKeyPair. cbv zeta. rewrite Hnone.
    rewrite !andb_false_r. reflexivity.
  - intros E multibase jwk Hnone Hpk Hhalf.
    assert (Hobj : truthy keyPair && String.eqb (typeof keyPair) "object" = true).
    { destruct keyPair; try discriminate; reflexivity. }
    rewrite (run_exportKeyPair E _ _ _ _ Hobj).
    cbn [param_default truthy]. rewrite Hpk, Hnone, Hhalf.
    reflexivity.
Qed.

End Serialize.

(** ** lib/index.js: [toJwk], the interface, [generate] *)

Section Facade.
Context `{runtime : Codec}.

(** [toJwk], run against an engine. *)
Lemma run_toJwk (E : Engine) (keyPair secretKey : val) :
  run E (toJwk keyPair secretKey)
  = held ← run E (engine_backed keyPair);
    jwk ← E (subtle_exportKey fmt_jwk
               (if truthy secretKey && truthy (held !!! "secretKey")
                then held !!! "secretKey" else held !!! "publicKey"));
    Ok (VObj (with_alg jwk)).
Proof.
  unfold toJwk. cbv zeta. fold (engine_backed keyPair). run_norm.
  destruct (run E (engine_backed keyPair)) as [held | e]; ok_step; [| reflexivity].
  run_norm.
  assert (Hreq : truthy (param_default secretKey (VBool false)) = truthy secretKey)
    by (by destruct secretKey).
  rewrite Hreq.
  destruct (E (subtle_exportKey fmt_jwk _)) as [jwk | e]; ok_step; [| reflexivity].
  unfold with_alg. by destruct (truthy (VObj jwk !!! "alg")).
Qed.

Lemma has_property_with_alg (jwk : gmap string val) (k : string) :
  k <> "alg" ->
  has_property (VObj (with_alg jwk)) k = has_property (VObj jwk) k.
Proof.
  intros Hk. unfold with_alg, has_property.
  destruct (truthy (VObj jwk !!! "alg")); [reflexivity |].
  by rewrite lookup_insert_ne.
Qed.

(** C10.  On a key pair that holds no secret key, [toJwk] with
    [secretKey: true] does not fail for want of the secret: it runs as with
    [secretKey: false], exports the public key, and resolves to the
    engine's JWK of the public key with [alg] ensured.  That JWK has a [d]
    field only if the engine's export of the public key had one. *)
Theorem toJwk_public_only_falls_back (E : Engine) (keyPair secretKey held : val) :
  run E (engine_backed keyPair) = Ok held ->
  truthy (held !!! "secretKey") = false ->
  run E (toJwk keyPair secretKey) = run E (toJwk keyPair (VBool false))
  /\ run E (toJwk keyPair secretKey)
     = (jwk ← E (subtle_exportKey fmt_jwk (held !!! "publicKey"));
        Ok (VObj (with_alg jwk)))
  /\ (forall jwk : gmap string val,
        E (subtle_exportKey fmt_jwk (held !!! "publicKey")) = Ok jwk ->
        exists out,
          run E (toJwk keyPair secretKey) = Ok out
          /\ has_property out "d" = has_property (VObj jwk) "d"
          /\ truthy (out !!! "alg") = true).
Proof.
  intros Hheld Hnone.
  assert (Hrun : forall requested,
            run E (toJwk keyPair requested)
            = jwk ← E (subtle_exportKey fmt_jwk (held !!! "publicKey"));
              Ok (VObj (with_alg jwk))).
  { intros requested. rewrite run_toJwk, Hheld. ok_step.
    by rewrite Hnone, andb_false_r. }
  split; [by rewrite !Hrun | split; [apply Hrun |]].
  intros jwk Hexport. exists (VObj (with_alg jwk)).
  rewrite Hrun, Hexport. ok_step.
  split; [reflexivity | split].
  - by apply has_property_with_alg.
  - unfold with_alg.
    destruct (truthy (VObj jwk !!! "alg")) eqn:Halg; [exact Halg |].
    by rewrite get_VObj, lookup_insert_eq.
Qed.


(** A key pair whose [publicKey] is a key of the engine is used as it
    is. *)
Lemma engine_backed_native (keyPair : val) (h : N) :
  keyPair !!! "publicKey" = VKey h -> engine_backed keyPair = Resolve keyPair.
Proof. intros Hpk. unfold engine_backed. by rewrite Hpk. Qed.

(** The public half of a key is a multibase text and a JWK. *)
Lemma public_half_of_Ok (E : Engine) (key multibase jwk : val) :
  public_half_of E key = Ok (multibase, jwk) ->
  exists (bs : list byte) (fs : gmap string val),
    multibase = VStr (base58btc_encode bs) /\ jwk = VObj fs
    /\ E (subtle_exportKey fmt_jwk key) = Ok fs.
Proof.
  unfold public_half_of. intros Hhalf.
  apply outcome_bind_Ok in Hhalf as (fs & Hfs & Hhalf).
  apply outcome_bind_Ok in Hhalf as (bytes & Hbytes & Hhalf).
  apply outcome_bind_Ok in Hhalf as (mb & Hmb & Hhalf).
  injection Hhalf as <- <-.
  rewrite run_toPublicKeyBytes in Hbytes.
  apply outcome_bind_Ok in Hbytes as (h & _ & Hbytes).
  apply outcome_bind_Ok in Hbytes as (bs & _ & Hbytes).
  injection Hbytes as <-. injection Hmb as <-.
  by exists bs, fs.
Qed.

(** The [publicKeyMultibase] of a document export is the multibase text of
    the public half. *)
Lemma exportKeyPair_publicKeyMultibase
    (E : Engine) (keyPair publicKey secretKey includeContext doc : val) :
  truthy (param_default publicKey (VBool true)) = true ->
  truthy (keyPair !!! "publicKey") = true ->
  run E (exportKeyPair keyPair publicKey secretKey includeContext) = Ok doc ->
  exists multibase jwk,
    public_half_of E (keyPair !!! "publicKey") = Ok (multibase, jwk)
    /\ doc !!! "publicKeyMultibase" = multibase.
Proof.
  intros Hreq Hpk Hrun.
  assert (Hobj : truthy keyPair && String.eqb (typeof keyPair) "object" = true).
  { destruct keyPair; try discriminate; reflexivity. }
  rewrite (run_exportKeyPair E _ _ _ _ Hobj), Hreq, Hpk in Hrun.
  apply outcome_bind_Ok in Hrun as (result & Hpublic & Hsecret).
  apply outcome_bind_Ok in Hpublic as ([mb j] & Hhalf & Hresult).
  injection Hresult as <-.
  exists mb, j. split; [exact Hhalf |].
  destruct (truthy (param_default secretKey (VBool false))
            && truthy (keyPair !!! "secretKey")).
  - apply outcome_bind_Ok in Hsecret as ([ms js] & _ & Hdoc).
    injection Hdoc as <-.
    rewrite get_VObj, !lookup_insert_ne, lookup_insert_eq by done. reflexivity.
  - injection Hsecret as <-.
    rewrite get_VObj, lookup_insert_ne, lookup_insert_eq by done. reflexivity.
Qed.

(** [_createKeyPairInterface], run against an engine. *)
Lemma run_createKeyPairInterface (E : Engine) (keyPair modulusLength : val) :
  run E (_createKeyPairInterface keyPair modulusLength)
  = held ← run E (engine_backed keyPair);
    modulusLength ←
      (if negb (truthy modulusLength) then
         if truthy (held !!! "modulusLength") then Ok (held !!! "modulusLength")
         else if truthy (held !!! "publicKeyJwk")
              then getModulusLengthFromJwk (held !!! "publicKeyJwk")
              else Ok (VNum DEFAULT_MODULUS_LENGTH)
       else Ok modulusLength);
    exported ← run E (exportKeyPair held (VBool true) (VBool true) (VBool true));
    Ok (with_methods
          (<["modulusLength" := modulusLength]>
             (<["secretKeyMultibase" := exported !!! "secretKeyMultibase"]>
                (<["publicKeyMultibase" := exported !!! "publicKeyMultibase"]>
                   (spread held))))).
Proof.
  unfold _createKeyPairInterface. fold (engine_backed keyPair). run_norm.
  destruct (run E (engine_backed keyPair)) as [held | e]; ok_step; [| reflexivity].
  run_norm.
  assert (Hml :
    run E (if negb (truthy modulusLength) then
             if truthy (held !!! "modulusLength") then Resolve (held !!! "modulusLength")
             else if truthy (held !!! "publicKeyJwk")
                  then lift (getModulusLengthFromJwk (held !!! "publicKeyJwk"))
                  else Resolve (VNum DEFAULT_MODULUS_LENGTH)
           else Resolve modulusLength)
    = (if negb (truthy modulusLength) then
         if truthy (held !!! "modulusLength") then Ok (held !!! "modulusLength")
         else if truthy (held !!! "publicKeyJwk")
              then getModulusLengthFromJwk (held !!! "publicKeyJwk")
              else Ok (VNum DEFAULT_MODULUS_LENGTH)
       else Ok modulusLength)).
  { destruct (negb (truthy modulusLength)); [| reflexivity].
    destruct (truthy (held !!! "modulusLength")); [reflexivity |].
    destruct (truthy (held !!! "publicKeyJwk")); [| reflexivity].
    apply run_lift. }
  rewrite Hml. clear Hml.
  match goal with
  | |- ?m ≫= _ = _ => destruct m as [ml | e]; ok_step; [| reflexivity]
  end.
  run_norm. rewrite exportFn_document by reflexivity.
  destruct (run E (exportKeyPair held _ _ _)) as [exported | e]; ok_step; reflexivity.
Qed.

(** C3, as amended.  When [generate] is called without an [id], the key
    pair it returns has the id [controller#publicKeyMultibase] if the
    controller is truthy and [#publicKeyMultibase] otherwise, where
    [controller] is the text the template literal makes of the controller
    and [publicKeyMultibase] is the text the key pair itself carries; the
    id is never left undefined.  For a string controller the text is the
    controller itself; for a number it is its decimal text, in exponent form
    from [1e21]. *)
Theorem generate_derives_id (E : Engine) (id controller modulusLength keyPair : val) :
  truthy id = false ->
  run E (generate id controller modulusLength) = Ok keyPair ->
  exists publicKeyMultibase : string,
    keyPair !!! "publicKeyMultibase" = VStr publicKeyMultibase
    /\ (if truthy controller
        then exists text,
               run E (ToString controller) = Ok text
               /\ keyPair !!! "id" = VStr (text ++ "#" ++ publicKeyMultibase)
        else keyPair !!! "id" = VStr ("#" ++ publicKeyMultibase))
    /\ keyPair !!! "id" <> VUndef
    /\ keyPair !!! "controller" = controller
    /\ (forall c : string, controller = VStr c ->
          keyPair !!! "id" = VStr (c ++ "#" ++ publicKeyMultibase))
    /\ (forall n : Z, controller = VNum n -> n <> 0 ->
          keyPair !!! "id" = VStr (Number_toString n ++ "#" ++ publicKeyMultibase)).
Proof.
  intros Hid Hrun. unfold generate in Hrun. cbv zeta in Hrun.
  destruct (negb (is_num _ 2048) && negb (is_num _ 3072) && negb (is_num _ 4096));
    [discriminate |].
  rewrite run_bind in Hrun.
  apply outcome_bind_Ok in Hrun as ([pub priv] & _ & Hrun).
  set (m := param_default modulusLength (VNum DEFAULT_MODULUS_LENGTH)) in *.
  set (pair := delete "privateKey" _) in Hrun.
  assert (Hpair : pair = VObj {[ "publicKey" := VKey pub; "secretKey" := VKey priv ]}).
  { subst pair. reflexivity. }
  rewrite Hpair in Hrun. clear pair Hpair.
  rewrite run_bind, run_createKeyPairInterface in Hrun.
  apply outcome_bind_Ok in Hrun as (interface & Hinterface & Hrun).
  rewrite (engine_backed_native _ pub) in Hinterface by reflexivity.
  cbn [run] in Hinterface. ok_step. cbn [mbind outcome_bind] in Hinterface.
  apply outcome_bind_Ok in Hinterface as (ml & _ & Hinterface).
  apply outcome_bind_Ok in Hinterface as (first & Hfirst & Hinterface).
  injection Hinterface as Hinterface.
  assert (Hshape : exists fs0 : gmap string val,
            interface = VObj fs0
            /\ fs0 !! "publicKey" = Some (VKey pub)
            /\ fs0 !! "publicKeyMultibase" = Some (first !!! "publicKeyMultibase")).
  { subst interface. eexists. split; [reflexivity |]. split; reflexivity. }
  destruct Hshape as (fs0 & -> & Hpk0 & Hmb0).
  pose proof (exportKeyPair_publicKeyMultibase E
                (VObj {[ "publicKey" := VKey pub; "secretKey" := VKey priv ]})
                (VBool true) _ _ _ eq_refl eq_refl Hfirst) as (mb & j & Hhalf & Hmb).
  change (VObj {[ "publicKey" := VKey pub; "secretKey" := VKey priv ]} !!! "publicKey")
    with (VKey pub) in Hhalf.
  rewrite run_bind, exportFn_document in Hrun by reflexivity.
  apply outcome_bind_Ok in Hrun as (second & Hsecond & Hrun).
  assert (Hsame : VObj fs0 !!! "publicKey" = VKey pub)
    by (by rewrite get_VObj, Hpk0).
  assert (Hheld : truthy (VObj fs0 !!! "publicKey") = true) by (by rewrite Hsame).
  pose proof (exportKeyPair_publicKeyMultibase E (VObj fs0) (VBool true) _ _ _
                eq_refl Hheld Hsecond) as (mb' & j' & Hhalf' & Hmb').
  rewrite Hsame, Hhalf in Hhalf'. injection Hhalf' as <- <-.
  apply public_half_of_Ok in Hhalf as (bs & fs & -> & _ & _).
  rewrite run_bind in Hrun.
  apply outcome_bind_Ok in Hrun as (derived & Hderived & Hrun).
  cbn [run] in Hrun. injection Hrun as <-.
  rewrite Hid, Hmb' in Hderived. cbn [negb] in Hderived.
  assert (Hdata : forall k, k = "id" \/ k = "controller" \/ k = "publicKeyMultibase" ->
                            data_property k).
  { intros k [-> | [-> | ->]]; by apply data_property_test. }
  assert (Hgot_id : interface_assign "modulusLength" m
                      (interface_assign "controller" controller
                         (interface_assign "id" derived (VObj fs0))) !!! "id" = derived).
  { rewrite !interface_assign_get_ne by (try done; apply Hdata; auto).
    apply interface_assign_get_eq, Hdata. auto. }
  assert (Hgot_controller :
            interface_assign "modulusLength" m
              (interface_assign "controller" controller
                 (interface_assign "id" derived (VObj fs0))) !!! "controller"
            = controller).
  { rewrite interface_assign_get_ne by (try done; apply Hdata; auto).
    rewrite interface_assign_VObj.
    apply interface_assign_get_eq, Hdata. auto. }
  assert (Hgot_mb :
            interface_assign "modulusLength" m
              (interface_assign "controller" controller
                 (interface_assign "id" derived (VObj fs0))) !!! "publicKeyMultibase"
            = VStr (base58btc_encode bs)).
  { rewrite !interface_assign_get_ne by (try done; apply Hdata; auto).
    by rewrite get_VObj, Hmb0, Hmb. }
  rewrite Hgot_id, Hgot_controller, Hgot_mb.
  exists (base58btc_encode bs).
  assert (Hcases :
            if truthy controller
            then exists text, run E (ToString controller) = Ok text
                              /\ derived = VStr (text ++ "#" ++ base58btc_encode bs)
            else derived = VStr ("#" ++ base58btc_encode bs)).
  { destruct (truthy controller).
    - rewrite run_bind in Hderived.
      apply outcome_bind_Ok in Hderived as (text & Htext & Hderived).
      cbn in Hderived. injection Hderived as <-. by exists text.
    - cbn in Hderived. by injection Hderived as <-. }
  split; [reflexivity |]. split; [exact Hcases |].
  split; [| split; [reflexivity | split]].
  - destruct (truthy controller); [destruct Hcases as (text & _ & ->) | subst derived];
      discriminate.
  - intros c ->.
    destruct (truthy (VStr c)) eqn:Hc.
    + destruct Hcases as (text & Htext & ->). by injection Htext as <-.
    + subst derived. apply negb_false_iff, String.eqb_eq in Hc. by subst c.
  - intros n -> Hn.
    assert (Htruthy : truthy (VNum n) = true).
    { cbn. apply negb_true_iff, Z.eqb_neq, Hn. }
    rewrite Htruthy in Hcases.
    destruct Hcases as (text & Htext & ->). by injection Htext as <-.
Qed.

End Facade.

(** ** Export, import, export *)

Section RoundTrip.
Context `{runtime : Codec}.

(** What an envelope holds for [id] and [controller]: the key pair's value
    when it is truthy, nothing otherwise. *)
Lemma envelope_id (keyPair includeContext : val) :
  default VUndef (envelope keyPair includeContext !! "id")
  = if truthy (keyPair !!! "id") then keyPair !!! "id" else VUndef.
Proof.
  unfold envelope. cbv zeta.
  destruct (truthy (keyPair !!! "controller")), (truthy (keyPair !!! "id")),
    (truthy (param_default includeContext (VBool true))); reflexivity.
Qed.

Lemma envelope_controller (keyPair includeContext : val) :
  default VUndef (envelope keyPair includeContext !! "controller")
  = if truthy (keyPair !!! "controller") then keyPair !!! "controller" else VUndef.
Proof.
  unfold envelope. cbv zeta.
  destruct (truthy (keyPair !!! "controller")), (truthy (keyPair !!! "id")),
    (truthy (param_default includeContext (VBool true))); reflexivity.
Qed.

Lemma truthy_or_undef (v w : val) :
  v = (if truthy w then w else VUndef) ->
  truthy v = truthy w /\ (truthy w = true -> v = w).
Proof.
  intros ->. destruct (truthy w) eqn:Hw; [by rewrite Hw | done].
Qed.

(** Two key pairs with the same truthy [id] and [controller] have the same
    envelope. *)
Lemma envelope_ext (imported keyPair includeContext : val) :
  imported !!! "id" = (if truthy (keyPair !!! "id") then keyPair !!! "id" else VUndef) ->
  imported !!! "controller"
  = (if truthy (keyPair !!! "controller") then keyPair !!! "controller" else VUndef) ->
  envelope imported includeContext = envelope keyPair includeContext.
Proof.
  intros Hid Hco.
  apply truthy_or_undef in Hid as [Hid Hid'], Hco as [Hco Hco'].
  unfold envelope. cbv zeta. rewrite Hid, Hco.
  destruct (truthy (keyPair !!! "controller")), (truthy (keyPair !!! "id"));
    rewrite ?Hid', ?Hco' by reflexivity; reflexivity.
Qed.

Lemma secret_half_of_Ok (E : Engine) (key multibase jwk : val) :
  secret_half_of E key = Ok (multibase, jwk) ->
  exists (fs : gmap string val) (h : N),
    jwk = VObj fs
    /\ E (subtle_exportKey fmt_jwk key) = Ok fs
    /\ E (subtle_importKey fmt_jwk (VObj fs) RSA_PSS_SHA256 true ["sign"]) = Ok h.
Proof.
  unfold secret_half_of. intros Hhalf.
  apply outcome_bind_Ok in Hhalf as (fs & Hfs & Hhalf).
  apply outcome_bind_Ok in Hhalf as (bytes & Hbytes & Hhalf).
  apply outcome_bind_Ok in Hhalf as (mb & Hmb & Hhalf).
  injection Hhalf as <- <-.
  rewrite run_toSecretKeyBytes in Hbytes.
  destruct (truthy (VObj fs !!! "d")); [| discriminate].
  apply outcome_bind_Ok in Hbytes as (h & Hh & _).
  by exists fs, h.
Qed.

Lemma public_half_of_import (E : Engine) (key multibase : val) (fs : gmap string val) :
  public_half_of E key = Ok (multibase, VObj fs) ->
  exists h : N,
    E (subtle_importKey fmt_jwk (VObj fs) RSA_PSS_SHA256 true ["verify"]) = Ok h.
Proof.
  unfold public_half_of. intros Hhalf.
  apply outcome_bind_Ok in Hhalf as (fs' & Hfs & Hhalf).
  apply outcome_bind_Ok in Hhalf as (bytes & Hbytes & Hhalf).
  apply outcome_bind_Ok in Hhalf as (mb & Hmb & Hhalf).
  injection Hhalf as _ <-.
  rewrite run_toPublicKeyBytes in Hbytes.
  apply outcome_bind_Ok in Hbytes as (h & Hh & _).
  by exists h.
Qed.

(** The halves of a key depend on the key only through its JWK export. *)
Lemma public_half_of_ext (E : Engine) (key key' : val) :
  E (subtle_exportKey fmt_jwk key') = E (subtle_exportKey fmt_jwk key) ->
  public_half_of E key' = public_half_of E key.
Proof. intros Hsame. unfold public_half_of. by rewrite Hsame. Qed.

Lemma secret_half_of_ext (E : Engine) (key key' : val) :
  E (subtle_exportKey fmt_jwk key') = E (subtle_exportKey fmt_jwk key) ->
  secret_half_of E key' = secret_half_of E key.
Proof. intros Hsame. unfold secret_half_of. by rewrite Hsame. Qed.

(** C1.  Let a key pair hold a public and a secret key, and let the engine
    serialize JWKs deterministically.  If exporting the pair with both
    halves yields a document, then importing that document succeeds and
    exporting the imported pair with the same options yields the same
    document, field for field. *)
Theorem export_import_export_roundtrip
    (E : Engine) (keyPair includeContext doc : val) :
  truthy (keyPair !!! "publicKey") = true ->
  truthy (keyPair !!! "secretKey") = true ->
  jwk_reexport_stable E (keyPair !!! "publicKey") ["verify"] ->
  jwk_reexport_stable E (keyPair !!! "secretKey") ["sign"] ->
  run E (exportKeyPair keyPair (VBool true) (VBool true) includeContext) = Ok doc ->
  exists imported,
    run E (importKeyPair doc) = Ok imported
    /\ run E (exportKeyPair imported (VBool true) (VBool true) includeContext) = Ok doc.
Proof.
  intros Hpk Hsk Hstable_pk Hstable_sk Hrun.
  pose proof (object_or_throw _ _ _ _ _ _ Hrun) as Hobj.
  rewrite (run_exportKeyPair E _ _ _ _ Hobj) in Hrun.
  cbn [param_default truthy] in Hrun. rewrite Hpk, Hsk in Hrun.
  cbn [andb] in Hrun.
  apply outcome_bind_Ok in Hrun as (result & Hpublic & Hsecret).
  apply outcome_bind_Ok in Hpublic as ([mp jp] & Hhalf_pk & Hresult).
  apply outcome_bind_Ok in Hsecret as ([ms js] & Hhalf_sk & Hdoc).
  injection Hresult as <-. injection Hdoc as <-.
  destruct (public_half_of_Ok _ _ _ _ Hhalf_pk) as (bp & fp & -> & -> & Hexp_pk).
  destruct (public_half_of_import _ _ _ _ Hhalf_pk) as (hp & Himp_pk).
  destruct (secret_half_of_Ok _ _ _ _ Hhalf_sk) as (fsk & hs & -> & Hexp_sk & Himp_sk).
  set (env := envelope keyPair includeContext) in *.
  set (fields := <["secretKeyJwk" := VObj fsk]> _).
  assert (Hnone : forall k, k <> "secretKeyJwk" -> k <> "secretKeyMultibase" ->
            k <> "publicKeyJwk" -> k <> "publicKeyMultibase" ->
            fields !! k = env !! k).
  { intros k ? ? ? ?. subst fields. by rewrite !lookup_insert_ne. }
  assert (Hpkj : VObj fields !!! "publicKeyJwk" = VObj fp).
  { subst fields. rewrite get_VObj.
    by rewrite !lookup_insert_ne, lookup_insert_eq by done. }
  assert (Hskj : VObj fields !!! "secretKeyJwk" = VObj fsk).
  { subst fields. by rewrite get_VObj, lookup_insert_eq. }
  assert (Habsent : forall k, k <> "secretKeyJwk" -> k <> "secretKeyMultibase" ->
            k <> "publicKeyJwk" -> k <> "publicKeyMultibase" ->
            k <> "type" -> k <> "@context" -> k <> "id" -> k <> "controller" ->
            VObj fields !!! k = VUndef).
  { intros k ? ? ? ? ? ? ? ?. rewrite get_VObj, Hnone by done.
    subst env. by rewrite envelope_lookup_None. }
  exists (<["secretKey" := VKey hs]> (<["publicKey" := VKey hp]> (VObj fields))).
  split.
  - unfold importKeyPair.
    replace (negb (truthy (VObj fields))
             || negb (String.eqb (typeof (VObj fields)) "object"))
      with false by reflexivity.
    rewrite (Habsent "publicKey"), (Habsent "keyAgreement") by done.
    rewrite Hpkj, Hskj. cbn [instanceof_CryptoKey truthy andb orb or_else].
    cbv iota. run_norm. rewrite Himp_pk. ok_step.
    run_norm. rewrite Himp_sk. reflexivity.
  - set (imported := <["secretKey" := VKey hs]> _).
    assert (Himp_obj : truthy imported && String.eqb (typeof imported) "object" = true)
      by reflexivity.
    assert (Hipk : imported !!! "publicKey" = VKey hp).
    { subst imported. rewrite !insert_VObj, get_VObj.
      by rewrite lookup_insert_ne, lookup_insert_eq. }
    assert (Hisk : imported !!! "secretKey" = VKey hs).
    { subst imported. rewrite !insert_VObj, get_VObj.
      by rewrite lookup_insert_eq. }
    assert (Hother : forall k, k <> "secretKey" -> k <> "publicKey" ->
              imported !!! k = VObj fields !!! k).
    { intros k ? ?. subst imported. rewrite !insert_VObj, !get_VObj.
      by rewrite !lookup_insert_ne. }
    assert (Henv : envelope imported includeContext = env).
    { apply envelope_ext.
      - rewrite Hother, get_VObj, Hnone by done. apply envelope_id.
      - rewrite Hother, get_VObj, Hnone by done. apply envelope_controller. }
    rewrite (run_exportKeyPair E _ _ _ _ Himp_obj).
    rewrite Hipk, Hisk, Henv. cbn [param_default truthy andb].
    rewrite (public_half_of_ext E (keyPair !!! "publicKey") (VKey hp)),
      (secret_half_of_ext E (keyPair !!! "secretKey") (VKey hs)).
    + rewrite Hhalf_pk. ok_step. rewrite Hhalf_sk. reflexivity.
    + rewrite Hexp_sk. by apply Hstable_sk.
    + rewrite Hexp_pk. by apply Hstable_pk.
Qed.

End RoundTrip.

(** ** lib/index.js: [from] and [fromJwk] *)

Section From.
Context `{runtime : Codec}.

Lemma jwk_multikey_lookup (jwk publicKeyMultibase modulusLength id controller : val) :
  let m := jwk_multikey jwk publicKeyMultibase modulusLength id controller in
  m !! "type" = Some (VStr "Multikey")
  /\ m !! "@context" = Some (VStr MULTIKEY_CONTEXT_V1_URL)
  /\ m !! "id" = (if String.eqb (typeof id) "string" then Some id else None)
  /\ m !! "controller"
     = (if String.eqb (typeof controller) "string" then Some controller else None)
  /\ m !! "publicKey" = None.
Proof.
  unfold jwk_multikey. cbv zeta.
  destruct (String.eqb (typeof id) "string"),
    (String.eqb (typeof controller) "string"); repeat split; reflexivity.
Qed.

(** [fromJwk], run against an engine, for any function [from] it calls
    at its end. *)
Lemma run_fromJwk_body (E : Engine) (from' : val -> async val)
    (jwk secretKey id controller : val) :
  run E (fromJwk_body from' jwk secretKey id controller)
  = if negb (truthy jwk) || negb (String.eqb (typeof jwk) "object") then
      Err (TypeError (quoted "jwk" ++ " is required."))
    else if negb (is_str (jwk !!! "kty") "RSA") then
      Err (TypeError ("JWK must have kty " ++ quoted "RSA" ++ "."))
    else
      modulusLength ← getModulusLengthFromJwk jwk;
      publicKeyMultibase ← run E (toPublicKeyMultibaseFromJwk (public_fields jwk));
      let multikey := jwk_multikey jwk publicKeyMultibase modulusLength id controller in
      if truthy secretKey && truthy (jwk !!! "d") then
        secretKeyMultibase ← run E (toSecretKeyMultibaseFromJwk jwk);
        run E (from'
                 (VObj (<["secretKeyJwk" :=
                            VObj {[ "kty" := jwk !!! "kty"; "n" := jwk !!! "n";
                                    "e" := jwk !!! "e"; "d" := jwk !!! "d";
                                    "p" := jwk !!! "p"; "q" := jwk !!! "q";
                                    "dp" := jwk !!! "dp"; "dq" := jwk !!! "dq";
                                    "qi" := jwk !!! "qi";
                                    "alg" := or_else (jwk !!! "alg") (VStr "PS256") ]}]>
                          (<["secretKeyMultibase" := secretKeyMultibase]> multikey))))
      else run E (from' (VObj multikey)).
Proof.
  unfold fromJwk_body. cbv zeta.
  destruct (negb (truthy jwk) || negb (String.eqb (typeof jwk) "object"));
    [reflexivity |].
  destruct (negb (is_str (jwk !!! "kty") "RSA")); [reflexivity |].
  run_norm.
  destruct (getModulusLengthFromJwk jwk) as [ml | e]; ok_step; [| reflexivity].
  run_norm.
  destruct (run E (toPublicKeyMultibaseFromJwk (public_fields jwk))) as [mb | e];
    ok_step; [| reflexivity].
  assert (Hreq : truthy (param_default secretKey (VBool false)) = truthy secretKey)
    by (by destruct secretKey).
  rewrite Hreq.
  assert (Hmk :
    (if String.eqb (typeof controller) "string"
     then <["controller" := controller]>
            (if String.eqb (typeof id) "string"
             then <["id" := id]>
                    (VObj {[ "@context" := VStr MULTIKEY_CONTEXT_V1_URL;
                             "type" := VStr "Multikey";
                             "publicKeyMultibase" := mb;
                             "publicKeyJwk" :=
                               VObj {[ "kty" := jwk !!! "kty"; "n" := jwk !!! "n";
                                       "e" := jwk !!! "e";
                                       "alg" := or_else (jwk !!! "alg") (VStr "PS256") ]};
                             "modulusLength" := ml ]})
             else VObj {[ "@context" := VStr MULTIKEY_CONTEXT_V1_URL;
                          "type" := VStr "Multikey";
                          "publicKeyMultibase" := mb;
                          "publicKeyJwk" :=
                            VObj {[ "kty" := jwk !!! "kty"; "n" := jwk !!! "n";
                                    "e" := jwk !!! "e";
                                    "alg" := or_else (jwk !!! "alg") (VStr "PS256") ]};
                          "modulusLength" := ml ]})
     else (if String.eqb (typeof id) "string"
           then <["id" := id]>
                  (VObj {[ "@context" := VStr MULTIKEY_CONTEXT_V1_URL;
                           "type" := VStr "Multikey";
                           "publicKeyMultibase" := mb;
                           "publicKeyJwk" :=
                             VObj {[ "kty" := jwk !!! "kty"; "n" := jwk !!! "n";
                                     "e" := jwk !!! "e";
                                     "alg" := or_else (jwk !!! "alg") (VStr "PS256") ]};
                           "modulusLength" := ml ]})
           else VObj {[ "@context" := VStr MULTIKEY_CONTEXT_V1_URL;
                        "type" := VStr "Multikey";
                        "publicKeyMultibase" := mb;
                        "publicKeyJwk" :=
                          VObj {[ "kty" := jwk !!! "kty"; "n" := jwk !!! "n";
                                  "e" := jwk !!! "e";
                                  "alg" := or_else (jwk !!! "alg") (VStr "PS256") ]};
                        "modulusLength" := ml ]}))
    = VObj (jwk_multikey jwk mb ml id controller)).
  { unfold jwk_multikey. cbv zeta.
    destruct (String.eqb (typeof controller) "string"),
      (String.eqb (typeof id) "string"); reflexivity. }
  rewrite Hmk. clear Hmk.
  destruct (truthy secretKey && truthy (jwk !!! "d")).
  - run_norm.
    destruct (run E (toSecretKeyMultibaseFromJwk jwk)) as [ms | e]; ok_step;
      reflexivity.
  - reflexivity.
Qed.


(** [from] on an object whose [type] is ['Multikey'] and whose [@context] is
    set never enters [fromJwk]: it validates the object, with an [id]
    derived when needed, and builds the interface. *)
Lemma from_body_Multikey (fromJwk' : val -> val -> val -> val -> async val)
    (m : gmap string val) :
  m !! "type" = Some (VStr "Multikey") ->
  truthy (VObj m !!! "@context") = true ->
  from_body fromJwk' (VObj m)
  = (multikey ← with_derived_id (VObj m);
     _ ← lift (_assertMultikey multikey);
     _createKeyPairInterface multikey VUndef).
Proof.
  intros Hty Hctx. unfold from_body. cbv beta zeta. cbn [spread].
  assert (Htype : VObj m !!! "type" = VStr "Multikey") by (by rewrite get_VObj, Hty).
  rewrite !Htype.
  cbn [is_str String.eqb Ascii.eqb Bool.eqb negb truthy andb].
  rewrite !Hctx. cbn [negb]. reflexivity.
Qed.

(** Importing keeps every property but the two key handles. *)
Lemma importKeyPair_keeps (E : Engine) (m : gmap string val) (held : val) :
  run E (importKeyPair (VObj m)) = Ok held ->
  exists hs : gmap string val,
    held = VObj hs
    /\ forall k, k <> "publicKey" -> k <> "secretKey" -> hs !! k = m !! k.
Proof.
  unfold importKeyPair.
  replace (negb (truthy (VObj m)) || negb (String.eqb (typeof (VObj m)) "object"))
    with false by reflexivity.
  cbv iota. cbn [spread].
  destruct (instanceof_CryptoKey (VObj m !!! "publicKey") || _).
  { intros [= <-]. by exists m. }
  destruct (truthy (VObj m !!! "publicKeyJwk")).
  { intros Hrun. rewrite run_bind in Hrun.
    apply outcome_bind_Ok in Hrun as (h & _ & Hrun).
    destruct (truthy (VObj m !!! "secretKeyJwk") || truthy (VObj m !!! "privateKeyJwk")).
    - rewrite run_bind in Hrun.
      apply outcome_bind_Ok in Hrun as (hs & _ & Hrun).
      injection Hrun as <-. eexists. split; [reflexivity |].
      intros k ? ?. by rewrite !lookup_insert_ne.
    - injection Hrun as <-. eexists. split; [reflexivity |].
      intros k ? ?. by rewrite !lookup_insert_ne. }
  destruct (truthy (VObj m !!! "publicKeyMultibase")); [| discriminate].
  intros Hrun. rewrite run_bind in Hrun.
  apply outcome_bind_Ok in Hrun as (bytes & _ & Hrun).
  rewrite run_bind in Hrun.
  apply outcome_bind_Ok in Hrun as (publicKey & _ & Hrun).
  destruct (truthy (VObj m !!! "secretKeyMultibase")).
  - rewrite run_bind in Hrun.
    apply outcome_bind_Ok in Hrun as (secretBytes & _ & Hrun).
    rewrite run_bind in Hrun.
    apply outcome_bind_Ok in Hrun as (secretKey & _ & Hrun).
    injection Hrun as <-. eexists. split; [reflexivity |].
    intros k ? ?. by rewrite !lookup_insert_ne.
  - injection Hrun as <-. eexists. split; [reflexivity |].
    intros k ? ?. by rewrite !lookup_insert_ne.
Qed.

(** The interface keeps every property of the key it was made from, but the
    key handles, the three properties it sets and its three methods. *)
Lemma createKeyPairInterface_keeps (E : Engine) (m : gmap string val)
    (modulusLength keyPair : val) :
  run E (_createKeyPairInterface (VObj m) modulusLength) = Ok keyPair ->
  exists ks : gmap string val,
    keyPair = VObj ks
    /\ forall k, k <> "publicKey" -> k <> "secretKey" ->
                 k <> "publicKeyMultibase" -> k <> "secretKeyMultibase" ->
                 k <> "modulusLength" -> data_property k -> ks !! k = m !! k.
Proof.
  rewrite run_createKeyPairInterface. intros Hrun.
  apply outcome_bind_Ok in Hrun as (held & Hheld & Hrun).
  apply outcome_bind_Ok in Hrun as (ml & _ & Hrun).
  apply outcome_bind_Ok in Hrun as (exported & _ & Hrun).
  injection Hrun as <-.
  assert (Hkeeps : exists hs : gmap string val,
            held = VObj hs
            /\ forall k, k <> "publicKey" -> k <> "secretKey" -> hs !! k = m !! k).
  { unfold engine_backed in Hheld.
    destruct (negb (instanceof_CryptoKey (VObj m !!! "publicKey")) && _).
    - by apply (importKeyPair_keeps E).
    - injection Hheld as <-. by exists m. }
  destruct Hkeeps as (hs & -> & Hkeeps).
  eexists. split; [reflexivity |].
  intros k ? ? ? ? ? ?.
  rewrite attach_methods_lookup, !lookup_insert_ne by done. by apply Hkeeps.
Qed.


Lemma secret_fields_lookup (m : gmap string val) (jwk multibase : val) (k : string) :
  k <> "secretKeyJwk" -> k <> "secretKeyMultibase" ->
  (<["secretKeyJwk" := jwk]> (<["secretKeyMultibase" := multibase]> m)) !! k = m !! k.
Proof. intros ? ?. by rewrite !lookup_insert_ne. Qed.

(** What [from] makes of a literal Multikey that needs no derived [id]: the
    interface has the [id] and [controller] of the Multikey. *)
Lemma from_body_Multikey_result (E : Engine)
    (fromJwk' : val -> val -> val -> val -> async val)
    (m : gmap string val) (keyPair : val) :
  m !! "type" = Some (VStr "Multikey") ->
  m !! "@context" = Some (VStr MULTIKEY_CONTEXT_V1_URL) ->
  truthy (VObj m !!! "controller") && negb (truthy (VObj m !!! "id")) = false ->
  run E (from_body fromJwk' (VObj m)) = Ok keyPair ->
  exists ks : gmap string val,
    keyPair = VObj ks /\ ks !! "id" = m !! "id"
    /\ ks !! "controller" = m !! "controller".
Proof.
  intros Hty Hctx Hderived Hrun.
  rewrite from_body_Multikey in Hrun; [| exact Hty | by rewrite get_VObj, Hctx].
  unfold with_derived_id in Hrun. rewrite Hderived in Hrun.
  rewrite run_bind in Hrun. cbn [run] in Hrun. ok_step.
  cbn [mbind outcome_bind] in Hrun. rewrite run_bind in Hrun.
  apply outcome_bind_Ok in Hrun as (_ & _ & Hrun).
  apply createKeyPairInterface_keeps in Hrun as (ks & -> & Hkeeps).
  exists ks. split; [reflexivity |].
  split; apply Hkeeps; try done; by apply data_property_test.
Qed.

(** The [id] and [controller] of a key pair made by [fromJwk] are the
    string arguments it was given, and are absent otherwise (when a given
    controller does not call for a derived [id]). *)
Lemma fromJwk_result (E : Engine) (jwk secretKey id controller keyPair : val) :
  truthy (if String.eqb (typeof controller) "string" then controller else VUndef)
  && negb (truthy (if String.eqb (typeof id) "string" then id else VUndef)) = false ->
  run E (fromJwk jwk secretKey id controller) = Ok keyPair ->
  exists ks : gmap string val,
    keyPair = VObj ks
    /\ ks !! "id" = (if String.eqb (typeof id) "string" then Some id else None)
    /\ ks !! "controller"
       = (if String.eqb (typeof controller) "string" then Some controller else None).
Proof.
  intros Hderived Hrun. unfold fromJwk in Hrun.
  rewrite run_fromJwk_body in Hrun.
  destruct (negb (truthy jwk) || negb (String.eqb (typeof jwk) "object"));
    [discriminate |].
  destruct (negb (is_str (jwk !!! "kty") "RSA")); [discriminate |].
  apply outcome_bind_Ok in Hrun as (ml & _ & Hrun).
  apply outcome_bind_Ok in Hrun as (mb & _ & Hrun).
  cbv zeta in Hrun.
  destruct (jwk_multikey_lookup jwk mb ml id controller)
    as (Hty & Hctx & Hid & Hco & _).
  cbv zeta in Hty, Hctx, Hid, Hco.
  set (m := jwk_multikey jwk mb ml id controller) in *.
  assert (Hlit : forall m' : gmap string val,
            (forall k, k <> "secretKeyJwk" -> k <> "secretKeyMultibase" ->
                       m' !! k = m !! k) ->
            run E (from_fuel 1 (VObj m')) = Ok keyPair ->
            exists ks : gmap string val,
              keyPair = VObj ks
              /\ ks !! "id" = (if String.eqb (typeof id) "string" then Some id else None)
              /\ ks !! "controller"
                 = (if String.eqb (typeof controller) "string"
                    then Some controller else None)).
  { intros m' Hsame Hfrom. cbn [from_fuel] in Hfrom.
    apply from_body_Multikey_result in Hfrom as (ks & -> & Hkid & Hkco).
    - exists ks. rewrite Hkid, Hkco, !Hsame by done. by rewrite Hid, Hco.
    - by rewrite Hsame.
    - by rewrite Hsame.
    - rewrite !get_VObj, !Hsame, Hid, Hco by done.
      destruct (String.eqb (typeof id) "string"),
        (String.eqb (typeof controller) "string"); exact Hderived. }
  destruct (truthy secretKey && truthy (jwk !!! "d")).
  - apply outcome_bind_Ok in Hrun as (ms & _ & Hrun).
    apply Hlit in Hrun; [exact Hrun |].
    intros k ? ?. by apply secret_fields_lookup.
  - by apply Hlit in Hrun.
Qed.

(** C9.  When the key given to [from] has a [type] other than ['Multikey']
    and a [publicKeyJwk], [from] is the call of [fromJwk] on that JWK, with
    the key's [id] and [controller] if the type is ['JsonWebKey'] or
    ['JsonWebKey2020'] and with neither otherwise.  For any other type the
    resulting key pair has no [id] and no [controller]; for the two
    recognized types it has the key's non-empty string [id] and its string
    [controller]. *)
Theorem from_delegates_to_fromJwk (key : val) :
  let multikey := spread key in
  let recognized :=
    is_str (multikey !!! "type") "JsonWebKey"
    || is_str (multikey !!! "type") "JsonWebKey2020" in
  multikey !!! "type" <> VStr "Multikey" ->
  truthy (multikey !!! "publicKeyJwk") = true ->
  from key
  = fromJwk (multikey !!! "publicKeyJwk")
      (VBool (truthy (multikey !!! "secretKeyJwk")
              || truthy (multikey !!! "privateKeyJwk")))
      (if recognized then multikey !!! "id" else VUndef)
      (if recognized then multikey !!! "controller" else VUndef)
  /\ (recognized = false ->
      forall (E : Engine) (keyPair : val),
        run E (from key) = Ok keyPair ->
        has_property keyPair "id" = false
        /\ has_property keyPair "controller" = false)
  /\ (recognized = true ->
      forall (E : Engine) (keyPair : val) (id controller : string),
        multikey !!! "id" = VStr id -> id <> "" ->
        multikey !!! "controller" = VStr controller ->
        run E (from key) = Ok keyPair ->
        keyPair !!! "id" = VStr id /\ keyPair !!! "controller" = VStr controller).
Proof.
  intros multikey recognized Hty Hjwk.
  assert (Hdelegate :
    from key
    = fromJwk (multikey !!! "publicKeyJwk")
        (VBool (truthy (multikey !!! "secretKeyJwk")
                || truthy (multikey !!! "privateKeyJwk")))
        (if recognized then multikey !!! "id" else VUndef)
        (if recognized then multikey !!! "controller" else VUndef)).
  { unfold from, from_body. cbv beta zeta. fold multikey.
    apply is_str_false in Hty. rewrite Hty, Hjwk. cbn [negb]. cbv iota.
    fold recognized. by destruct recognized. }
  split; [exact Hdelegate | split].
  - intros Hno E keyPair Hrun. rewrite Hdelegate, Hno in Hrun.
    apply fromJwk_result in Hrun as (ks & -> & Hid & Hco); [| reflexivity].
    cbn in Hid, Hco. unfold has_property. rewrite Hid, Hco.
    split; apply bool_decide_eq_false; by intros [? ?].
  - intros Hyes E keyPair id controller Hid Hne Hco Hrun.
    rewrite Hdelegate, Hyes, Hid, Hco in Hrun.
    apply fromJwk_result in Hrun as (ks & -> & Hkid & Hkco).
    + cbn in Hkid, Hkco. by rewrite !get_VObj, Hkid, Hkco.
    + cbn [typeof String.eqb Ascii.eqb Bool.eqb].
      apply truthy_VStr in Hne. rewrite Hne. by rewrite andb_false_r.
Qed.

(** The call depth of [from] never exceeds two. *)
Lemma from_fuel_enough (E : Engine) (n : nat) (key : val) :
  run E (from_fuel (S (S n)) key) = run E (from key).
Proof.
  assert (Hinner : forall a b c d,
            run E (fromJwk_body (from_fuel (S n)) a b c d)
            = run E (fromJwk_body (from_fuel 1) a b c d)).
  { intros jwk secretKey id controller. rewrite !run_fromJwk_body.
    destruct (negb (truthy jwk) || negb (String.eqb (typeof jwk) "object"));
      [reflexivity |].
    destruct (negb (is_str (jwk !!! "kty") "RSA")); [reflexivity |].
    destruct (getModulusLengthFromJwk jwk) as [ml | e]; ok_step; [| reflexivity].
    destruct (run E (toPublicKeyMultibaseFromJwk (public_fields jwk))) as [mb | e];
      ok_step; [| reflexivity].
    destruct (jwk_multikey_lookup jwk mb ml id controller) as (Hty & Hctx & _).
    cbv zeta in Hty, Hctx.
    assert (Hlit : forall m' : gmap string val,
              m' !! "type" = Some (VStr "Multikey") ->
              m' !! "@context" = Some (VStr MULTIKEY_CONTEXT_V1_URL) ->
              from_fuel (S n) (VObj m') = from_fuel 1 (VObj m')).
    { intros m' Hty' Hctx'. cbn [from_fuel].
      rewrite !from_body_Multikey; try done; by rewrite get_VObj, Hctx'. }
    destruct (truthy secretKey && truthy (jwk !!! "d")).
    - destruct (run E (toSecretKeyMultibaseFromJwk jwk)) as [ms | e]; ok_step;
        [| reflexivity].
      rewrite Hlit; [reflexivity | |]; by rewrite secret_fields_lookup.
    - by rewrite Hlit. }
  change (from_fuel (S (S n)) key)
    with (from_body (fromJwk_body (from_fuel (S n))) key).
  unfold from, fromJwk, from_body. cbv beta zeta.
  destruct (negb (is_str (spread key !!! "type") "Multikey")); [| reflexivity].
  destruct (truthy (spread key !!! "publicKeyJwk")); [| reflexivity].
  destruct (is_str (spread key !!! "type") "JsonWebKey"
            || is_str (spread key !!! "type") "JsonWebKey2020"); apply Hinner.
Qed.

End From.

(** * Further properties of the library *)

(** ** lib/helpers.js and lib/constants.js *)

Section HelpersMore.
Context `{runtime : Codec}.


(** X2.  [generate] passes its validation and reaches the engine exactly
    for the modulus lengths that are values of the table
    [RSA_MODULUS_LENGTH], the default standing in for an omitted length.
    Every key of the table is the decimal text of its value, and the default
    length is in the table. *)
Theorem generate_accepts_RSA_MODULUS_LENGTH (id controller modulusLength : val) :
  let requested := param_default modulusLength (VNum DEFAULT_MODULUS_LENGTH) in
  ((exists k, RSA_MODULUS_LENGTH !! k = Some requested)
   <-> exists c k, generate id controller modulusLength = Await c k)
  /\ (forall k v, RSA_MODULUS_LENGTH !! k = Some v ->
        exists n, v = VNum n /\ Number_toString n = k)
  /\ RSA_MODULUS_LENGTH !! Number_toString DEFAULT_MODULUS_LENGTH
     = Some (VNum DEFAULT_MODULUS_LENGTH).
Proof.
  intros requested.
  assert (Htable : forall k v, RSA_MODULUS_LENGTH !! k = Some v ->
            (k = "2048" /\ v = VNum 2048) \/ (k = "3072" /\ v = VNum 3072)
            \/ (k = "4096" /\ v = VNum 4096)).
  { intros k v. unfold RSA_MODULUS_LENGTH.
    rewrite !lookup_insert_Some, lookup_singleton_Some. intuition. }
  split; [| split].
  - unfold generate. cbv zeta. fold requested.
    destruct (negb (is_num requested 2048) && negb (is_num requested 3072)
              && negb (is_num requested 4096)) eqn:Hallowed.
    + split.
      * intros (k & Hk). exfalso.
        assert (Hin : allowed_modulusLength requested).
        { destruct (Htable _ _ Hk) as [[_ ->] | [[_ ->] | [_ ->]]];
            unfold allowed_modulusLength; tauto. }
        apply allowed_modulusLength_test in Hin. congruence.
      * intros (c & k & Hk). discriminate.
    + apply allowed_modulusLength_test in Hallowed. split.
      * intros _. by eexists _, _.
      * intros _. destruct Hallowed as [-> | [-> | ->]];
          [exists "2048" | exists "3072" | exists "4096"]; reflexivity.
  - intros k v Hk.
    destruct (Htable _ _ Hk) as [[-> ->] | [[-> ->] | [-> ->]]];
      eexists; split; reflexivity.
  - reflexivity.
Qed.

End HelpersMore.

(** ** lib/serialize.js: the codecs and the importer *)

Section SerializeMore.
Context `{runtime : Codec}.

(** X3.  On bytes that the runtime's base58btc codec round-trips,
    encoding a key as multibase text and decoding the text gives the bytes
    back, for the public and for the secret function pair alike.  The
    encoders reject everything that is not a [Uint8Array], the decoders
    everything that is not a string, each with a [TypeError]. *)
Theorem multibase_text_roundtrip (bs : list byte) :
  base58btc_decode (base58btc_encode bs) = Ok bs ->
  (text ← toPublicKeyMultibase (VBytes bs); fromPublicKeyMultibase text) = Ok (VBytes bs)
  /\ (text ← toSecretKeyMultibase (VBytes bs); fromSecretKeyMultibase text) = Ok (VBytes bs)
  /\ (forall v, instanceof_Uint8Array v = false ->
        toPublicKeyMultibase v
        = Err (TypeError (quoted "publicKeyBytes" ++ " must be a Uint8Array."))
        /\ toSecretKeyMultibase v
           = Err (TypeError (quoted "secretKeyBytes" ++ " must be a Uint8Array.")))
  /\ (forall v, typeof v <> "string" ->
        fromPublicKeyMultibase v
        = Err (TypeError (quoted "publicKeyMultibase" ++ " must be a string."))
        /\ fromSecretKeyMultibase v
           = Err (TypeError (quoted "secretKeyMultibase" ++ " must be a string."))).
Proof.
  intros Hcodec. repeat split.
  - cbn. by rewrite Hcodec.
  - cbn. by rewrite Hcodec.
  - destruct v; try reflexivity; discriminate.
  - destruct v; try reflexivity; discriminate.
  - destruct v; try reflexivity. exfalso. by apply H.
  - destruct v; try reflexivity. exfalso. by apply H.
Qed.

Lemma public_fields_idem (jwk : val) : public_fields (public_fields jwk) = public_fields jwk.
Proof. reflexivity. Qed.

Lemma calls_toPublicKeyBytes (E : Engine) (fs : gmap string val) :
  calls E (toPublicKeyBytes (VObj fs))
  = subtle_importKey fmt_jwk (VObj fs) RSA_PSS_SHA256 true ["verify"]
    :: match E (subtle_importKey fmt_jwk (VObj fs) RSA_PSS_SHA256 true ["verify"]) with
       | Ok h => [subtle_exportKey fmt_spki (VKey h)]
       | Err _ => []
       end.
Proof.
  unfold toPublicKeyBytes.
  replace (negb (truthy (VObj fs)) || negb (String.eqb (typeof (VObj fs)) "object"))
    with false by reflexivity.
  cbv iota. calls_norm. cbn [app]. f_equal.
  destruct (E (subtle_importKey _ _ _ _ _)) as [h | e]; [| reflexivity].
  calls_norm. by destruct (E (subtle_exportKey _ _)).
Qed.

(** X4.  On a [jwk] that is neither [null] nor [undefined],
    [toPublicKeyMultibaseFromJwk] reads the four fields [kty], [n], [e] and
    [alg] and nothing else: it is the same program on the JWK and on its
    four public fields, hence on two JWKs that agree on them.  The JWK it hands to the engine has no [d]; the engine sees one
    JWK import with the usage [verify] and, when that succeeds, one SPKI
    export of the imported key. *)
Theorem toPublicKeyMultibaseFromJwk_reads_public_fields (E : Engine) (jwk : val) :
  object_coercible jwk "kty" = Ok () ->
  toPublicKeyMultibaseFromJwk jwk = toPublicKeyMultibaseFromJwk (public_fields jwk)
  /\ (forall jwk', object_coercible jwk' "kty" = Ok () ->
        public_fields jwk' = public_fields jwk ->
        toPublicKeyMultibaseFromJwk jwk' = toPublicKeyMultibaseFromJwk jwk)
  /\ has_property (public_fields jwk) "d" = false
  /\ calls E (toPublicKeyMultibaseFromJwk jwk)
     = subtle_importKey fmt_jwk (public_fields jwk) RSA_PSS_SHA256 true ["verify"]
       :: match E (subtle_importKey fmt_jwk (public_fields jwk) RSA_PSS_SHA256 true
                     ["verify"]) with
          | Ok h => [subtle_exportKey fmt_spki (VKey h)]
          | Err _ => []
          end.
Proof.
  intros Hjwk.
  assert (Hprog : forall j, object_coercible j "kty" = Ok () ->
            toPublicKeyMultibaseFromJwk j
            = (publicKeyBytes ← toPublicKeyBytes (public_fields j);
               lift (toPublicKeyMultibase publicKeyBytes))).
  { intros j Hj. unfold toPublicKeyMultibaseFromJwk. rewrite Hj. reflexivity. }
  split; [| split; [| split]].
  - rewrite (Hprog jwk Hjwk), (Hprog (public_fields jwk) eq_refl).
    by rewrite public_fields_idem.
  - intros jwk' Hjwk' Hsame. by rewrite (Hprog jwk Hjwk), (Hprog jwk' Hjwk'), Hsame.
  - reflexivity.
  - rewrite (Hprog jwk Hjwk), calls_bind.
    unfold public_fields. rewrite calls_toPublicKeyBytes, run_toPublicKeyBytes.
    cbn [app]. f_equal.
    destruct (E (subtle_importKey _ _ _ _ _)) as [h | e]; [| reflexivity].
    ok_step. destruct (E (subtle_exportKey _ _)) as [bs | e]; [| reflexivity].
    ok_step. cbn [app]. by rewrite calls_lift.
Qed.

Lemma cryptoKeyfromRaw_key (E : Engine) (modulusLength secretKey publicKey keyAgreement key : val) :
  run E (cryptoKeyfromRaw modulusLength secretKey publicKey keyAgreement) = Ok key ->
  exists h, key = VKey h.
Proof.
  unfold cryptoKeyfromRaw. cbv zeta.
  destruct (negb (String.eqb (typeof modulusLength) "number")); [discriminate |].
  destruct (negb (instanceof_Uint8Array publicKey)); [discriminate |].
  destruct (truthy secretKey && negb (instanceof_Uint8Array secretKey)); [discriminate |].
  destruct (truthy secretKey); intros Hrun; rewrite run_bind in Hrun;
    apply outcome_bind_Ok in Hrun as (h & _ & Hrun); injection Hrun as <-; by exists h.
Qed.

(** X5.  [cryptoKeyfromRaw] makes exactly one engine call.  Given secret
    key bytes it imports them as PKCS#8 with the usage [sign], and the
    public key bytes, although they must be a [Uint8Array], are not used:
    any other public bytes give the same program.  Without a secret key it
    imports the public bytes as SPKI with the usage [verify].  A truthy
    [keyAgreement] replaces either usage by [deriveBits].  A truthy secret
    key that is not a [Uint8Array] is rejected with a [TypeError]. *)
Theorem cryptoKeyfromRaw_imports_one_key
    (E : Engine) (n : Z) (secretKey keyAgreement : val) (pk : list byte) :
  let algorithm :=
    VObj {[ "name" := VStr "RSA-PSS"; "hash" := VStr "SHA-256";
            "modulusLength" := VNum n ]} in
  let deriving := truthy (param_default keyAgreement (VBool false)) in
  let raw := cryptoKeyfromRaw (VNum n) secretKey (VBytes pk) keyAgreement in
  (forall sk, secretKey = VBytes sk ->
     let call := subtle_importKey fmt_pkcs8 (VBytes sk) algorithm true
                   (if deriving then ["deriveBits"] else ["sign"]) in
     calls E raw = [call]
     /\ run E raw = (h ← E call; Ok (VKey h))
     /\ forall pk', cryptoKeyfromRaw (VNum n) secretKey (VBytes pk') keyAgreement = raw)
  /\ (truthy secretKey = false ->
      let call := subtle_importKey fmt_spki (VBytes pk) algorithm true
                    (if deriving then ["deriveBits"] else ["verify"]) in
      calls E raw = [call] /\ run E raw = (h ← E call; Ok (VKey h)))
  /\ (truthy secretKey = true -> instanceof_Uint8Array secretKey = false ->
      raw = Throw (TypeError (quoted "secretKey" ++ " must be a Uint8Array."))).
Proof.
  intros algorithm deriving raw. subst raw. unfold cryptoKeyfromRaw. cbv zeta.
  cbn [typeof String.eqb Ascii.eqb Bool.eqb negb instanceof_Uint8Array].
  fold deriving. fold algorithm.
  split; [| split].
  - intros sk ->. cbn [truthy instanceof_Uint8Array negb andb]. cbv zeta.
    split; [| split; [| reflexivity]].
    + calls_norm. cbn [app]. f_equal.
      by destruct (E (subtle_importKey _ _ _ _ _)).
    + run_norm. by destruct (E (subtle_importKey _ _ _ _ _)).
  - intros ->. cbn [andb]. cbv zeta. split.
    + calls_norm. cbn [app]. f_equal.
      by destruct (E (subtle_importKey _ _ _ _ _)).
    + run_norm. by destruct (E (subtle_importKey _ _ _ _ _)).
  - intros -> ->. reflexivity.
Qed.

Lemma spread_VObj (v : val) : exists fs, spread v = VObj fs.
Proof. destruct v; by eexists. Qed.

Lemma is_object_guard (v : val) :
  negb (truthy v) || negb (String.eqb (typeof v) "object") = false <-> is_object v.
Proof.
  rewrite <- is_object_test.
  destruct (truthy v), (String.eqb (typeof v) "object"); simpl; intuition congruence.
Qed.

Lemma not_object_guard (v : val) :
  ~ is_object v -> negb (truthy v) || negb (String.eqb (typeof v) "object") = true.
Proof.
  intros Hno.
  destruct (negb (truthy v) || negb (String.eqb (typeof v) "object")) eqn:Hg;
    [reflexivity |].
  exfalso. by apply Hno, is_object_guard.
Qed.

Lemma importKeyPair_held (fs : gmap string val) (h : N) :
  fs !! "publicKey" = Some (VKey h) -> importKeyPair (VObj fs) = Resolve (VObj fs).
Proof.
  intros Hpk. unfold importKeyPair.
  replace (negb (truthy (VObj fs)) || negb (String.eqb (typeof (VObj fs)) "object"))
    with false by reflexivity.
  rewrite get_VObj, Hpk. reflexivity.
Qed.

(** X6.  [importKeyPair] is idempotent: the key pair it resolves to is
    returned as it is by a second import, which makes no engine call. *)
Theorem importKeyPair_idempotent (E : Engine) (keyPair imported : val) :
  run E (importKeyPair keyPair) = Ok imported ->
  importKeyPair imported = Resolve imported
  /\ calls E (importKeyPair imported) = [].
Proof.
  intros Hrun.
  assert (Hagain : importKeyPair imported = Resolve imported);
    [| by rewrite Hagain].
  revert Hrun. unfold importKeyPair at 1.
  destruct (negb (truthy keyPair) || negb (String.eqb (typeof keyPair) "object"))
    eqn:Hobj; [discriminate |].
  destruct (instanceof_CryptoKey (keyPair !!! "publicKey") || _) eqn:Hheld.
  { intros [= <-]. unfold importKeyPair. by rewrite Hobj, Hheld. }
  destruct (spread_VObj keyPair) as (fs & ->).
  destruct (truthy (keyPair !!! "publicKeyJwk")).
  { intros Hrun. rewrite run_bind in Hrun.
    apply outcome_bind_Ok in Hrun as (h & _ & Hrun).
    destruct (truthy (keyPair !!! "secretKeyJwk") || truthy (keyPair !!! "privateKeyJwk")).
    - rewrite run_bind in Hrun.
      apply outcome_bind_Ok in Hrun as (hs & _ & Hrun).
      injection Hrun as <-. rewrite ?insert_VObj. apply (importKeyPair_held _ h).
      by rewrite lookup_insert_ne, lookup_insert_eq.
    - injection Hrun as <-. rewrite ?insert_VObj. apply (importKeyPair_held _ h).
      by rewrite lookup_insert_eq. }
  destruct (truthy (keyPair !!! "publicKeyMultibase")); [| discriminate].
  intros Hrun. rewrite run_bind in Hrun.
  apply outcome_bind_Ok in Hrun as (bytes & _ & Hrun).
  rewrite run_bind in Hrun.
  apply outcome_bind_Ok in Hrun as (publicKey & Hpk & Hrun).
  apply cryptoKeyfromRaw_key in Hpk as (h & ->).
  destruct (truthy (keyPair !!! "secretKeyMultibase")).
  - rewrite run_bind in Hrun.
    apply outcome_bind_Ok in Hrun as (secretBytes & _ & Hrun).
    rewrite run_bind in Hrun.
    apply outcome_bind_Ok in Hrun as (secretKey & _ & Hrun).
    injection Hrun as <-. rewrite ?insert_VObj. apply (importKeyPair_held _ h).
    by rewrite lookup_insert_ne, lookup_insert_eq.
  - injection Hrun as <-. rewrite ?insert_VObj. apply (importKeyPair_held _ h).
    by rewrite lookup_insert_eq.
Qed.

(** X7.  [importKeyPair] rejects what is not an object with a
    [TypeError], returns an object that already holds an engine key
    unchanged, and rejects an object with neither an engine key, nor a
    [publicKeyJwk], nor a [publicKeyMultibase] with an [Error], whatever
    secret material the object carries; none of the three reaches the
    engine. *)
Theorem importKeyPair_rejects_without_public_material (keyPair : val) :
  (~ is_object keyPair ->
   importKeyPair keyPair = Throw (TypeError (quoted "keyPair" ++ " must be an object.")))
  /\ (is_object keyPair -> holds_engine_key keyPair = true ->
      importKeyPair keyPair = Resolve keyPair)
  /\ (is_object keyPair -> holds_engine_key keyPair = false ->
      truthy (keyPair !!! "publicKeyJwk") = false ->
      truthy (keyPair !!! "publicKeyMultibase") = false ->
      importKeyPair keyPair
      = Throw (Error "Key pair must have publicKeyJwk or publicKeyMultibase.")).
Proof.
  unfold importKeyPair, holds_engine_key. split; [| split].
  - intros Hno. by rewrite not_object_guard.
  - intros Hobj Hheld. apply is_object_guard in Hobj. by rewrite Hobj, Hheld.
  - intros Hobj Hheld Hjwk Hmb. apply is_object_guard in Hobj.
    by rewrite Hobj, Hheld, Hjwk, Hmb.
Qed.

(** What [importKeyPair] makes of a plain object that holds no engine key:
    the object with [publicKey] set, and [secretKey] set when it carries
    secret material in the representation that is used. *)
Lemma importKeyPair_fields (E : Engine) (m : gmap string val) (imported : val) :
  holds_engine_key (VObj m) = false ->
  run E (importKeyPair (VObj m)) = Ok imported ->
  exists (hs : gmap string val) (hp : N),
    imported = VObj hs
    /\ hs !! "publicKey" = Some (VKey hp)
    /\ (forall k, k <> "publicKey" -> k <> "secretKey" -> hs !! k = m !! k)
    /\ (if (if truthy (VObj m !!! "publicKeyJwk")
            then truthy (VObj m !!! "secretKeyJwk") || truthy (VObj m !!! "privateKeyJwk")
            else truthy (VObj m !!! "secretKeyMultibase"))
        then exists h, hs !! "secretKey" = Some (VKey h)
        else hs !! "secretKey" = m !! "secretKey").
Proof.
  unfold holds_engine_key, importKeyPair. intros Hheld.
  replace (negb (truthy (VObj m)) || negb (String.eqb (typeof (VObj m)) "object"))
    with false by reflexivity.
  rewrite Hheld. cbv iota. cbn [spread].
  destruct (truthy (VObj m !!! "publicKeyJwk")).
  { intros Hrun. rewrite run_bind in Hrun.
    apply outcome_bind_Ok in Hrun as (h & _ & Hrun).
    destruct (truthy (VObj m !!! "secretKeyJwk") || truthy (VObj m !!! "privateKeyJwk")).
    - rewrite run_bind in Hrun.
      apply outcome_bind_Ok in Hrun as (hs & _ & Hrun).
      injection Hrun as <-. eexists _, h. split; [reflexivity |].
      split; [by rewrite lookup_insert_ne, lookup_insert_eq |].
      split; [intros k ? ?; by rewrite !lookup_insert_ne |].
      exists hs. by rewrite lookup_insert_eq.
    - injection Hrun as <-. eexists _, h. split; [reflexivity |].
      split; [by rewrite lookup_insert_eq |].
      split; [intros k ? ?; by rewrite !lookup_insert_ne |].
      by rewrite lookup_insert_ne. }
  destruct (truthy (VObj m !!! "publicKeyMultibase")); [| discriminate].
  intros Hrun. rewrite run_bind in Hrun.
  apply outcome_bind_Ok in Hrun as (bytes & _ & Hrun).
  rewrite run_bind in Hrun.
  apply outcome_bind_Ok in Hrun as (publicKey & Hpk & Hrun).
  apply cryptoKeyfromRaw_key in Hpk as (h & ->).
  destruct (truthy (VObj m !!! "secretKeyMultibase")).
  - rewrite run_bind in Hrun.
    apply outcome_bind_Ok in Hrun as (secretBytes & _ & Hrun).
    rewrite run_bind in Hrun.
    apply outcome_bind_Ok in Hrun as (secretKey & Hsk & Hrun).
    apply cryptoKeyfromRaw_key in Hsk as (hs & ->).
    injection Hrun as <-. eexists _, h. split; [reflexivity |].
    split; [by rewrite lookup_insert_ne, lookup_insert_eq |].
    split; [intros k ? ?; by rewrite !lookup_insert_ne |].
    exists hs. by rewrite lookup_insert_eq.
  - injection Hrun as <-. eexists _, h. split; [reflexivity |].
    split; [by rewrite lookup_insert_eq |].
    split; [intros k ? ?; by rewrite !lookup_insert_ne |].
    by rewrite lookup_insert_ne.
Qed.

(** X8.  Importing a plain object that holds no engine key sets
    [publicKey] to an engine key and leaves every property other than
    [publicKey] and [secretKey] as it was.  [secretKey] is set to an engine
    key when the object carries secret material in the representation that
    is used, a [secretKeyJwk] or [privateKeyJwk] beside a [publicKeyJwk], a
    [secretKeyMultibase] otherwise; if it does not, [secretKey] stays as it
    was.  In particular a [secretKeyMultibase] beside a [publicKeyJwk] is
    not imported. *)
Theorem importKeyPair_adds_only_keys (E : Engine) (m : gmap string val) (imported : val) :
  holds_engine_key (VObj m) = false ->
  run E (importKeyPair (VObj m)) = Ok imported ->
  let secret_material :=
    if truthy (VObj m !!! "publicKeyJwk")
    then truthy (VObj m !!! "secretKeyJwk") || truthy (VObj m !!! "privateKeyJwk")
    else truthy (VObj m !!! "secretKeyMultibase") in
  (exists hp, imported !!! "publicKey" = VKey hp)
  /\ (forall k, k <> "publicKey" -> k <> "secretKey" -> imported !!! k = VObj m !!! k)
  /\ (if secret_material
      then exists hs, imported !!! "secretKey" = VKey hs
      else imported !!! "secretKey" = VObj m !!! "secretKey").
Proof.
  intros Hheld Hrun secret_material.
  apply importKeyPair_fields in Hrun as (hs & hp & -> & Hhp & Hkeeps & Hsecret);
    [| exact Hheld].
  fold secret_material in Hsecret.
  split; [exists hp; by rewrite get_VObj, Hhp |].
  split; [intros k ? ?; by rewrite !get_VObj, Hkeeps |].
  destruct secret_material.
  - destruct Hsecret as (h & Hh). exists h. by rewrite get_VObj, Hh.
  - by rewrite !get_VObj, Hsecret.
Qed.

(** X9.  When the object has a [publicKeyJwk], the engine calls of
    [importKeyPair] are the JWK import of the public key and, if that
    succeeds and there is a [secretKeyJwk] or a [privateKeyJwk], the JWK
    import of that one ([secretKeyJwk] first).  The multibase texts of the
    object play no part: no key is imported from them. *)
Theorem importKeyPair_prefers_jwk (E : Engine) (m : gmap string val) :
  holds_engine_key (VObj m) = false ->
  truthy (VObj m !!! "publicKeyJwk") = true ->
  let usage (u : string) :=
    if truthy (VObj m !!! "keyAgreement") then ["deriveBits"] else [u] in
  let public_call :=
    subtle_importKey fmt_jwk (VObj m !!! "publicKeyJwk") RSA_PSS_SHA256 true
      (usage "verify") in
  let secret_call :=
    subtle_importKey fmt_jwk
      (or_else (VObj m !!! "secretKeyJwk") (VObj m !!! "privateKeyJwk"))
      RSA_PSS_SHA256 true (usage "sign") in
  calls E (importKeyPair (VObj m))
  = public_call
    :: match E public_call with
       | Ok _ =>
           if truthy (VObj m !!! "secretKeyJwk") || truthy (VObj m !!! "privateKeyJwk")
           then [secret_call] else []
       | Err _ => []
       end.
Proof.
  unfold holds_engine_key, importKeyPair. intros Hheld Hjwk.
  replace (negb (truthy (VObj m)) || negb (String.eqb (typeof (VObj m)) "object"))
    with false by reflexivity.
  rewrite Hheld, Hjwk. cbv iota zeta.
  destruct (truthy (VObj m !!! "keyAgreement"));
    calls_norm; cbn [app]; f_equal;
    destruct (E (subtle_importKey _ _ _ _ _)) as [h | e]; try reflexivity;
    destruct (truthy (VObj m !!! "secretKeyJwk") || truthy (VObj m !!! "privateKeyJwk"));
    try reflexivity; calls_norm; cbn [app]; f_equal;
    by destruct (E (subtle_importKey _ _ _ _ _)).
Qed.

End SerializeMore.

(** ** lib/serialize.js: the shape of a document *)

Section DocumentShape.
Context `{runtime : Codec}.

Lemma envelope_lookup (keyPair includeContext : val) :
  envelope keyPair includeContext !! "type" = Some (VStr "Multikey")
  /\ envelope keyPair includeContext !! "@context"
     = (if truthy (param_default includeContext (VBool true))
        then Some (VStr MULTIKEY_CONTEXT_V1_URL) else None)
  /\ envelope keyPair includeContext !! "id"
     = (if truthy (keyPair !!! "id") then Some (keyPair !!! "id") else None)
  /\ envelope keyPair includeContext !! "controller"
     = (if truthy (keyPair !!! "controller") then Some (keyPair !!! "controller")
        else None).
Proof.
  unfold envelope. cbv zeta.
  destruct (truthy (keyPair !!! "controller")), (truthy (keyPair !!! "id")),
    (truthy (param_default includeContext (VBool true))); repeat split; reflexivity.
Qed.

Lemma has_property_VObj (fs : gmap string val) (k : string) :
  has_property (VObj fs) k = match fs !! k with Some _ => true | None => false end.
Proof.
  unfold has_property. destruct (fs !! k).
  - apply bool_decide_eq_true. by eexists.
  - apply bool_decide_eq_false. by intros [? ?].
Qed.

Lemma bool_decide_is_Some {A} (o : option A) :
  bool_decide (is_Some o) = match o with Some _ => true | None => false end.
Proof.
  destruct o.
  - apply bool_decide_eq_true. by eexists.
  - apply bool_decide_eq_false. by intros [? ?].
Qed.

Lemma with_halves_lookup (base : gmap string val) (public secret : option (val * val))
    (k : string) :
  with_halves base public secret !! k
  = if String.eqb k "secretKeyJwk" && bool_decide (is_Some secret) then snd <$> secret
    else if String.eqb k "secretKeyMultibase" && bool_decide (is_Some secret)
         then fst <$> secret
    else if String.eqb k "publicKeyJwk" && bool_decide (is_Some public) then snd <$> public
    else if String.eqb k "publicKeyMultibase" && bool_decide (is_Some public)
         then fst <$> public
    else base !! k.
Proof.
  unfold with_halves.
  destruct (String.eqb_spec k "secretKeyJwk") as [Hk | H1];
    [subst k; destruct public as [[mp jp] |], secret as [[ms js] |];
     by rewrite ?lookup_insert_eq, ?lookup_insert_ne by done |].
  destruct (String.eqb_spec k "secretKeyMultibase") as [Hk | H2];
    [subst k; destruct public as [[mp jp] |], secret as [[ms js] |];
     by rewrite ?lookup_insert_ne, ?lookup_insert_eq, ?lookup_insert_ne by done |].
  destruct (String.eqb_spec k "publicKeyJwk") as [Hk | H3];
    [subst k; destruct public as [[mp jp] |], secret as [[ms js] |];
     by rewrite ?lookup_insert_ne, ?lookup_insert_eq, ?lookup_insert_ne by done |].
  destruct (String.eqb_spec k "publicKeyMultibase") as [Hk | H4];
    [subst k; destruct public as [[mp jp] |], secret as [[ms js] |];
     by rewrite ?lookup_insert_ne, ?lookup_insert_eq, ?lookup_insert_ne by done |].
  destruct public as [[mp jp] |], secret as [[ms js] |];
    by rewrite ?lookup_insert_ne by done.
Qed.

Lemma with_halves_properties (base : gmap string val)
    (public secret : option (val * val)) (k : string) :
  (forall k', k' <> "type" -> k' <> "@context" -> k' <> "id" -> k' <> "controller" ->
              base !! k' = None) ->
  has_property (VObj (with_halves base public secret)) k = true ->
  In k document_properties.
Proof.
  intros Hbase. rewrite has_property_VObj, with_halves_lookup.
  unfold document_properties.
  destruct (String.eqb_spec k "secretKeyJwk") as [-> | H1]; [intros _; simpl; tauto |].
  destruct (String.eqb_spec k "secretKeyMultibase") as [-> | H2];
    [intros _; simpl; tauto |].
  destruct (String.eqb_spec k "publicKeyJwk") as [-> | H3]; [intros _; simpl; tauto |].
  destruct (String.eqb_spec k "publicKeyMultibase") as [-> | H4];
    [intros _; simpl; tauto |].
  cbn [andb].
  destruct (String.eqb_spec k "type") as [-> | H5]; [intros _; simpl; tauto |].
  destruct (String.eqb_spec k "@context") as [-> | H6]; [intros _; simpl; tauto |].
  destruct (String.eqb_spec k "id") as [-> | H7]; [intros _; simpl; tauto |].
  destruct (String.eqb_spec k "controller") as [-> | H8]; [intros _; simpl; tauto |].
  by rewrite Hbase.
Qed.

Lemma exportKeyPair_halves (E : Engine)
    (keyPair publicKey secretKey includeContext doc : val) :
  run E (exportKeyPair keyPair publicKey secretKey includeContext) = Ok doc ->
  exists public secret : option (val * val),
    doc = VObj (with_halves (envelope keyPair includeContext) public secret)
    /\ bool_decide (is_Some public)
       = truthy (param_default publicKey (VBool true)) && truthy (keyPair !!! "publicKey")
    /\ bool_decide (is_Some secret)
       = truthy (param_default secretKey (VBool false)) && truthy (keyPair !!! "secretKey")
    /\ (forall half, public = Some half ->
          public_half_of E (keyPair !!! "publicKey") = Ok half)
    /\ (forall half, secret = Some half ->
          secret_half_of E (keyPair !!! "secretKey") = Ok half).
Proof.
  intros Hrun.
  pose proof (object_or_throw _ _ _ _ _ _ Hrun) as Hobj.
  rewrite (run_exportKeyPair E _ _ _ _ Hobj) in Hrun.
  apply outcome_bind_Ok in Hrun as (result & Hpublic & Hsecret).
  destruct (truthy (param_default publicKey (VBool true))
            && truthy (keyPair !!! "publicKey")).
  - apply outcome_bind_Ok in Hpublic as ([mp jp] & Hhalf_pk & Hresult).
    injection Hresult as <-.
    destruct (truthy (param_default secretKey (VBool false))
              && truthy (keyPair !!! "secretKey")).
    + apply outcome_bind_Ok in Hsecret as ([ms js] & Hhalf_sk & Hdoc).
      injection Hdoc as <-.
      exists (Some (mp, jp)), (Some (ms, js)).
      split; [reflexivity |]. split; [reflexivity |]. split; [reflexivity |].
      split; by intros half [= <-].
    + injection Hsecret as <-.
      exists (Some (mp, jp)), None.
      split; [reflexivity |]. split; [reflexivity |]. split; [reflexivity |].
      split; [by intros half [= <-] | discriminate].
  - injection Hpublic as <-.
    destruct (truthy (param_default secretKey (VBool false))
              && truthy (keyPair !!! "secretKey")).
    + apply outcome_bind_Ok in Hsecret as ([ms js] & Hhalf_sk & Hdoc).
      injection Hdoc as <-.
      exists None, (Some (ms, js)).
      split; [reflexivity |]. split; [reflexivity |]. split; [reflexivity |].
      split; [discriminate | by intros half [= <-]].
    + injection Hsecret as <-.
      exists None, None.
      split; [reflexivity |]. split; [reflexivity |]. split; [reflexivity |].
      split; discriminate.
Qed.

(** X10.  A document that [exportKeyPair] resolves to has no property
    beyond [type], [@context], [id], [controller] and the four key fields:
    never a key handle.  Its [type] is ['Multikey']; it has the context
    exactly when [includeContext] is truthy; it has the [id] and the
    [controller] of the key pair exactly when these are truthy (an empty
    string is left out); and it has the two public fields exactly when the
    public half was requested and the pair holds a public key. *)
Theorem exportKeyPair_document_shape (E : Engine)
    (keyPair publicKey secretKey includeContext doc : val) :
  run E (exportKeyPair keyPair publicKey secretKey includeContext) = Ok doc ->
  (forall k, has_property doc k = true -> In k document_properties)
  /\ doc !!! "type" = VStr "Multikey"
  /\ doc !!! "@context"
     = (if truthy (param_default includeContext (VBool true))
        then VStr MULTIKEY_CONTEXT_V1_URL else VUndef)
  /\ has_property doc "@context" = truthy (param_default includeContext (VBool true))
  /\ doc !!! "id" = (if truthy (keyPair !!! "id") then keyPair !!! "id" else VUndef)
  /\ has_property doc "id" = truthy (keyPair !!! "id")
  /\ doc !!! "controller"
     = (if truthy (keyPair !!! "controller") then keyPair !!! "controller" else VUndef)
  /\ has_property doc "controller" = truthy (keyPair !!! "controller")
  /\ has_property doc "publicKeyMultibase"
     = truthy (param_default publicKey (VBool true)) && truthy (keyPair !!! "publicKey")
  /\ has_property doc "publicKeyJwk"
     = truthy (param_default publicKey (VBool true)) && truthy (keyPair !!! "publicKey").
Proof.
  intros Hrun.
  apply exportKeyPair_halves in Hrun
    as (public & secret & -> & Hpublic & Hsecret & _ & _).
  destruct (envelope_lookup keyPair includeContext) as (Hty & Hctx & Hid & Hco).
  split.
  { intros k. apply with_halves_properties.
    intros k' ? ? ? ?. by apply envelope_lookup_None. }
  rewrite !get_VObj, !has_property_VObj, !with_halves_lookup.
  cbn [String.eqb Ascii.eqb Bool.eqb andb].
  rewrite Hty, Hctx, Hid, Hco, <- Hpublic, bool_decide_is_Some.
  rewrite ?(envelope_lookup_None _ _ "publicKeyMultibase"),
    ?(envelope_lookup_None _ _ "publicKeyJwk") by done.
  destruct (truthy (param_default includeContext (VBool true))),
    (truthy (keyPair !!! "id")), (truthy (keyPair !!! "controller")),
    public as [[mp jp] |]; repeat split; reflexivity.
Qed.

End DocumentShape.

(** ** lib/factory.js: validation and agreement *)

Section FactoryMore.
Context `{runtime : Codec}.

Lemma nonempty_string_guard (id : val) :
  negb (truthy id) || negb (String.eqb (typeof id) "string") = false
  <-> nonempty_string id.
Proof.
  unfold nonempty_string. split.
  - destruct id as [| | b | n | s | bs | h | fs | xs | f self]; simpl;
      rewrite ?orb_true_r; try discriminate.
    rewrite orb_false_r, negb_false_iff. intros Hs.
    exists s. split; [reflexivity |]. by apply truthy_VStr.
  - intros (s & -> & Hs). apply truthy_VStr in Hs. simpl in *. by rewrite Hs.
Qed.

Lemma not_nonempty_string_guard (id : val) :
  ~ nonempty_string id ->
  negb (truthy id) || negb (String.eqb (typeof id) "string") = true.
Proof.
  intros Hno.
  destruct (negb (truthy id) || negb (String.eqb (typeof id) "string")) eqn:Hg;
    [reflexivity |].
  exfalso. by apply Hno, nonempty_string_guard.
Qed.

(** X11.  [createSigner] and [createVerifier] first require [id] to be a
    non-empty string and then the key to be truthy, each with its own
    [TypeError]; otherwise they succeed with the capability carrying the
    given [id] and the algorithm label ['PS256'].  The key is not inspected
    any further. *)
Theorem createSigner_createVerifier_validation (id key : val) :
  (~ nonempty_string id ->
   createSigner id key = Err (TypeError (quoted "id" ++ " must be a non-empty string."))
   /\ createVerifier id key
      = Err (TypeError (quoted "id" ++ " must be a non-empty string.")))
  /\ (nonempty_string id -> truthy key = false ->
      createSigner id key = Err (TypeError (quoted "secretKey" ++ " is required."))
      /\ createVerifier id key = Err (TypeError (quoted "publicKey" ++ " is required.")))
  /\ (nonempty_string id -> truthy key = true ->
      (exists S, createSigner id key = Ok S
                 /\ signer_id S = id /\ signer_algorithm S = VStr "PS256")
      /\ (exists V, createVerifier id key = Ok V
                    /\ verifier_id V = id /\ verifier_algorithm V = VStr "PS256")).
Proof.
  unfold createSigner, createVerifier. split; [| split].
  - intros Hid. by rewrite not_nonempty_string_guard.
  - intros Hid Hkey. apply nonempty_string_guard in Hid. by rewrite Hid, Hkey.
  - intros Hid Hkey. apply nonempty_string_guard in Hid. rewrite Hid, Hkey.
    split; eexists; (split; [reflexivity |]); split; reflexivity.
Qed.

Lemma run_sign_signable (E : Engine) (id secretKey data signature : val) (S : Signer) :
  createSigner id secretKey = Ok S ->
  run E (sign S data) = Ok signature ->
  signable data
  /\ exists sig, signature = VBytes sig
                 /\ E (subtle_sign RSA_PSS_SALT32 secretKey (signed_bytes data)) = Ok sig.
Proof.
  unfold createSigner. intros Hcreate.
  destruct (negb (truthy id) || negb (String.eqb (typeof id) "string"));
    [discriminate |].
  destruct (negb (truthy secretKey)); [discriminate |].
  injection Hcreate as <-. cbn [sign].
  destruct (data_steps data) as [Hyes Hno].
  assert (Hdec : signable data \/ ~ signable data).
  { destruct data as [| | b | n | s | bs | h | fs | xs | f self];
      try (right; intros [(? & ? & _) | (? & ?)]; discriminate).
    - destruct (String.eqb_spec s "") as [-> | Hs].
      + right. intros [(? & [= <-] & ?) | (? & ?)]; [done | discriminate].
      + left. left. by exists s.
    - left. right. by exists bs. }
  destruct Hdec as [Hdata | Hdata].
  - destruct (Hyes Hdata) as [Htruthy Hbytes]. rewrite Htruthy, Hbytes.
    cbn [negb mbind async_mbind async_bind]. intros Hrun.
    split; [exact Hdata |].
    change (run E (sig ← await (subtle_sign RSA_PSS_SALT32 secretKey (signed_bytes data));
                   Resolve (VBytes sig)) = Ok signature) in Hrun.
    rewrite run_bind in Hrun.
    apply outcome_bind_Ok in Hrun as (sig & Hsig & Hrun).
    injection Hrun as <-. exists sig. split; [reflexivity |].
    change (run E (await ?c)) with (run E (lift (E c))) in Hsig.
    by rewrite run_lift in Hsig.
  - destruct (Hno Hdata) as [Hfalsy | Hthrow].
    + rewrite Hfalsy. discriminate.
    + destruct (truthy data); [| discriminate]. rewrite Hthrow. discriminate.
Qed.

(** X12.  A signer and a verifier agree on what is signed.  If [sign]
    resolves for some [data], its result is the [Uint8Array] of the
    engine's signature over the signed bytes of [data], and [verify] on the
    same [data] and that signature makes one [subtle.verify] call, with the
    same parameters and on the same bytes, and resolves to the engine's
    answer ([false] when the engine rejects the call). *)
Theorem verifier_checks_what_signer_signed (E : Engine)
    (id id' secretKey publicKey data signature : val) (S : Signer) (V : Verifier) :
  createSigner id secretKey = Ok S ->
  createVerifier id' publicKey = Ok V ->
  run E (sign S data) = Ok signature ->
  exists sig,
    signature = VBytes sig
    /\ E (subtle_sign RSA_PSS_SALT32 secretKey (signed_bytes data)) = Ok sig
    /\ calls E (verify V data signature)
       = [subtle_verify RSA_PSS_SALT32 publicKey sig (signed_bytes data)]
    /\ run E (verify V data signature)
       = Ok (VBool match E (subtle_verify RSA_PSS_SALT32 publicKey sig
                              (signed_bytes data)) with
                   | Ok isValid => isValid
                   | Err _ => false
                   end).
Proof.
  intros HS HV Hrun.
  destruct (run_sign_signable E _ _ _ _ _ HS Hrun) as (Hdata & sig & -> & Hsig).
  exists sig. split; [reflexivity |]. split; [exact Hsig |].
  revert HV. unfold createVerifier.
  destruct (negb (truthy id') || negb (String.eqb (typeof id') "string"));
    [discriminate |].
  destruct (negb (truthy publicKey)); [discriminate |].
  intros [= <-]. cbn [verify].
  destruct (data_steps data) as [Hyes _].
  destruct (Hyes Hdata) as [Htruthy Hbytes]. rewrite Htruthy, Hbytes.
  cbn [negb truthy instanceof_Uint8Array mbind async_mbind async_bind Uint8Array_bytes
       try_catch await calls run].
  destruct (E (subtle_verify _ _ _ _)) as [isValid | e]; split; reflexivity.
Qed.

End FactoryMore.

(** ** lib/translators.js *)

Section Translators.
Context `{runtime : Codec}.

Lemma toMultikey_base (keyPair : val) :
  (let multikey :=
     VObj {[ "@context" := VStr MULTIKEY_CONTEXT_V1_URL; "type" := VStr "Multikey" ]} in
   let multikey :=
     if truthy (keyPair !!! "id")
     then <["id" := keyPair !!! "id"]> multikey else multikey in
   if truthy (keyPair !!! "controller")
   then <["controller" := keyPair !!! "controller"]> multikey else multikey)
  = VObj (envelope keyPair (VBool true)).
Proof.
  unfold envelope. cbv zeta. cbn [param_default truthy].
  destruct (truthy (keyPair !!! "controller")), (truthy (keyPair !!! "id"));
    reflexivity.
Qed.

Lemma toMultikey_halves (E : Engine) (keyPair multikey : val) :
  run E (toMultikey keyPair) = Ok multikey ->
  exists public secret : option (val * val),
    multikey = VObj (with_halves (envelope keyPair (VBool true)) public secret)
    /\ bool_decide (is_Some public) = truthy (keyPair !!! "publicKeyJwk")
    /\ bool_decide (is_Some secret)
       = truthy (keyPair !!! "secretKeyJwk") || truthy (keyPair !!! "privateKeyJwk")
    /\ (forall multibase jwk, public = Some (multibase, jwk) ->
          jwk = keyPair !!! "publicKeyJwk"
          /\ run E (toPublicKeyMultibaseFromJwk jwk) = Ok multibase)
    /\ (forall multibase jwk, secret = Some (multibase, jwk) ->
          jwk = or_else (keyPair !!! "secretKeyJwk") (keyPair !!! "privateKeyJwk")
          /\ run E (toSecretKeyMultibaseFromJwk jwk) = Ok multibase).
Proof.
  unfold toMultikey.
  destruct (negb (truthy keyPair) || negb (String.eqb (typeof keyPair) "object"));
    [discriminate |].
  pose proof (toMultikey_base keyPair) as Hbase. cbv zeta in Hbase |- *.
  rewrite Hbase. clear Hbase.
  generalize (envelope keyPair (VBool true)). intros base Hrun.
  rewrite run_bind in Hrun.
  apply outcome_bind_Ok in Hrun as (result & Hpublic & Hrun).
  rewrite run_bind in Hrun.
  apply outcome_bind_Ok in Hrun as (final & Hsecret & Hrun).
  injection Hrun as <-.
  destruct (truthy (keyPair !!! "publicKeyJwk")).
  - rewrite run_bind in Hpublic.
    apply outcome_bind_Ok in Hpublic as (mp & Hmp & Hresult).
    injection Hresult as <-.
    destruct (truthy (keyPair !!! "secretKeyJwk") || truthy (keyPair !!! "privateKeyJwk")).
    + rewrite run_bind in Hsecret.
      apply outcome_bind_Ok in Hsecret as (ms & Hms & Hfinal).
      injection Hfinal as <-.
      exists (Some (mp, keyPair !!! "publicKeyJwk")),
        (Some (ms, or_else (keyPair !!! "secretKeyJwk") (keyPair !!! "privateKeyJwk"))).
      split; [reflexivity |]. split; [reflexivity |]. split; [reflexivity |].
      split; by intros ? ? [= <- <-].
    + injection Hsecret as <-.
      exists (Some (mp, keyPair !!! "publicKeyJwk")), None.
      split; [reflexivity |]. split; [reflexivity |]. split; [reflexivity |].
      split; [by intros ? ? [= <- <-] | discriminate].
  - injection Hpublic as <-.
    destruct (truthy (keyPair !!! "secretKeyJwk") || truthy (keyPair !!! "privateKeyJwk")).
    + rewrite run_bind in Hsecret.
      apply outcome_bind_Ok in Hsecret as (ms & Hms & Hfinal).
      injection Hfinal as <-.
      exists None,
        (Some (ms, or_else (keyPair !!! "secretKeyJwk") (keyPair !!! "privateKeyJwk"))).
      split; [reflexivity |]. split; [reflexivity |]. split; [reflexivity |].
      split; [discriminate | by intros ? ? [= <- <-]].
    + injection Hsecret as <-.
      exists None, None.
      split; [reflexivity |]. split; [reflexivity |]. split; [reflexivity |].
      split; discriminate.
Qed.

Lemma assertMultikey_Multikey (fs : gmap string val) :
  fs !! "type" = Some (VStr "Multikey") ->
  fs !! "@context" = Some (VStr MULTIKEY_CONTEXT_V1_URL) ->
  _assertMultikey (VObj fs) = Ok ().
Proof.
  intros Hty Hctx. unfold _assertMultikey. rewrite !get_VObj, Hty, Hctx. reflexivity.
Qed.

(** X13.  What [toMultikey] resolves to passes [_assertMultikey] and has
    no property beyond those of a document.  It has a [publicKeyMultibase]
    exactly when the key pair has a [publicKeyJwk], which it copies; it has
    a [secretKeyMultibase] exactly when the key pair has a [secretKeyJwk]
    or a [privateKeyJwk], which it stores as [secretKeyJwk].  A key pair
    without [publicKeyJwk] gives a Multikey without [publicKeyMultibase],
    whatever multibase text the key pair has. *)
Theorem toMultikey_document_shape (E : Engine) (keyPair multikey : val) :
  run E (toMultikey keyPair) = Ok multikey ->
  _assertMultikey multikey = Ok ()
  /\ (forall k, has_property multikey k = true -> In k document_properties)
  /\ has_property multikey "publicKeyMultibase" = truthy (keyPair !!! "publicKeyJwk")
  /\ multikey !!! "publicKeyJwk"
     = (if truthy (keyPair !!! "publicKeyJwk") then keyPair !!! "publicKeyJwk"
        else VUndef)
  /\ has_property multikey "secretKeyMultibase"
     = truthy (keyPair !!! "secretKeyJwk") || truthy (keyPair !!! "privateKeyJwk")
  /\ multikey !!! "secretKeyJwk"
     = (if truthy (keyPair !!! "secretKeyJwk") || truthy (keyPair !!! "privateKeyJwk")
        then or_else (keyPair !!! "secretKeyJwk") (keyPair !!! "privateKeyJwk")
        else VUndef).
Proof.
  intros Hrun.
  apply toMultikey_halves in Hrun
    as (public & secret & -> & Hpublic & Hsecret & Hpk & Hsk).
  destruct (envelope_lookup keyPair (VBool true)) as (Hty & Hctx & _).
  split; [| split].
  { apply assertMultikey_Multikey; by rewrite with_halves_lookup. }
  { intros k. apply with_halves_properties.
    intros k' ? ? ? ?. by apply envelope_lookup_None. }
  rewrite !get_VObj, !has_property_VObj, !with_halves_lookup.
  cbn [String.eqb Ascii.eqb Bool.eqb andb].
  rewrite <- Hpublic, <- Hsecret, !bool_decide_is_Some.
  rewrite ?(envelope_lookup_None _ _ "publicKeyMultibase"),
    ?(envelope_lookup_None _ _ "publicKeyJwk"),
    ?(envelope_lookup_None _ _ "secretKeyMultibase"),
    ?(envelope_lookup_None _ _ "secretKeyJwk") by done.
  destruct public as [[mp jp] |], secret as [[ms js] |]; cbn;
    repeat split; try reflexivity.
  all: try (by destruct (Hpk _ _ eq_refl) as [-> _]).
  all: try (by destruct (Hsk _ _ eq_refl) as [-> _]).
Qed.

End Translators.

(** ** lib/index.js: the key pair interface *)

Section InterfaceMore.
Context `{runtime : Codec}.

(** X14.  The [signer] method of a key pair throws an [Error] when the
    pair holds no secret key, and a [TypeError] when it does but its [id] is
    not a non-empty string; the [verifier] method throws that [TypeError]
    too.  A signer that is made carries the pair's [id] and signs with the
    pair's [secretKey]; a verifier that is made carries the pair's [id] and
    verifies with the pair's [publicKey]. *)
Theorem keyPair_capabilities_use_own_keys (keyPair : val) :
  (truthy (keyPair !!! "secretKey") = false ->
   keyPair_signer keyPair = Err (Error "Secret key is required for signing."))
  /\ (truthy (keyPair !!! "secretKey") = true -> ~ nonempty_string (keyPair !!! "id") ->
      keyPair_signer keyPair
      = Err (TypeError (quoted "id" ++ " must be a non-empty string.")))
  /\ (~ nonempty_string (keyPair !!! "id") ->
      keyPair_verifier keyPair
      = Err (TypeError (quoted "id" ++ " must be a non-empty string.")))
  /\ (forall S, keyPair_signer keyPair = Ok S ->
        signer_id S = keyPair !!! "id"
        /\ forall data, signable data ->
             exists k, sign S data
                       = Await (subtle_sign RSA_PSS_SALT32 (keyPair !!! "secretKey")
                                  (signed_bytes data)) k)
  /\ (forall V, keyPair_verifier keyPair = Ok V ->
        verifier_id V = keyPair !!! "id"
        /\ forall data sig, signable data ->
             exists k, verify V data (VBytes sig)
                       = Await (subtle_verify RSA_PSS_SALT32 (keyPair !!! "publicKey")
                                  sig (signed_bytes data)) k).
Proof.
  unfold keyPair_signer, keyPair_verifier, createSigner, createVerifier. cbv zeta.
  split; [| split; [| split; [| split]]].
  - intros Hsk. by rewrite Hsk.
  - intros Hsk Hid. by rewrite Hsk, not_nonempty_string_guard.
  - intros Hid. by rewrite not_nonempty_string_guard.
  - intros S.
    destruct (negb (truthy (keyPair !!! "secretKey"))); [discriminate |].
    destruct (negb (truthy (keyPair !!! "id")) || _); [discriminate |].
    intros [= <-]. split; [reflexivity |].
    intros data Hdata. cbn [sign].
    destruct (data_steps data) as [Hyes _].
    destruct (Hyes Hdata) as [Htruthy Hbytes]. rewrite Htruthy, Hbytes.
    by eexists.
  - intros V.
    destruct (negb (truthy (keyPair !!! "id")) || _); [discriminate |].
    destruct (negb (truthy (keyPair !!! "publicKey"))); [discriminate |].
    intros [= <-]. split; [reflexivity |].
    intros data sig Hdata. cbn [verify].
    destruct (data_steps data) as [Hyes _].
    destruct (Hyes Hdata) as [Htruthy Hbytes]. rewrite Htruthy, Hbytes.
    by eexists.
Qed.

Lemma holds_engine_key_None (fs : gmap string val) :
  fs !! "publicKey" = None -> holds_engine_key (VObj fs) = false.
Proof. intros Hpk. unfold holds_engine_key. by rewrite get_VObj, Hpk. Qed.

Lemma engine_backed_import (fs : gmap string val) :
  fs !! "publicKey" = None -> engine_backed (VObj fs) = importKeyPair (VObj fs).
Proof. intros Hpk. unfold engine_backed. by rewrite get_VObj, Hpk. Qed.

Lemma truthy_algorithm (v : val) : truthy (v !!! "algorithm") = true -> truthy v = true.
Proof. destruct v; try reflexivity; discriminate. Qed.

(** The key pair the interface is built on holds a public key, and has
    every other property of the object it came from. *)
Lemma engine_backed_fields (E : Engine) (m : gmap string val) (held : val) :
  run E (engine_backed (VObj m)) = Ok held ->
  exists hs : gmap string val,
    held = VObj hs
    /\ truthy (VObj hs !!! "publicKey") = true
    /\ forall k, k <> "publicKey" -> k <> "secretKey" -> hs !! k = m !! k.
Proof.
  unfold engine_backed.
  destruct (truthy ((VObj m !!! "publicKey") !!! "algorithm")) eqn:Halg;
    cbn [instanceof_CryptoKey negb andb].
  - intros [= <-]. exists m. split; [reflexivity |].
    split; [by apply truthy_algorithm | done].
  - intros Hrun.
    apply importKeyPair_fields in Hrun as (hs & hp & -> & Hhp & Hkeeps & _).
    + exists hs. split; [reflexivity |]. split; [by rewrite get_VObj, Hhp | done].
    + unfold holds_engine_key. by rewrite Halg, andb_false_r.
Qed.

Lemma secret_half_of_multibase (E : Engine) (key multibase jwk : val) :
  secret_half_of E key = Ok (multibase, jwk) ->
  exists bs : list byte, multibase = VStr (base58btc_encode bs).
Proof.
  unfold secret_half_of. intros Hhalf.
  apply outcome_bind_Ok in Hhalf as (fs & Hfs & Hhalf).
  apply outcome_bind_Ok in Hhalf as (bytes & Hbytes & Hhalf).
  apply outcome_bind_Ok in Hhalf as (mb & Hmb & Hhalf).
  injection Hhalf as <- <-.
  rewrite run_toSecretKeyBytes in Hbytes.
  destruct (truthy (VObj fs !!! "d")); [| discriminate].
  apply outcome_bind_Ok in Hbytes as (h & _ & Hbytes).
  apply outcome_bind_Ok in Hbytes as (bs & _ & Hbytes).
  injection Hbytes as <-. injection Hmb as <-. by exists bs.
Qed.

(** The multibase texts of a full export: a text for each key the pair
    holds, nothing for a key it does not hold. *)
Lemma exportKeyPair_multibase (E : Engine) (held includeContext doc : val) :
  run E (exportKeyPair held (VBool true) (VBool true) includeContext) = Ok doc ->
  (if truthy (held !!! "publicKey")
   then exists bs, doc !!! "publicKeyMultibase" = VStr (base58btc_encode bs)
   else doc !!! "publicKeyMultibase" = VUndef)
  /\ (if truthy (held !!! "secretKey")
      then exists bs, doc !!! "secretKeyMultibase" = VStr (base58btc_encode bs)
      else doc !!! "secretKeyMultibase" = VUndef).
Proof.
  intros Hrun.
  apply exportKeyPair_halves in Hrun
    as (public & secret & -> & Hpublic & Hsecret & Hpk & Hsk).
  cbn [param_default truthy andb] in Hpublic, Hsecret.
  rewrite bool_decide_is_Some in Hpublic, Hsecret.
  rewrite !get_VObj, !with_halves_lookup.
  cbn [String.eqb Ascii.eqb Bool.eqb andb].
  rewrite !bool_decide_is_Some.
  rewrite ?(envelope_lookup_None _ _ "publicKeyMultibase"),
    ?(envelope_lookup_None _ _ "secretKeyMultibase") by done.
  rewrite <- Hpublic, <- Hsecret.
  split.
  - destruct public as [[mp jp] |]; [| by destruct secret as [[? ?] |]].
    destruct (public_half_of_Ok _ _ _ _ (Hpk _ eq_refl)) as (bs & fs & -> & _).
    exists bs. by destruct secret as [[? ?] |].
  - destruct secret as [[ms js] |]; [| reflexivity].
    destruct (secret_half_of_multibase _ _ _ _ (Hsk _ eq_refl)) as (bs & ->).
    by exists bs.
Qed.

(** The interface, field by field. *)
Lemma createKeyPairInterface_fields (E : Engine) (keyPair modulusLength iface : val) :
  run E (_createKeyPairInterface keyPair modulusLength) = Ok iface ->
  exists (held exported resolved : val) (hs : gmap string val),
    run E (engine_backed keyPair) = Ok held
    /\ spread held = VObj hs
    /\ (if negb (truthy modulusLength) then
          if truthy (held !!! "modulusLength") then Ok (held !!! "modulusLength")
          else if truthy (held !!! "publicKeyJwk")
               then getModulusLengthFromJwk (held !!! "publicKeyJwk")
               else Ok (VNum DEFAULT_MODULUS_LENGTH)
        else Ok modulusLength) = Ok resolved
    /\ run E (exportKeyPair held (VBool true) (VBool true) (VBool true)) = Ok exported
    /\ iface
       = VObj (attach_methods
                 (<["modulusLength" := resolved]>
                    (<["secretKeyMultibase" := exported !!! "secretKeyMultibase"]>
                       (<["publicKeyMultibase" := exported !!! "publicKeyMultibase"]>
                          hs)))).
Proof.
  rewrite run_createKeyPairInterface. intros Hrun.
  apply outcome_bind_Ok in Hrun as (held & Hheld & Hrun).
  apply outcome_bind_Ok in Hrun as (resolved & Hml & Hrun).
  apply outcome_bind_Ok in Hrun as (exported & Hexported & Hrun).
  injection Hrun as <-.
  destruct (spread_VObj held) as (hs & Hhs).
  exists held, exported, resolved, hs. rewrite Hhs. by repeat split.
Qed.

(** X15.  The key pair interface made from a plain object holds a public
    key, and its [publicKeyMultibase] is text made by the base58btc
    encoder.  Its [secretKeyMultibase] is always set: to such text when it
    holds a secret key, to [undefined] otherwise.  Its [modulusLength] is
    the given one if that is truthy, else the object's own if truthy, else
    the length derived from the object's [publicKeyJwk] if it has one, else
    4096.  Its [export], [signer] and [verifier] are the three functions of
    the library, closures over the interface itself, whatever the object had
    under these names.  Every other property of the object is kept. *)
Theorem createKeyPairInterface_derives_fields (E : Engine) (m : gmap string val)
    (modulusLength iface : val) :
  run E (_createKeyPairInterface (VObj m) modulusLength) = Ok iface ->
  truthy (iface !!! "publicKey") = true
  /\ (exists bs, iface !!! "publicKeyMultibase" = VStr (base58btc_encode bs))
  /\ (if truthy (iface !!! "secretKey")
      then exists bs, iface !!! "secretKeyMultibase" = VStr (base58btc_encode bs)
      else iface !!! "secretKeyMultibase" = VUndef)
  /\ has_property iface "secretKeyMultibase" = true
  /\ (truthy modulusLength = true -> iface !!! "modulusLength" = modulusLength)
  /\ (truthy modulusLength = false -> truthy (VObj m !!! "modulusLength") = true ->
      iface !!! "modulusLength" = VObj m !!! "modulusLength")
  /\ (truthy modulusLength = false -> truthy (VObj m !!! "modulusLength") = false ->
      if truthy (VObj m !!! "publicKeyJwk")
      then getModulusLengthFromJwk (VObj m !!! "publicKeyJwk")
           = Ok (iface !!! "modulusLength")
      else iface !!! "modulusLength" = VNum 4096)
  /\ (exists fs : gmap string val,
        iface = VObj fs
        /\ fs !! "export" = Some (VFun method_export (data_properties fs))
        /\ fs !! "signer" = Some (VFun method_signer (data_properties fs))
        /\ fs !! "verifier" = Some (VFun method_verifier (data_properties fs)))
  /\ (forall k, k <> "publicKey" -> k <> "secretKey" -> k <> "publicKeyMultibase" ->
                k <> "secretKeyMultibase" -> k <> "modulusLength" ->
                k <> "export" -> k <> "signer" -> k <> "verifier" ->
                iface !!! k = VObj m !!! k).
Proof.
  intros Hrun.
  apply createKeyPairInterface_fields in Hrun
    as (held & exported & resolved & hs & Hheld & Hhs & Hresolved & Hexported & ->).
  apply engine_backed_fields in Hheld as (hs0 & -> & Hpk & Hkeeps).
  cbn [spread] in Hhs. injection Hhs as <-.
  destruct (exportKeyPair_multibase _ _ _ _ Hexported) as (Hpmb & Hsmb).
  rewrite Hpk in Hpmb. destruct Hpmb as (bp & Hpmb).
  assert (Hml : VObj hs0 !!! "modulusLength" = VObj m !!! "modulusLength")
    by (by rewrite !get_VObj, Hkeeps).
  assert (Hjwk : VObj hs0 !!! "publicKeyJwk" = VObj m !!! "publicKeyJwk")
    by (by rewrite !get_VObj, Hkeeps).
  rewrite Hml, Hjwk in Hresolved.
  set (fs0 := <["modulusLength" := resolved]> _).
  set (fs := attach_methods fs0).
  assert (Hdata : forall k, k <> "export" -> k <> "signer" -> k <> "verifier" ->
                            fs !! k = fs0 !! k).
  { intros k ? ? ?. subst fs. by apply attach_methods_lookup. }
  assert (Hfpk : VObj fs !!! "publicKey" = VObj hs0 !!! "publicKey")
    by (rewrite !get_VObj, Hdata by done; subst fs0; by rewrite !lookup_insert_ne).
  assert (Hfsk : VObj fs !!! "secretKey" = VObj hs0 !!! "secretKey")
    by (rewrite !get_VObj, Hdata by done; subst fs0; by rewrite !lookup_insert_ne).
  assert (Hfpm : fs !! "publicKeyMultibase" = Some (exported !!! "publicKeyMultibase")).
  { rewrite Hdata by done. subst fs0.
    by rewrite lookup_insert_ne, lookup_insert_ne, lookup_insert_eq. }
  assert (Hfsm : fs !! "secretKeyMultibase" = Some (exported !!! "secretKeyMultibase")).
  { rewrite Hdata by done. subst fs0. by rewrite lookup_insert_ne, lookup_insert_eq. }
  assert (Hfml : fs !! "modulusLength" = Some resolved).
  { rewrite Hdata by done. subst fs0. by rewrite lookup_insert_eq. }
  rewrite has_property_VObj, Hfpk, Hfsk, Hfsm.
  rewrite !(get_VObj fs "publicKeyMultibase"), !(get_VObj fs "secretKeyMultibase"),
    !(get_VObj fs "modulusLength"), Hfpm, Hfsm, Hfml, Hpmb.
  cbn [default].
  split; [exact Hpk |]. split; [by exists bp |]. split; [exact Hsmb |].
  split; [reflexivity |].
  split; [| split; [| split; [| split]]].
  - intros Hgiven. rewrite Hgiven in Hresolved. by injection Hresolved as <-.
  - intros Hgiven Hown. rewrite Hgiven, Hown in Hresolved. by injection Hresolved as <-.
  - intros Hgiven Hown. rewrite Hgiven, Hown in Hresolved. cbn [negb] in Hresolved.
    destruct (truthy (VObj m !!! "publicKeyJwk")); [exact Hresolved |].
    by injection Hresolved as <-.
  - exists fs. split; [reflexivity |]. subst fs.
    rewrite data_properties_attach. apply attach_methods_methods.
  - intros k ? ? ? ? ? ? ? ?. rewrite !get_VObj, Hdata by done.
    subst fs0. by rewrite !lookup_insert_ne, Hkeeps.
Qed.

Lemma run_exportFn_raw (E : Engine) (keyPair publicKey secretKey includeContext raw : val) :
  truthy raw = true ->
  run E (exportFn keyPair publicKey secretKey includeContext raw)
  = jwk ← run E (toJwk keyPair (param_default secretKey (VBool false)));
    result ←
      (if truthy (param_default publicKey (VBool true)) then
         publicKeyBytes ← run E (toPublicKeyBytes (public_fields jwk));
         Ok (<["publicKey" := publicKeyBytes]> (∅ : gmap string val))
       else Ok ∅);
    if truthy secretKey then
      secretKeyBytes ← run E (toSecretKeyBytes jwk);
      Ok (VObj (<["secretKey" := secretKeyBytes]> result))
    else Ok (VObj result).
Proof.
  intros Hraw. unfold exportFn. cbv zeta.
  assert (Hr : truthy (param_default raw (VBool false)) = true)
    by (destruct raw; try done).
  assert (Hsk : truthy (param_default secretKey (VBool false)) = truthy secretKey)
    by (by destruct secretKey).
  rewrite Hr, Hsk. run_norm.
  destruct (run E (toJwk keyPair _)) as [jwk | e]; ok_step; [| reflexivity].
  run_norm.
  destruct (truthy (param_default publicKey (VBool true))).
  - run_norm.
    destruct (run E (toPublicKeyBytes (public_fields jwk))) as [bp | e]; ok_step;
      [| reflexivity].
    run_norm.
    destruct (truthy secretKey); [| reflexivity].
    run_norm. by destruct (run E (toSecretKeyBytes jwk)).
  - ok_step. run_norm.
    destruct (truthy secretKey); [| reflexivity].
    run_norm. by destruct (run E (toSecretKeyBytes jwk)).
Qed.

Lemma toPublicKeyBytes_bytes (E : Engine) (jwk bytes : val) :
  run E (toPublicKeyBytes jwk) = Ok bytes -> exists bs, bytes = VBytes bs.
Proof.
  unfold toPublicKeyBytes.
  destruct (negb (truthy jwk) || negb (String.eqb (typeof jwk) "object"));
    [discriminate |].
  intros Hrun. rewrite run_bind in Hrun.
  apply outcome_bind_Ok in Hrun as (h & _ & Hrun).
  rewrite run_bind in Hrun.
  apply outcome_bind_Ok in Hrun as (bs & _ & Hrun).
  injection Hrun as <-. by exists bs.
Qed.

Lemma toSecretKeyBytes_bytes (E : Engine) (jwk bytes : val) :
  run E (toSecretKeyBytes jwk) = Ok bytes ->
  truthy (jwk !!! "d") = true /\ exists bs, bytes = VBytes bs.
Proof.
  unfold toSecretKeyBytes.
  destruct (negb (truthy jwk) || negb (String.eqb (typeof jwk) "object"));
    [discriminate |].
  destruct (truthy (jwk !!! "d")); [| discriminate].
  cbn [negb]. intros Hrun. rewrite run_bind in Hrun.
  apply outcome_bind_Ok in Hrun as (h & _ & Hrun).
  rewrite run_bind in Hrun.
  apply outcome_bind_Ok in Hrun as (bs & _ & Hrun).
  injection Hrun as <-. split; [reflexivity | by exists bs].
Qed.

(** X16.  A raw export resolves to an object with no property but
    [publicKey] and [secretKey], each a [Uint8Array], [publicKey] being
    there exactly when the public half is requested and [secretKey] exactly
    when the secret half is.  Unlike a document export, a raw export with
    the secret half requested fails on a key pair that holds no secret key
    (the engine's JWK of the public key having no [d]). *)
Theorem raw_export_bytes (E : Engine)
    (keyPair publicKey secretKey includeContext raw : val) :
  truthy raw = true ->
  (forall result,
     run E (exportFn keyPair publicKey secretKey includeContext raw) = Ok result ->
     (forall k, has_property result k = true -> k = "publicKey" \/ k = "secretKey")
     /\ (if truthy (param_default publicKey (VBool true))
         then exists bs, result !!! "publicKey" = VBytes bs
         else has_property result "publicKey" = false)
     /\ (if truthy secretKey
         then exists bs, result !!! "secretKey" = VBytes bs
         else has_property result "secretKey" = false))
  /\ (forall (held : val) (jwk : gmap string val),
        truthy secretKey = true ->
        run E (engine_backed keyPair) = Ok held ->
        truthy (held !!! "secretKey") = false ->
        E (subtle_exportKey fmt_jwk (held !!! "publicKey")) = Ok jwk ->
        truthy (VObj jwk !!! "d") = false ->
        exists e, run E (exportFn keyPair publicKey secretKey includeContext raw) = Err e).
Proof.
  intros Hraw. rewrite run_exportFn_raw by exact Hraw. split.
  - intros result Hrun.
    apply outcome_bind_Ok in Hrun as (jwk & _ & Hrun).
    apply outcome_bind_Ok in Hrun as (first & Hfirst & Hrun).
    assert (Hshape : (forall k, k <> "publicKey" -> first !! k = None)
              /\ if truthy (param_default publicKey (VBool true))
                 then exists bs, first !! "publicKey" = Some (VBytes bs)
                 else first !! "publicKey" = None).
    { destruct (truthy (param_default publicKey (VBool true))).
      - apply outcome_bind_Ok in Hfirst as (bytes & Hbytes & Hfirst).
        injection Hfirst as <-.
        apply toPublicKeyBytes_bytes in Hbytes as (bs & ->).
        split; [intros k ?; by rewrite lookup_insert_ne | exists bs].
        by rewrite lookup_insert_eq.
      - injection Hfirst as <-. split; [intros k ?; apply lookup_empty |].
        apply lookup_empty. }
    destruct Hshape as (Hother & Hpk).
    destruct (truthy secretKey).
    + apply outcome_bind_Ok in Hrun as (bytes & Hbytes & Hrun).
      injection Hrun as <-.
      apply toSecretKeyBytes_bytes in Hbytes as (_ & bs & ->).
      split; [| split].
      * intros k. rewrite has_property_VObj.
        destruct (decide (k = "secretKey")) as [-> | Hk]; [by right |].
        destruct (decide (k = "publicKey")) as [-> | Hk']; [by left |].
        by rewrite lookup_insert_ne, Hother.
      * destruct (truthy (param_default publicKey (VBool true))).
        -- destruct Hpk as (bp & Hpk). exists bp.
           by rewrite get_VObj, lookup_insert_ne, Hpk.
        -- by rewrite has_property_VObj, lookup_insert_ne, Hpk.
      * exists bs. by rewrite get_VObj, lookup_insert_eq.
    + injection Hrun as <-.
      split; [| split].
      * intros k. rewrite has_property_VObj.
        destruct (decide (k = "publicKey")) as [-> | Hk']; [by left |].
        by rewrite Hother.
      * destruct (truthy (param_default publicKey (VBool true))).
        -- destruct Hpk as (bp & Hpk). exists bp. by rewrite get_VObj, Hpk.
        -- by rewrite has_property_VObj, Hpk.
      * by rewrite has_property_VObj, Hother.
  - intros held jwk Hsk Hheld Hnone Hexport Hd.
    rewrite run_toJwk, Hheld. ok_step.
    rewrite Hnone, andb_false_r, Hexport. ok_step. rewrite Hsk.
    assert (Hsecret : run E (toSecretKeyBytes (VObj (with_alg jwk)))
                      = Err (Error "JWK does not contain a private key.")).
    { rewrite run_toSecretKeyBytes.
      assert (Hd' : truthy (VObj (with_alg jwk) !!! "d") = false).
      { unfold with_alg. destruct (truthy (VObj jwk !!! "alg")); [exact Hd |].
        by rewrite get_VObj, lookup_insert_ne, <- get_VObj. }
      by rewrite Hd'. }
    rewrite Hsecret.
    destruct (truthy (param_default publicKey (VBool true))).
    + destruct (run E (toPublicKeyBytes _)) as [bp | e]; ok_step; by eexists.
    + ok_step. by eexists.
Qed.

(** X17.  What [toJwk] resolves to is the engine's JWK of the exported key
    (the secret key when it is requested and held, the public key
    otherwise) with [alg] ensured: a truthy [alg] is kept, a missing or
    empty one becomes ['PS256'], and every other field is the engine's. *)
Theorem toJwk_ensures_alg (E : Engine) (keyPair secretKey out : val) :
  run E (toJwk keyPair secretKey) = Ok out ->
  exists (held : val) (jwk : gmap string val),
    run E (engine_backed keyPair) = Ok held
    /\ E (subtle_exportKey fmt_jwk
            (if truthy secretKey && truthy (held !!! "secretKey")
             then held !!! "secretKey" else held !!! "publicKey")) = Ok jwk
    /\ out !!! "alg"
       = (if truthy (VObj jwk !!! "alg") then VObj jwk !!! "alg" else VStr "PS256")
    /\ truthy (out !!! "alg") = true
    /\ forall k, k <> "alg" -> out !!! k = VObj jwk !!! k.
Proof.
  rewrite run_toJwk. intros Hrun.
  apply outcome_bind_Ok in Hrun as (held & Hheld & Hrun).
  apply outcome_bind_Ok in Hrun as (jwk & Hjwk & Hrun).
  injection Hrun as <-. exists held, jwk.
  split; [exact Hheld |]. split; [exact Hjwk |].
  unfold with_alg. destruct (truthy (VObj jwk !!! "alg")) eqn:Halg.
  - by repeat split.
  - rewrite !get_VObj, lookup_insert_eq. repeat split.
    intros k ?. by rewrite !get_VObj, lookup_insert_ne.
Qed.

(** X18.  A key pair that [generate] resolves to has the requested
    modulus length, which is one of the three allowed; its [publicKey] and
    [secretKey] are the two keys of the engine's key generation and it has
    no [privateKey]; its [secretKeyMultibase] is multibase text; its
    [controller] is the given one; and a truthy [id] that was given is its
    [id]. *)
Theorem generate_key_pair (E : Engine) (id controller modulusLength keyPair : val) :
  run E (generate id controller modulusLength) = Ok keyPair ->
  let requested := param_default modulusLength (VNum DEFAULT_MODULUS_LENGTH) in
  allowed_modulusLength requested
  /\ keyPair !!! "modulusLength" = requested
  /\ (exists pub priv : N,
        E (subtle_generateKey
             (VObj {[ "name" := VStr "RSA-PSS"; "hash" := VStr "SHA-256";
                      "modulusLength" := requested;
                      "publicExponent" := VBytes [x01; x00; x01] ]})
             true ["sign"; "verify"]) = Ok (pub, priv)
        /\ keyPair !!! "publicKey" = VKey pub
        /\ keyPair !!! "secretKey" = VKey priv)
  /\ has_property keyPair "privateKey" = false
  /\ (exists bs, keyPair !!! "secretKeyMultibase" = VStr (base58btc_encode bs))
  /\ (truthy id = true -> keyPair !!! "id" = id)
  /\ keyPair !!! "controller" = controller.
Proof.
  intros Hrun requested. unfold generate in Hrun. cbv zeta in Hrun.
  fold requested in Hrun.
  destruct (negb (is_num requested 2048) && negb (is_num requested 3072)
            && negb (is_num requested 4096)) eqn:Hallowed; [discriminate |].
  apply allowed_modulusLength_test in Hallowed.
  rewrite run_bind in Hrun.
  apply outcome_bind_Ok in Hrun as ([pub priv] & Hgen & Hrun).
  change (run E (await ?c)) with (run E (lift (E c))) in Hgen.
  rewrite run_lift in Hgen.
  set (pair := delete "privateKey" _) in Hrun.
  assert (Hpair : pair = VObj {[ "publicKey" := VKey pub; "secretKey" := VKey priv ]}).
  { subst pair. reflexivity. }
  rewrite Hpair in Hrun. clear pair Hpair.
  rewrite run_bind in Hrun.
  apply outcome_bind_Ok in Hrun as (iface & Hiface & Hrun).
  apply createKeyPairInterface_fields in Hiface
    as (held & exported & resolved & hs & Hheld & Hhs & _ & Hexported & ->).
  rewrite (engine_backed_native _ pub) in Hheld by reflexivity.
  injection Hheld as <-. cbn [spread] in Hhs. injection Hhs as <-.
  destruct (exportKeyPair_multibase _ _ _ _ Hexported) as (_ & Hsmb).
  change (truthy (VObj {[ "publicKey" := VKey pub; "secretKey" := VKey priv ]}
                    !!! "secretKey")) with true in Hsmb.
  destruct Hsmb as (bs & Hsmb).
  rewrite run_bind in Hrun.
  apply outcome_bind_Ok in Hrun as (second & _ & Hrun).
  rewrite run_bind in Hrun.
  apply outcome_bind_Ok in Hrun as (derived & Hderived & Hrun).
  cbn [run] in Hrun. injection Hrun as <-.
  rewrite !interface_assign_VObj, has_property_VObj, !get_VObj.
  split; [exact Hallowed |].
  split; [by interface_lookup |].
  split; [exists pub, priv; split; [exact Hgen |]; split; by interface_lookup |].
  split; [by interface_lookup |].
  split; [exists bs; rewrite <- Hsmb; by interface_lookup |].
  split; [| by interface_lookup].
  intros Hid. rewrite Hid in Hderived. cbn in Hderived. injection Hderived as <-.
  by interface_lookup.
Qed.

End InterfaceMore.

(** ** lib/index.js: [from] on a Multikey *)

Section FromMore.
Context `{runtime : Codec}.

Lemma assertMultikey_context_ok (fs : gmap string val) :
  fs !! "type" = Some (VStr "Multikey") ->
  context_ok (VObj fs !!! "@context") ->
  _assertMultikey (VObj fs) = Ok ().
Proof.
  intros Hty Hok. unfold _assertMultikey.
  rewrite (get_VObj fs "type"), Hty.
  cbn [default is_str String.eqb Ascii.eqb Bool.eqb negb truthy typeof andb].
  apply context_test in Hok. rewrite Hok. reflexivity.
Qed.

Lemma assertMultikey_no_context (fs : gmap string val) :
  fs !! "type" = Some (VStr "Multikey") ->
  fs !! "@context" = None ->
  _assertMultikey (VObj fs)
  = Err (TypeError (quoted "key" ++ " must be a Multikey with context "
                      ++ quoted MULTIKEY_CONTEXT_V1_URL ++ ".")).
Proof.
  intros Hty Hctx. unfold _assertMultikey. rewrite !get_VObj, Hty, Hctx. reflexivity.
Qed.

(** The derived [id] changes no other property. *)
Lemma with_derived_id_run (E : Engine) (fs : gmap string val) (multikey : val) :
  run E (with_derived_id (VObj fs)) = Ok multikey ->
  exists fs' : gmap string val,
    multikey = VObj fs'
    /\ forall k, k <> "id" -> fs' !! k = fs !! k.
Proof.
  unfold with_derived_id.
  destruct (truthy (VObj fs !!! "controller") && negb (truthy (VObj fs !!! "id"))).
  - intros Hrun. rewrite run_bind in Hrun.
    apply outcome_bind_Ok in Hrun as (c & _ & Hrun). rewrite run_bind in Hrun.
    apply outcome_bind_Ok in Hrun as (p & _ & Hrun).
    cbn [run] in Hrun. injection Hrun as <-.
    exists (<["id" := VStr (c ++ "#" ++ p)]> fs). split; [reflexivity |].
    intros k ?. by rewrite lookup_insert_ne.
  - intros [= <-]. by exists fs.
Qed.

Lemma with_derived_id_Resolve (fs : gmap string val) (multikey : val) :
  with_derived_id (VObj fs) = Resolve multikey ->
  exists fs' : gmap string val,
    multikey = VObj fs'
    /\ forall k, k <> "id" -> fs' !! k = fs !! k.
Proof.
  intros Hquiet.
  apply (with_derived_id_run (fun c => Err (Error ""))). by rewrite Hquiet.
Qed.

(** A quiet derivation resolves at once. *)
Lemma quiet_id_Resolve (multikey : val) :
  quiet_id multikey -> exists derived, with_derived_id multikey = Resolve derived.
Proof.
  unfold quiet_id, with_derived_id, converts.
  intros [-> | (c & p & -> & ->)]; [by eexists |].
  destruct (truthy (multikey !!! "controller") && negb (truthy (multikey !!! "id")));
    by eexists.
Qed.

Lemma primitive_converts (v : val) : primitive v -> exists text, converts v text.
Proof. destruct v; try done; intros _; by eexists. Qed.

Lemma quiet_id_primitive (multikey : val) :
  primitive (multikey !!! "controller") ->
  primitive (multikey !!! "publicKeyMultibase") -> quiet_id multikey.
Proof.
  intros Hc Hp. right.
  destruct (primitive_converts _ Hc) as (c & Hcc), (primitive_converts _ Hp) as (p & Hpp).
  by exists c, p.
Qed.

Lemma quiet_id_ext (fs fs' : gmap string val) :
  (forall k, k <> "@context" -> fs' !! k = fs !! k) ->
  quiet_id (VObj fs) -> quiet_id (VObj fs').
Proof.
  intros Hsame. unfold quiet_id. by rewrite !get_VObj, !Hsame.
Qed.

(** [from] on a Multikey without a context is [from] on the Multikey
    with the context filled in. *)
Lemma from_body_Multikey_no_context
    (fromJwk' : val -> val -> val -> val -> async val) (m : gmap string val) :
  m !! "type" = Some (VStr "Multikey") ->
  truthy (VObj m !!! "@context") = false ->
  from_body fromJwk' (VObj m)
  = from_body fromJwk' (VObj (<["@context" := VStr MULTIKEY_CONTEXT_V1_URL]> m)).
Proof.
  intros Hty Hctx.
  rewrite (from_body_Multikey fromJwk' (<["@context" := VStr MULTIKEY_CONTEXT_V1_URL]> m));
    [| by rewrite lookup_insert_ne | by rewrite get_VObj, lookup_insert_eq].
  unfold from_body. cbv beta zeta. cbn [spread].
  assert (Htype : VObj m !!! "type" = VStr "Multikey") by (by rewrite get_VObj, Hty).
  rewrite !Htype.
  cbn [is_str String.eqb Ascii.eqb Bool.eqb negb truthy andb].
  rewrite !Hctx. cbn [negb]. reflexivity.
Qed.

(** A valid Multikey passes the validation of [from] and goes on to the
    interface: as a program when the derivation of the [id] is quiet, and in
    every run. *)
Lemma from_valid_Multikey (m : gmap string val) (multikey : val) :
  m !! "type" = Some (VStr "Multikey") ->
  m !! "@context" = Some (VStr MULTIKEY_CONTEXT_V1_URL) ->
  with_derived_id (VObj m) = Resolve multikey ->
  from (VObj m) = _createKeyPairInterface multikey VUndef.
Proof.
  intros Hty Hctx Hquiet. unfold from.
  rewrite from_body_Multikey; [| exact Hty | by rewrite get_VObj, Hctx].
  rewrite Hquiet. cbn [mbind async_mbind async_bind].
  destruct (with_derived_id_Resolve _ _ Hquiet) as (fs' & -> & Hsame).
  rewrite assertMultikey_Multikey; [reflexivity | |]; by rewrite Hsame.
Qed.

Lemma run_from_valid_Multikey (E : Engine) (m : gmap string val) :
  m !! "type" = Some (VStr "Multikey") ->
  m !! "@context" = Some (VStr MULTIKEY_CONTEXT_V1_URL) ->
  run E (from (VObj m))
  = multikey ← run E (with_derived_id (VObj m));
    run E (_createKeyPairInterface multikey VUndef).
Proof.
  intros Hty Hctx. unfold from.
  rewrite from_body_Multikey; [| exact Hty | by rewrite get_VObj, Hctx].
  rewrite run_bind.
  destruct (run E (with_derived_id (VObj m))) as [multikey | e] eqn:Hrun;
    ok_step; [| reflexivity].
  destruct (with_derived_id_run _ _ _ Hrun) as (fs' & -> & Hsame).
  rewrite run_bind, run_lift.
  rewrite assertMultikey_Multikey; [reflexivity | |]; by rewrite Hsame.
Qed.

(** [from] on a Multikey whose context is the fixed URL or absent. *)
Lemma from_Multikey_default_context (m : gmap string val) (multikey : val) :
  m !! "type" = Some (VStr "Multikey") ->
  m !! "@context" = Some (VStr MULTIKEY_CONTEXT_V1_URL) \/ m !! "@context" = None ->
  with_derived_id (VObj (<["@context" := VStr MULTIKEY_CONTEXT_V1_URL]> m))
  = Resolve multikey ->
  from (VObj m) = _createKeyPairInterface multikey VUndef.
Proof.
  intros Hty [Hctx | Hctx] Hquiet.
  - rewrite (insert_id m "@context" _ Hctx) in Hquiet. by apply from_valid_Multikey.
  - unfold from. rewrite from_body_Multikey_no_context;
      [| exact Hty | by rewrite get_VObj, Hctx].
    apply from_valid_Multikey;
      [by rewrite lookup_insert_ne | by rewrite lookup_insert_eq | exact Hquiet].
Qed.

Lemma run_from_Multikey_default_context (E : Engine) (m : gmap string val) :
  m !! "type" = Some (VStr "Multikey") ->
  m !! "@context" = Some (VStr MULTIKEY_CONTEXT_V1_URL) \/ m !! "@context" = None ->
  run E (from (VObj m))
  = multikey ← run E (with_derived_id
                        (VObj (<["@context" := VStr MULTIKEY_CONTEXT_V1_URL]> m)));
    run E (_createKeyPairInterface multikey VUndef).
Proof.
  intros Hty [Hctx | Hctx].
  - rewrite (insert_id m "@context" _ Hctx). by apply run_from_valid_Multikey.
  - unfold from. rewrite from_body_Multikey_no_context;
      [| exact Hty | by rewrite get_VObj, Hctx].
    apply run_from_valid_Multikey;
      [by rewrite lookup_insert_ne | by rewrite lookup_insert_eq].
Qed.

(** X19.  [from] accepts every document that [exportKeyPair] resolves to.
    The document passes [_assertMultikey] when it was exported with its
    context and fails it otherwise; in both cases [from] supplies the
    context, derives an [id] if the document has a controller and no [id],
    and goes on to build the interface: its validation does not throw.
    This holds of the program when the derivation is quiet, which it is for
    a document whose controller is a primitive value, and of every run. *)
Theorem from_accepts_exported_document (E : Engine)
    (keyPair publicKey secretKey includeContext doc : val) :
  run E (exportKeyPair keyPair publicKey secretKey includeContext) = Ok doc ->
  let document := <["@context" := VStr MULTIKEY_CONTEXT_V1_URL]> doc in
  _assertMultikey doc
  = (if truthy (param_default includeContext (VBool true)) then Ok ()
     else Err (TypeError (quoted "key" ++ " must be a Multikey with context "
                            ++ quoted MULTIKEY_CONTEXT_V1_URL ++ ".")))
  /\ (forall multikey,
        with_derived_id document = Resolve multikey ->
        from doc = _createKeyPairInterface multikey VUndef)
  /\ (forall E' : Engine,
        run E' (from doc)
        = multikey ← run E' (with_derived_id document);
          run E' (_createKeyPairInterface multikey VUndef))
  /\ (primitive (keyPair !!! "controller") -> quiet_id document).
Proof.
  intros Hrun document. subst document.
  apply exportKeyPair_halves in Hrun as (public & secret & -> & Hpublic & _ & Hpk & _).
  destruct (envelope_lookup keyPair includeContext) as (Hty & Hctx & Hid & Hco).
  set (fs := with_halves _ public secret).
  assert (Hfty : fs !! "type" = Some (VStr "Multikey")).
  { subst fs. by rewrite with_halves_lookup. }
  assert (Hfctx : fs !! "@context"
                  = if truthy (param_default includeContext (VBool true))
                    then Some (VStr MULTIKEY_CONTEXT_V1_URL) else None).
  { subst fs. by rewrite with_halves_lookup. }
  assert (Hdefault : fs !! "@context" = Some (VStr MULTIKEY_CONTEXT_V1_URL)
                     \/ fs !! "@context" = None).
  { rewrite Hfctx.
    destruct (truthy (param_default includeContext (VBool true))); [by left | by right]. }
  rewrite insert_VObj. split; [| split; [| split]].
  - destruct (truthy (param_default includeContext (VBool true)));
      [by apply assertMultikey_Multikey | by apply assertMultikey_no_context].
  - intros multikey. by apply from_Multikey_default_context.
  - intros E'. by apply run_from_Multikey_default_context.
  - intros Hprimitive. apply quiet_id_primitive.
    + rewrite get_VObj, lookup_insert_ne by done. subst fs.
      rewrite with_halves_lookup. cbn [String.eqb Ascii.eqb Bool.eqb andb].
      rewrite Hco. by destruct (truthy (keyPair !!! "controller")).
    + rewrite get_VObj, lookup_insert_ne by done. subst fs.
      rewrite with_halves_lookup. cbn [String.eqb Ascii.eqb Bool.eqb andb].
      rewrite bool_decide_is_Some.
      destruct public as [[mp jp] |].
      * destruct (public_half_of_Ok _ _ _ _ (Hpk _ eq_refl)) as (bs & ? & -> & _).
        exact I.
      * by rewrite envelope_lookup_None.
Qed.

Lemma truthy_is_str_false (v : val) (s : string) :
  truthy v = false -> s <> "" -> is_str v s = false.
Proof.
  intros Hv Hs. apply is_str_false. intros ->.
  apply truthy_VStr in Hs. congruence.
Qed.

(** X20.  [from] fills in what a Multikey may omit.  On a key without
    [type] and without [publicKeyJwk] it is [from] on the key with the type
    ['Multikey']; on a Multikey without [@context] it is [from] on the key
    with the fixed context. *)
Theorem from_fills_in_type_and_context (m : gmap string val) :
  (truthy (VObj m !!! "type") = false -> truthy (VObj m !!! "publicKeyJwk") = false ->
   from (VObj m) = from (VObj (<["type" := VStr "Multikey"]> m)))
  /\ (m !! "type" = Some (VStr "Multikey") -> truthy (VObj m !!! "@context") = false ->
      from (VObj m) = from (VObj (<["@context" := VStr MULTIKEY_CONTEXT_V1_URL]> m))).
Proof.
  split.
  - intros Hty Hjwk. unfold from, from_body. cbv beta zeta. cbn [spread].
    rewrite (truthy_is_str_false _ "Multikey" Hty) by done.
    rewrite Hjwk, !Hty. cbn [negb]. cbv iota.
    rewrite !insert_VObj.
    assert (Htype : VObj (<["type" := VStr "Multikey"]> m) !!! "type" = VStr "Multikey")
      by (by rewrite get_VObj, lookup_insert_eq).
    rewrite !Htype.
    cbn [is_str String.eqb Ascii.eqb Bool.eqb negb truthy andb]. reflexivity.
  - intros Hty Hctx. by apply from_body_Multikey_no_context.
Qed.

Lemma importKeyPair_no_material (fs : gmap string val) :
  fs !! "publicKey" = None -> fs !! "publicKeyJwk" = None ->
  fs !! "publicKeyMultibase" = None ->
  importKeyPair (VObj fs)
  = Throw (Error "Key pair must have publicKeyJwk or publicKeyMultibase.").
Proof.
  intros Hpk Hjwk Hmb. unfold importKeyPair. rewrite !get_VObj, Hpk, Hjwk, Hmb.
  reflexivity.
Qed.

Lemma createKeyPairInterface_no_material (fs : gmap string val) (modulusLength : val) :
  fs !! "publicKey" = None -> fs !! "publicKeyJwk" = None ->
  fs !! "publicKeyMultibase" = None ->
  _createKeyPairInterface (VObj fs) modulusLength
  = Throw (Error "Key pair must have publicKeyJwk or publicKeyMultibase.").
Proof.
  intros Hpk Hjwk Hmb. unfold _createKeyPairInterface.
  rewrite get_VObj, Hpk. cbn [default get val_lookup_total lookup_total truthy negb andb
                               instanceof_CryptoKey].
  rewrite importKeyPair_no_material by done. reflexivity.
Qed.

(** X21.  [from] rejects a Multikey when its [@context] is set to
    something other than the fixed URL or an array containing it (a
    [TypeError]), and when its context is fine or absent but it carries
    neither [publicKey], nor [publicKeyJwk], nor [publicKeyMultibase] (an
    [Error]).  Both happen before any engine call when the derivation of
    the [id] is quiet, as it is whenever no [id] is derived and whenever the
    controller and the multibase text are primitive values; in every case
    the call fails. *)
Theorem from_rejects_before_any_engine_call (m : gmap string val) :
  m !! "type" = Some (VStr "Multikey") ->
  (truthy (VObj m !!! "@context") = true -> ~ context_ok (VObj m !!! "@context") ->
   (quiet_id (VObj m) ->
    from (VObj m)
    = Throw (TypeError (quoted "key" ++ " must be a Multikey with context "
                          ++ quoted MULTIKEY_CONTEXT_V1_URL ++ ".")))
   /\ forall E : Engine, exists e, run E (from (VObj m)) = Err e)
  /\ (context_ok (VObj m !!! "@context") \/ truthy (VObj m !!! "@context") = false ->
      m !! "publicKey" = None -> m !! "publicKeyJwk" = None ->
      m !! "publicKeyMultibase" = None ->
      (quiet_id (VObj m) ->
       from (VObj m)
       = Throw (Error "Key pair must have publicKeyJwk or publicKeyMultibase."))
      /\ forall E : Engine, exists e, run E (from (VObj m)) = Err e)
  /\ (truthy (VObj m !!! "controller") && negb (truthy (VObj m !!! "id")) = false
      \/ primitive (VObj m !!! "controller")
         /\ primitive (VObj m !!! "publicKeyMultibase") ->
      quiet_id (VObj m)).
Proof.
  intros Hty. split; [| split].
  - intros Hctx Hbad.
    assert (Hreject : forall fs' : gmap string val,
              (forall k, k <> "id" -> fs' !! k = m !! k) ->
              _assertMultikey (VObj fs')
              = Err (TypeError (quoted "key" ++ " must be a Multikey with context "
                                  ++ quoted MULTIKEY_CONTEXT_V1_URL ++ "."))).
    { intros fs' Hsame. unfold _assertMultikey.
      rewrite !get_VObj, !Hsame, Hty by done.
      cbn [default is_str String.eqb Ascii.eqb Bool.eqb negb truthy typeof andb].
      rewrite get_VObj in Hbad.
      apply (not_iff_compat (context_test _)) in Hbad.
      apply not_true_is_false in Hbad. rewrite Hbad. reflexivity. }
    split.
    + intros Hquiet. apply quiet_id_Resolve in Hquiet as (derived & Hquiet).
      unfold from. rewrite from_body_Multikey, Hquiet by done.
      cbn [mbind async_mbind async_bind].
      destruct (with_derived_id_Resolve _ _ Hquiet) as (fs' & -> & Hsame).
      by rewrite Hreject.
    + intros E. unfold from. rewrite from_body_Multikey by done.
      rewrite run_bind.
      destruct (run E (with_derived_id (VObj m))) as [derived | e] eqn:Hrun;
        ok_step; [| by eexists].
      destruct (with_derived_id_run _ _ _ Hrun) as (fs' & -> & Hsame).
      rewrite run_bind, run_lift, Hreject by done. by eexists.
  - intros Hctx Hpk Hjwk Hmb.
    assert (Hfails : forall fs' : gmap string val,
              (forall k, k <> "id" -> k <> "@context" -> fs' !! k = m !! k) ->
              _createKeyPairInterface (VObj fs') VUndef
              = Throw (Error "Key pair must have publicKeyJwk or publicKeyMultibase.")).
    { intros fs' Hsame.
      apply createKeyPairInterface_no_material; by rewrite Hsame. }
    assert (Hfrom : forall m' : gmap string val,
              m' !! "type" = Some (VStr "Multikey") ->
              context_ok (VObj m' !!! "@context") ->
              (forall k, k <> "@context" -> m' !! k = m !! k) ->
              (quiet_id (VObj m) ->
               from (VObj m')
               = Throw (Error "Key pair must have publicKeyJwk or publicKeyMultibase."))
              /\ forall E : Engine, exists e, run E (from (VObj m')) = Err e).
    { intros m' Hty' Hok Hsame'.
      assert (Hctx' : truthy (VObj m' !!! "@context") = true).
      { destruct Hok as [-> | (xs & -> & _)]; reflexivity. }
      assert (Hvalid : forall fs' : gmap string val,
                (forall k, k <> "id" -> fs' !! k = m' !! k) ->
                _assertMultikey (VObj fs') = Ok ()).
      { intros fs' Hsame. apply assertMultikey_context_ok; [by rewrite Hsame |].
        by rewrite get_VObj, Hsame, <- get_VObj. }
      split.
      - intros Hquiet. apply (quiet_id_ext m m') in Hquiet; [| exact Hsame'].
        apply quiet_id_Resolve in Hquiet as (derived & Hquiet).
        unfold from. rewrite from_body_Multikey, Hquiet by done.
        cbn [mbind async_mbind async_bind].
        destruct (with_derived_id_Resolve _ _ Hquiet) as (fs' & -> & Hsame).
        rewrite Hvalid by done. cbn [lift mbind async_mbind async_bind].
        apply Hfails. intros k ? ?. by rewrite Hsame, Hsame'.
      - intros E. unfold from. rewrite from_body_Multikey by done.
        rewrite run_bind.
        destruct (run E (with_derived_id (VObj m'))) as [derived | e] eqn:Hrun;
          ok_step; [| by eexists].
        destruct (with_derived_id_run _ _ _ Hrun) as (fs' & -> & Hsame).
        rewrite run_bind, run_lift, Hvalid by done. ok_step.
        rewrite Hfails; [by eexists |].
        intros k ? ?. by rewrite Hsame, Hsame'. }
    destruct Hctx as [Hok | Hnone].
    + by apply Hfrom.
    + unfold from. rewrite from_body_Multikey_no_context by done.
      apply Hfrom.
      * by rewrite lookup_insert_ne.
      * left. by rewrite get_VObj, lookup_insert_eq.
      * intros k ?. by rewrite lookup_insert_ne.
  - intros [Hnone | [Hc Hp]]; [by left | by apply quiet_id_primitive].
Qed.

(** X22.  [from] never succeeds on a key that has a [type] other than
    ['Multikey'] and no [publicKeyJwk], even if the key has a
    [publicKeyMultibase]: the conversion by [toMultikey] does not carry the
    multibase text over, so the call fails in [toMultikey] or, after it, for
    want of public key material.  Without a secret JWK it throws that
    [Error] before any engine call. *)
Theorem from_typed_without_jwk_fails (E : Engine) (key : val) :
  let multikey := spread key in
  truthy (multikey !!! "type") = true ->
  multikey !!! "type" <> VStr "Multikey" ->
  truthy (multikey !!! "publicKeyJwk") = false ->
  run E (from key)
  = match run E (toMultikey multikey) with
    | Ok _ => Err (Error "Key pair must have publicKeyJwk or publicKeyMultibase.")
    | Err e => Err e
    end
  /\ (truthy (multikey !!! "secretKeyJwk") || truthy (multikey !!! "privateKeyJwk") = false ->
      from key = Throw (Error "Key pair must have publicKeyJwk or publicKeyMultibase.")).
Proof.
  intros multikey Hty Hnot Hjwk.
  assert (Hfrom : from key
                  = (multikey' ← toMultikey multikey;
                     _createKeyPairInterface multikey' VUndef)).
  { unfold from, from_body. cbv beta zeta. fold multikey.
    apply is_str_false in Hnot. rewrite Hnot, Hjwk, Hty. reflexivity. }
  rewrite Hfrom. split.
  - rewrite run_bind.
    destruct (run E (toMultikey multikey)) as [mk | e] eqn:Hmk; [| reflexivity].
    ok_step.
    apply toMultikey_halves in Hmk as (public & secret & -> & Hpublic & _).
    rewrite Hjwk, bool_decide_is_Some in Hpublic.
    destruct public as [half |]; [discriminate |].
    rewrite createKeyPairInterface_no_material; [reflexivity | | |];
      rewrite with_halves_lookup; cbn [String.eqb Ascii.eqb Bool.eqb andb];
      rewrite ?bool_decide_is_Some, ?andb_false_r; by apply envelope_lookup_None.
  - intros Hsecret. unfold toMultikey.
    destruct (spread_VObj key) as (fs & Hfs). subst multikey. rewrite Hfs in *.
    replace (negb (truthy (VObj fs)) || negb (String.eqb (typeof (VObj fs)) "object"))
      with false by reflexivity.
    pose proof (toMultikey_base (VObj fs)) as Hbase. cbv zeta in Hbase |- *.
    rewrite Hbase, Hjwk, Hsecret. clear Hbase.
    cbn [mbind async_mbind async_bind].
    apply createKeyPairInterface_no_material; by apply envelope_lookup_None.
Qed.

(** X23.  When [from] is given a Multikey with a [controller] and without
    an [id], the key pair it resolves to has the [id]
    [controller#publicKeyMultibase]: the text the template literal makes of
    the controller (the controller itself when it is a string, its decimal
    text when it is a number), [#], and the text of the document's
    [publicKeyMultibase], not the one of the key pair.  For a document that
    carries its public key as a JWK only, the [id] ends in [#undefined]. *)
Theorem from_derives_id_from_document (E : Engine) (m : gmap string val) (keyPair : val) :
  m !! "type" = Some (VStr "Multikey") ->
  truthy (VObj m !!! "controller") = true ->
  truthy (VObj m !!! "id") = false ->
  run E (from (VObj m)) = Ok keyPair ->
  exists controller publicKeyMultibase : string,
    run E (ToString (VObj m !!! "controller")) = Ok controller
    /\ run E (ToString (VObj m !!! "publicKeyMultibase")) = Ok publicKeyMultibase
    /\ keyPair !!! "id" = VStr (controller ++ "#" ++ publicKeyMultibase)
    /\ keyPair !!! "controller" = VObj m !!! "controller"
    /\ (m !! "publicKeyMultibase" = None -> publicKeyMultibase = "undefined")
    /\ (forall c, VObj m !!! "controller" = VStr c -> controller = c)
    /\ (forall n, VObj m !!! "controller" = VNum n -> controller = Number_toString n).
Proof.
  intros Hty Hco Hid Hrun.
  assert (Hlit : forall m' : gmap string val,
            m' !! "type" = Some (VStr "Multikey") ->
            truthy (VObj m' !!! "@context") = true ->
            (forall k, k <> "@context" -> m' !! k = m !! k) ->
            run E (from (VObj m')) = Ok keyPair ->
            exists controller publicKeyMultibase : string,
              run E (ToString (VObj m !!! "controller")) = Ok controller
              /\ run E (ToString (VObj m !!! "publicKeyMultibase"))
                 = Ok publicKeyMultibase
              /\ keyPair !!! "id" = VStr (controller ++ "#" ++ publicKeyMultibase)
              /\ keyPair !!! "controller" = VObj m !!! "controller").
  { intros m' Hty' Hctx' Hsame Hfrom. unfold from in Hfrom.
    rewrite from_body_Multikey in Hfrom by done.
    rewrite run_bind in Hfrom.
    apply outcome_bind_Ok in Hfrom as (derived & Hderived & Hfrom).
    rewrite run_bind in Hfrom. apply outcome_bind_Ok in Hfrom as (_ & _ & Hfrom).
    unfold with_derived_id in Hderived.
    rewrite !(get_VObj m'), !Hsame, <- !(get_VObj m), Hco, Hid in Hderived by done.
    cbn [negb andb] in Hderived. rewrite run_bind in Hderived.
    apply outcome_bind_Ok in Hderived as (c & Hc & Hderived).
    rewrite run_bind in Hderived.
    apply outcome_bind_Ok in Hderived as (p & Hp & Hderived).
    cbn [run] in Hderived. injection Hderived as <-. rewrite ?insert_VObj in Hfrom.
    apply createKeyPairInterface_keeps in Hfrom as (ks & -> & Hkeeps).
    exists c, p. split; [exact Hc |]. split; [exact Hp |].
    rewrite !(get_VObj ks), !Hkeeps by (try done; by apply data_property_test).
    rewrite lookup_insert_eq, lookup_insert_ne, Hsame by done.
    split; reflexivity. }
  assert (Hid' : exists controller publicKeyMultibase : string,
            run E (ToString (VObj m !!! "controller")) = Ok controller
            /\ run E (ToString (VObj m !!! "publicKeyMultibase")) = Ok publicKeyMultibase
            /\ keyPair !!! "id" = VStr (controller ++ "#" ++ publicKeyMultibase)
            /\ keyPair !!! "controller" = VObj m !!! "controller").
  { destruct (truthy (VObj m !!! "@context")) eqn:Hctx.
    - by apply (Hlit m).
    - unfold from in Hrun. rewrite from_body_Multikey_no_context in Hrun by done.
      apply (Hlit (<["@context" := VStr MULTIKEY_CONTEXT_V1_URL]> m)).
      + by rewrite lookup_insert_ne.
      + by rewrite get_VObj, lookup_insert_eq.
      + intros k ?. by rewrite lookup_insert_ne.
      + exact Hrun. }
  destruct Hid' as (c & p & Hc & Hp & Hkid & Hkco). exists c, p.
  split; [exact Hc |]. split; [exact Hp |]. split; [exact Hkid |].
  split; [exact Hkco |]. split; [| split].
  - intros Hnone. rewrite (get_VObj m "publicKeyMultibase"), Hnone in Hp.
    by injection Hp as <-.
  - intros s Hs. rewrite Hs in Hc. by injection Hc as <-.
  - intros n Hn. rewrite Hn in Hc. by injection Hc as <-.
Qed.

End FromMore.

(** ** lib/index.js: [fromJwk] and [fromRaw] *)

Section FromJwkMore.
Context `{runtime : Codec}.

(** X24.  [fromJwk] rejects, before any engine call and each with a
    [TypeError], a [jwk] that is not an object, a JWK whose [kty] is not
    ['RSA'], and an RSA JWK without a modulus [n]. *)
Theorem fromJwk_validates_before_any_engine_call (jwk secretKey id controller : val) :
  (~ is_object jwk ->
   fromJwk jwk secretKey id controller
   = Throw (TypeError (quoted "jwk" ++ " is required.")))
  /\ (is_object jwk -> jwk !!! "kty" <> VStr "RSA" ->
      fromJwk jwk secretKey id controller
      = Throw (TypeError ("JWK must have kty " ++ quoted "RSA" ++ ".")))
  /\ (is_object jwk -> jwk !!! "kty" = VStr "RSA" -> truthy (jwk !!! "n") = false ->
      fromJwk jwk secretKey id controller
      = Throw (TypeError (quoted "jwk" ++ " must have an " ++ quoted "n"
                            ++ " property."))).
Proof.
  unfold fromJwk, fromJwk_body. cbv zeta. split; [| split].
  - intros Hno. by rewrite not_object_guard.
  - intros Hobj Hkty. apply is_object_guard in Hobj. apply is_str_false in Hkty.
    by rewrite Hobj, Hkty.
  - intros Hobj Hkty Hn. apply is_object_guard in Hobj. apply is_str_true in Hkty.
    rewrite Hobj, Hkty. cbn [negb]. unfold getModulusLengthFromJwk.
    rewrite Hn, orb_true_r. reflexivity.
Qed.

Lemma jwk_multikey_lookup_keys (jwk publicKeyMultibase modulusLength id controller : val) :
  let m := jwk_multikey jwk publicKeyMultibase modulusLength id controller in
  m !! "publicKeyJwk"
  = Some (VObj {[ "kty" := jwk !!! "kty"; "n" := jwk !!! "n"; "e" := jwk !!! "e";
                  "alg" := or_else (jwk !!! "alg") (VStr "PS256") ]})
  /\ m !! "modulusLength" = Some modulusLength
  /\ m !! "publicKeyMultibase" = Some publicKeyMultibase
  /\ m !! "secretKeyJwk" = None /\ m !! "privateKeyJwk" = None
  /\ m !! "secretKey" = None /\ m !! "secretKeyMultibase" = None.
Proof.
  unfold jwk_multikey. cbv zeta.
  destruct (String.eqb (typeof id) "string"),
    (String.eqb (typeof controller) "string"); repeat split; reflexivity.
Qed.

(** What [from] makes of a Multikey that carries its public key as a JWK and
    holds no engine key yet. *)
Lemma from_body_jwk_Multikey_fields (E : Engine)
    (fromJwk' : val -> val -> val -> val -> async val)
    (m pj : gmap string val) (ml keyPair : val) :
  m !! "type" = Some (VStr "Multikey") ->
  m !! "@context" = Some (VStr MULTIKEY_CONTEXT_V1_URL) ->
  m !! "publicKey" = None -> m !! "secretKey" = None -> m !! "privateKeyJwk" = None ->
  m !! "publicKeyJwk" = Some (VObj pj) ->
  m !! "modulusLength" = Some ml ->
  run E (from_body fromJwk' (VObj m)) = Ok keyPair ->
  exists (ks : gmap string val) (hp : N) (bp : list byte),
    keyPair = VObj ks
    /\ ks !! "publicKey" = Some (VKey hp)
    /\ ks !! "publicKeyJwk" = Some (VObj pj)
    /\ ks !! "publicKeyMultibase" = Some (VStr (base58btc_encode bp))
    /\ ks !! "secretKeyJwk" = m !! "secretKeyJwk"
    /\ (if truthy (VObj m !!! "secretKeyJwk")
        then (exists hs, ks !! "secretKey" = Some (VKey hs))
             /\ (exists bs, ks !! "secretKeyMultibase" = Some (VStr (base58btc_encode bs)))
        else ks !! "secretKey" = None /\ ks !! "secretKeyMultibase" = Some VUndef)
    /\ (exists resolved, ks !! "modulusLength" = Some resolved
          /\ (if truthy ml then Ok ml else getModulusLengthFromJwk (VObj pj))
             = Ok resolved).
Proof.
  intros Hty Hctx Hpk Hsk Hpriv Hjwk Hml Hrun.
  rewrite from_body_Multikey in Hrun; [| exact Hty | by rewrite get_VObj, Hctx].
  rewrite run_bind in Hrun.
  apply outcome_bind_Ok in Hrun as (derived & Hderived & Hrun).
  rewrite run_bind in Hrun. apply outcome_bind_Ok in Hrun as (_ & _ & Hrun).
  destruct (with_derived_id_run _ _ _ Hderived) as (fs' & -> & Hsame).
  apply createKeyPairInterface_fields in Hrun
    as (held & exported & resolved & hs & Hheld & Hhs & Hresolved & Hexported & ->).
  rewrite engine_backed_import in Hheld by (by rewrite Hsame).
  apply importKeyPair_fields in Hheld as (hs0 & hp & -> & Hhp & Hkeeps & Hsecret);
    [| apply holds_engine_key_None; by rewrite Hsame].
  cbn [spread] in Hhs. injection Hhs as <-.
  assert (Hj : truthy (VObj fs' !!! "publicKeyJwk") = true)
    by (by rewrite get_VObj, Hsame, Hjwk).
  assert (Hp : truthy (VObj fs' !!! "privateKeyJwk") = false)
    by (by rewrite get_VObj, Hsame, Hpriv).
  assert (Hs : VObj fs' !!! "secretKeyJwk" = VObj m !!! "secretKeyJwk")
    by (by rewrite !get_VObj, Hsame).
  rewrite Hj, Hp, Hs, orb_false_r in Hsecret.
  destruct (exportKeyPair_multibase _ _ _ _ Hexported) as (Hpmb & Hsmb).
  assert (Hheldpk : truthy (VObj hs0 !!! "publicKey") = true)
    by (by rewrite get_VObj, Hhp).
  rewrite Hheldpk in Hpmb. destruct Hpmb as (bp & Hpmb).
  assert (Hheldml : VObj hs0 !!! "modulusLength" = ml)
    by (by rewrite get_VObj, Hkeeps, Hsame, Hml).
  assert (Hheldjwk : VObj hs0 !!! "publicKeyJwk" = VObj pj)
    by (by rewrite get_VObj, Hkeeps, Hsame, Hjwk).
  rewrite Hheldml, Hheldjwk in Hresolved.
  cbn [truthy negb] in Hresolved.
  eexists _, hp, bp. split; [reflexivity |].
  split; [by interface_lookup |].
  split; [interface_lookup; by rewrite Hkeeps, Hsame, Hjwk |].
  split; [interface_lookup; by rewrite Hpmb |].
  split; [interface_lookup; by rewrite Hkeeps, Hsame |].
  split.
  - interface_lookup.
    destruct (truthy (VObj m !!! "secretKeyJwk")).
    + destruct Hsecret as (h & Hh).
      assert (Hheldsk : truthy (VObj hs0 !!! "secretKey") = true)
        by (by rewrite get_VObj, Hh).
      rewrite Hheldsk in Hsmb. destruct Hsmb as (bs & ->).
      split; [by exists h | by exists bs].
    + rewrite Hsame, Hsk in Hsecret by done.
      assert (Hheldsk : truthy (VObj hs0 !!! "secretKey") = false)
        by (by rewrite get_VObj, Hsecret).
      rewrite Hheldsk in Hsmb. by rewrite Hsmb.
  - exists resolved. by interface_lookup.
Qed.

Lemma getModulusLengthFromJwk_Ok (jwk modulusLength : val) :
  getModulusLengthFromJwk jwk = Ok modulusLength ->
  truthy jwk = true /\ truthy (jwk !!! "n") = true
  /\ exists nBytes, Buffer_from_base64url (jwk !!! "n") = Ok nBytes
                    /\ modulusLength = VNum (8 * Z.of_nat (length nBytes)).
Proof.
  unfold getModulusLengthFromJwk.
  destruct (truthy jwk), (truthy (jwk !!! "n")); try discriminate.
  cbn [negb orb].
  destruct (Buffer_from_base64url (jwk !!! "n")) as [nBytes | e]; [| discriminate].
  intros [= <-]. split; [reflexivity |]. split; [reflexivity |].
  exists nBytes. split; [reflexivity |]. f_equal. lia.
Qed.

Lemma getModulusLengthFromJwk_ext (jwk jwk' : val) :
  truthy jwk = true -> truthy jwk' = true -> jwk' !!! "n" = jwk !!! "n" ->
  getModulusLengthFromJwk jwk' = getModulusLengthFromJwk jwk.
Proof.
  intros Hjwk Hjwk' Hn. unfold getModulusLengthFromJwk. by rewrite Hjwk, Hjwk', Hn.
Qed.

(** X25.  A key pair that [fromJwk] resolves to has the modulus length of
    the JWK, eight times the number of bytes of its decoded [n]; its
    [publicKey] is an engine key; its [publicKeyJwk] has the four public
    fields of the JWK, [alg] defaulting to ['PS256'].  It holds a secret key,
    with its multibase text and [secretKeyJwk], exactly when the secret key
    was requested and the JWK has a [d]; otherwise [secretKey] and
    [secretKeyMultibase] are [undefined] and there is no [secretKeyJwk]. *)
Theorem fromJwk_key_pair (E : Engine) (jwk secretKey id controller keyPair : val) :
  run E (fromJwk jwk secretKey id controller) = Ok keyPair ->
  (exists nBytes, Buffer_from_base64url (jwk !!! "n") = Ok nBytes
                  /\ keyPair !!! "modulusLength" = VNum (8 * Z.of_nat (length nBytes)))
  /\ (exists hp, keyPair !!! "publicKey" = VKey hp)
  /\ keyPair !!! "publicKeyJwk"
     = VObj {[ "kty" := jwk !!! "kty"; "n" := jwk !!! "n"; "e" := jwk !!! "e";
               "alg" := or_else (jwk !!! "alg") (VStr "PS256") ]}
  /\ (if truthy secretKey && truthy (jwk !!! "d")
      then (exists hs, keyPair !!! "secretKey" = VKey hs)
           /\ (exists bs, keyPair !!! "secretKeyMultibase" = VStr (base58btc_encode bs))
           /\ has_property keyPair "secretKeyJwk" = true
      else keyPair !!! "secretKey" = VUndef
           /\ keyPair !!! "secretKeyMultibase" = VUndef
           /\ has_property keyPair "secretKeyJwk" = false).
Proof.
  intros Hrun. unfold fromJwk in Hrun. rewrite run_fromJwk_body in Hrun.
  destruct (negb (truthy jwk) || negb (String.eqb (typeof jwk) "object"));
    [discriminate |].
  destruct (negb (is_str (jwk !!! "kty") "RSA")); [discriminate |].
  apply outcome_bind_Ok in Hrun as (ml & Hml & Hrun).
  apply outcome_bind_Ok in Hrun as (mb & _ & Hrun).
  cbv zeta in Hrun.
  destruct (jwk_multikey_lookup jwk mb ml id controller) as (Hty & Hctx & _ & _ & Hpk).
  destruct (jwk_multikey_lookup_keys jwk mb ml id controller)
    as (Hjwk & Hlen & _ & Hsj & Hpj & Hsk & _).
  cbv zeta in Hty, Hctx, Hpk, Hjwk, Hlen, Hsj, Hpj, Hsk.
  set (m := jwk_multikey jwk mb ml id controller) in *.
  pose proof (getModulusLengthFromJwk_Ok _ _ Hml) as (Htruthy & _ & nBytes & Hn & Hmlv).
  assert (Hresolved : forall resolved,
            (if truthy ml then Ok ml
             else getModulusLengthFromJwk
                    (VObj {[ "kty" := jwk !!! "kty"; "n" := jwk !!! "n";
                             "e" := jwk !!! "e";
                             "alg" := or_else (jwk !!! "alg") (VStr "PS256") ]}))
            = Ok resolved -> resolved = ml).
  { intros resolved. destruct (truthy ml); [by intros [= <-] |].
    rewrite (getModulusLengthFromJwk_ext jwk) by done. rewrite Hml. by intros [= <-]. }
  assert (Hfields : forall m' : gmap string val,
    (forall k, k <> "secretKeyJwk" -> k <> "secretKeyMultibase" -> m' !! k = m !! k) ->
    run E (from_fuel 1 (VObj m')) = Ok keyPair ->
    (exists nBytes, Buffer_from_base64url (jwk !!! "n") = Ok nBytes
                    /\ keyPair !!! "modulusLength" = VNum (8 * Z.of_nat (length nBytes)))
    /\ (exists hp, keyPair !!! "publicKey" = VKey hp)
    /\ keyPair !!! "publicKeyJwk"
       = VObj {[ "kty" := jwk !!! "kty"; "n" := jwk !!! "n"; "e" := jwk !!! "e";
                 "alg" := or_else (jwk !!! "alg") (VStr "PS256") ]}
    /\ (if truthy (VObj m' !!! "secretKeyJwk")
        then (exists hs, keyPair !!! "secretKey" = VKey hs)
             /\ (exists bs, keyPair !!! "secretKeyMultibase" = VStr (base58btc_encode bs))
        else keyPair !!! "secretKey" = VUndef
             /\ keyPair !!! "secretKeyMultibase" = VUndef)
    /\ has_property keyPair "secretKeyJwk" = has_property (VObj m') "secretKeyJwk").
  { intros m' Hsame Hfrom. cbn [from_fuel] in Hfrom.
    eapply from_body_jwk_Multikey_fields in Hfrom
      as (ks & hp & bp & -> & Hkpk & Hkjwk & _ & Hksj & Hksecret & resolved & Hkml & Hres);
      [| by rewrite Hsame | by rewrite Hsame | by rewrite Hsame | by rewrite Hsame
       | by rewrite Hsame | rewrite Hsame by done; apply Hjwk
       | rewrite Hsame by done; apply Hlen].
    apply Hresolved in Hres. subst resolved.
    rewrite !has_property_VObj, Hksj.
    rewrite !(get_VObj ks), Hkpk, Hkjwk, Hkml. cbn [default].
    split; [by exists nBytes |]. split; [by exists hp |]. split; [reflexivity |].
    split; [| reflexivity].
    destruct (truthy (VObj m' !!! "secretKeyJwk")).
    - destruct Hksecret as ((hs & ->) & (bs & ->)). split; by eexists.
    - destruct Hksecret as (-> & ->). by split. }
  destruct (truthy secretKey && truthy (jwk !!! "d")).
  - apply outcome_bind_Ok in Hrun as (ms & _ & Hrun).
    apply Hfields in Hrun; [| intros k ? ?; by apply secret_fields_lookup].
    destruct Hrun as (H1 & H2 & H3 & H4 & H5).
    rewrite get_VObj, lookup_insert_eq in H4. cbn [default truthy] in H4.
    rewrite (has_property_VObj _ "secretKeyJwk"), lookup_insert_eq in H5.
    destruct H4 as (H4 & H4'). by repeat split.
  - apply Hfields in Hrun; [| done].
    destruct Hrun as (H1 & H2 & H3 & H4 & H5).
    rewrite get_VObj, Hsj in H4. cbn [default truthy] in H4.
    rewrite (has_property_VObj _ "secretKeyJwk"), Hsj in H5.
    destruct H4 as (H4 & H4'). by repeat split.
Qed.

Lemma not_string_test (v : val) :
  typeof v <> "string" -> String.eqb (typeof v) "string" = false.
Proof. intros Hv. by apply String.eqb_neq. Qed.

Lemma verifier_needs_id (ks : gmap string val) :
  ks !! "id" = None ->
  keyPair_verifier (VObj ks)
  = Err (TypeError (quoted "id" ++ " must be a non-empty string."))
  /\ exists e, keyPair_signer (VObj ks) = Err e.
Proof.
  intros Hid. unfold keyPair_verifier, keyPair_signer, createVerifier, createSigner.
  cbv zeta. rewrite !(get_VObj ks "id"), Hid. cbn [default truthy negb orb].
  split; [reflexivity |].
  destruct (negb (truthy (VObj ks !!! "secretKey"))); by eexists.
Qed.

(** X26.  A key pair that [fromJwk] resolves to when neither the [id] nor
    the [controller] it is given is a string (both omitted, for one) has
    neither; its [verifier] method throws the
    [TypeError] for a missing [id], and its [signer] method throws too. *)
Theorem fromJwk_without_id_cannot_sign_or_verify (E : Engine)
    (jwk secretKey id controller keyPair : val) :
  typeof id <> "string" -> typeof controller <> "string" ->
  run E (fromJwk jwk secretKey id controller) = Ok keyPair ->
  has_property keyPair "id" = false
  /\ has_property keyPair "controller" = false
  /\ keyPair_verifier keyPair
     = Err (TypeError (quoted "id" ++ " must be a non-empty string."))
  /\ exists e, keyPair_signer keyPair = Err e.
Proof.
  intros Hid Hco Hrun.
  apply not_string_test in Hid, Hco.
  apply fromJwk_result in Hrun as (ks & -> & Hkid & Hkco); [| by rewrite Hid, Hco].
  rewrite Hid in Hkid. rewrite Hco in Hkco.
  rewrite !has_property_VObj, Hkid, Hkco.
  split; [reflexivity |]. split; [reflexivity |]. by apply verifier_needs_id.
Qed.

(** X27.  [fromRaw] rejects, before any engine call and each with a
    [TypeError], a [modulusLength] that is not a number, then a truthy
    [secretKey] that is not a [Uint8Array], then a [publicKey] that is not
    one.  Given secret key bytes, the public key bytes are not used: any
    other public bytes give the same program. *)
Theorem fromRaw_validation (modulusLength secretKey publicKey : val) :
  (typeof modulusLength <> "number" ->
   fromRaw modulusLength secretKey publicKey
   = Throw (TypeError (quoted "modulusLength" ++ " must be a number.")))
  /\ (typeof modulusLength = "number" ->
      truthy secretKey = true -> instanceof_Uint8Array secretKey = false ->
      fromRaw modulusLength secretKey publicKey
      = Throw (TypeError (quoted "secretKey" ++ " must be a Uint8Array.")))
  /\ (typeof modulusLength = "number" ->
      truthy secretKey = false \/ instanceof_Uint8Array secretKey = true ->
      instanceof_Uint8Array publicKey = false ->
      fromRaw modulusLength secretKey publicKey
      = Throw (TypeError (quoted "publicKey" ++ " must be a Uint8Array.")))
  /\ (forall (n : Z) (sk pk pk' : list byte),
        fromRaw (VNum n) (VBytes sk) (VBytes pk)
        = fromRaw (VNum n) (VBytes sk) (VBytes pk')).
Proof.
  unfold fromRaw. split; [| split; [| split]].
  - intros Hml. apply String.eqb_neq in Hml. by rewrite Hml.
  - intros Hml Hsk Hbytes. by rewrite Hml, Hsk, Hbytes.
  - intros Hml Hsk Hpk. rewrite Hml, Hpk. cbn [String.eqb Ascii.eqb Bool.eqb negb].
    by destruct Hsk as [-> | ->]; rewrite ?andb_false_r.
  - reflexivity.
Qed.

(** X28.  A key pair that [fromRaw] resolves to is the one [fromJwk] makes
    of the engine's JWK of the imported key, with the secret key requested
    exactly when secret key bytes were given and with neither [id] nor
    [controller]: the key pair has neither, and its [verifier] and [signer]
    methods throw. *)
Theorem fromRaw_key_pair (E : Engine) (modulusLength secretKey publicKey keyPair : val) :
  run E (fromRaw modulusLength secretKey publicKey) = Ok keyPair ->
  (exists (key : val) (jwk : gmap string val),
     run E (cryptoKeyfromRaw modulusLength secretKey publicKey VUndef) = Ok key
     /\ E (subtle_exportKey fmt_jwk key) = Ok jwk
     /\ run E (fromJwk (VObj jwk) (VBool (truthy secretKey)) VUndef VUndef) = Ok keyPair)
  /\ has_property keyPair "id" = false
  /\ has_property keyPair "controller" = false
  /\ keyPair_verifier keyPair
     = Err (TypeError (quoted "id" ++ " must be a non-empty string."))
  /\ exists e, keyPair_signer keyPair = Err e.
Proof.
  unfold fromRaw.
  destruct (negb (String.eqb (typeof modulusLength) "number")); [discriminate |].
  destruct (truthy secretKey && negb (instanceof_Uint8Array secretKey));
    [discriminate |].
  destruct (negb (instanceof_Uint8Array publicKey)); [discriminate |].
  intros Hrun. rewrite run_bind in Hrun.
  apply outcome_bind_Ok in Hrun as (key & Hkey & Hrun).
  rewrite run_bind in Hrun.
  apply outcome_bind_Ok in Hrun as (jwk & Hjwk & Hrun).
  change (run E (await ?c)) with (run E (lift (E c))) in Hjwk.
  rewrite run_lift in Hjwk.
  split; [by exists key, jwk |].
  apply fromJwk_result in Hrun as (ks & -> & Hkid & Hkco); [| reflexivity].
  cbn in Hkid, Hkco. rewrite !has_property_VObj, Hkid, Hkco.
  split; [reflexivity |]. split; [reflexivity |]. by apply verifier_needs_id.
Qed.

End FromJwkMore.

(** ** Export, [from], export *)

Section FacadeRoundTrip.
Context `{runtime : Codec}.

(** X29.  Let a key pair hold a public and a secret key, let it have an
    [id] or no [controller], and let the engine serialize JWKs
    deterministically.  If its [export] method yields a document with both
    halves, and the modulus length can be read off the document's
    [publicKeyJwk], then [from] on the document succeeds and the [export]
    method of the resulting key pair, with the same options, yields the same
    document. *)
Theorem export_from_export_roundtrip (E : Engine) (keyPair includeContext doc : val) :
  truthy (keyPair !!! "publicKey") = true ->
  truthy (keyPair !!! "secretKey") = true ->
  jwk_reexport_stable E (keyPair !!! "publicKey") ["verify"] ->
  jwk_reexport_stable E (keyPair !!! "secretKey") ["sign"] ->
  truthy (keyPair !!! "controller") && negb (truthy (keyPair !!! "id")) = false ->
  run E (exportFn keyPair (VBool true) (VBool true) includeContext VUndef) = Ok doc ->
  (exists bits, getModulusLengthFromJwk (doc !!! "publicKeyJwk") = Ok bits) ->
  exists imported,
    run E (from doc) = Ok imported
    /\ run E (exportFn imported (VBool true) (VBool true) includeContext VUndef) = Ok doc.
Proof.
  intros Hpk Hsk Hstable_pk Hstable_sk Hderived Hrun (bits & Hbits).
  rewrite exportFn_document in Hrun by reflexivity.
  pose proof (object_or_throw _ _ _ _ _ _ Hrun) as Hobj.
  rewrite (run_exportKeyPair E _ _ _ _ Hobj) in Hrun.
  cbn [param_default truthy] in Hrun. rewrite Hpk, Hsk in Hrun.
  cbn [andb] in Hrun.
  apply outcome_bind_Ok in Hrun as (result & Hpublic & Hsecret).
  apply outcome_bind_Ok in Hpublic as ([mp jp] & Hhalf_pk & Hresult).
  apply outcome_bind_Ok in Hsecret as ([ms js] & Hhalf_sk & Hdoc).
  injection Hresult as <-. injection Hdoc as <-.
  destruct (public_half_of_Ok _ _ _ _ Hhalf_pk) as (bp & fp & -> & -> & Hexp_pk).
  destruct (public_half_of_import _ _ _ _ Hhalf_pk) as (hp & Himp_pk).
  destruct (secret_half_of_Ok _ _ _ _ Hhalf_sk) as (fsk & hs & -> & Hexp_sk & Himp_sk).
  destruct (envelope_lookup keyPair includeContext) as (Hty & Hctx & Hid & Hco).
  set (env := envelope keyPair includeContext) in *.
  set (fields := <["secretKeyJwk" := VObj fsk]> _) in *.
  assert (Hnone : forall k, k <> "secretKeyJwk" -> k <> "secretKeyMultibase" ->
            k <> "publicKeyJwk" -> k <> "publicKeyMultibase" ->
            fields !! k = env !! k).
  { intros k ? ? ? ?. subst fields. by rewrite !lookup_insert_ne. }
  set (m := <["@context" := VStr MULTIKEY_CONTEXT_V1_URL]> fields).
  assert (Hm : forall k, k <> "@context" -> m !! k = fields !! k).
  { intros k ?. subst m. by rewrite lookup_insert_ne. }
  assert (Hfrom : from (VObj fields) = _createKeyPairInterface (VObj m) VUndef).
  { apply from_Multikey_default_context.
    - by rewrite Hnone.
    - rewrite Hnone, Hctx by done.
      destruct (truthy (param_default includeContext (VBool true)));
        [by left | by right].
    - fold m. unfold with_derived_id.
      assert (Hmco : truthy (VObj m !!! "controller") = truthy (keyPair !!! "controller")).
      { rewrite get_VObj, Hm, Hnone, Hco by done.
        by destruct (truthy (keyPair !!! "controller")) eqn:Hc. }
      assert (Hmid : truthy (VObj m !!! "id") = truthy (keyPair !!! "id")).
      { rewrite get_VObj, Hm, Hnone, Hid by done.
        by destruct (truthy (keyPair !!! "id")) eqn:Hi. }
      by rewrite Hmco, Hmid, Hderived. }
  assert (Hpkj : VObj m !!! "publicKeyJwk" = VObj fp).
  { rewrite get_VObj, Hm by done. subst fields.
    by rewrite !lookup_insert_ne, lookup_insert_eq by done. }
  assert (Hskj : VObj m !!! "secretKeyJwk" = VObj fsk).
  { rewrite get_VObj, Hm by done. subst fields. by rewrite lookup_insert_eq. }
  assert (Habsent : forall k, k <> "secretKeyJwk" -> k <> "secretKeyMultibase" ->
            k <> "publicKeyJwk" -> k <> "publicKeyMultibase" ->
            k <> "type" -> k <> "@context" -> k <> "id" -> k <> "controller" ->
            VObj m !!! k = VUndef).
  { intros k ? ? ? ? ? ? ? ?. rewrite get_VObj, Hm, Hnone by done.
    subst env. by rewrite envelope_lookup_None. }
  set (held := <["secretKey" := VKey hs]> (<["publicKey" := VKey hp]> (VObj m))).
  assert (Himport : run E (engine_backed (VObj m)) = Ok held).
  { unfold engine_backed. rewrite (Habsent "publicKey") by done.
    cbn [instanceof_CryptoKey negb andb get val_lookup_total lookup_total truthy].
    unfold importKeyPair.
    replace (negb (truthy (VObj m)) || negb (String.eqb (typeof (VObj m)) "object"))
      with false by reflexivity.
    rewrite (Habsent "publicKey"), (Habsent "keyAgreement") by done.
    rewrite Hpkj, Hskj. cbn [instanceof_CryptoKey truthy andb orb or_else].
    cbv iota. run_norm. rewrite Himp_pk. ok_step.
    run_norm. rewrite Himp_sk. reflexivity. }
  assert (Hheld_obj : truthy held && String.eqb (typeof held) "object" = true)
    by reflexivity.
  assert (Hhpk : held !!! "publicKey" = VKey hp).
  { subst held. rewrite !insert_VObj, get_VObj.
    by rewrite lookup_insert_ne, lookup_insert_eq. }
  assert (Hhsk : held !!! "secretKey" = VKey hs).
  { subst held. rewrite !insert_VObj, get_VObj. by rewrite lookup_insert_eq. }
  assert (Hhother : forall k, k <> "secretKey" -> k <> "publicKey" ->
            held !!! k = VObj m !!! k).
  { intros k ? ?. subst held. rewrite !insert_VObj, !get_VObj.
    by rewrite !lookup_insert_ne. }
  assert (Hhalf_pk' : public_half_of E (VKey hp) = Ok (VStr (base58btc_encode bp), VObj fp)).
  { rewrite (public_half_of_ext E (keyPair !!! "publicKey") (VKey hp)); [done |].
    rewrite Hexp_pk. by apply Hstable_pk. }
  assert (Hhalf_sk' : secret_half_of E (VKey hs) = Ok (ms, VObj fsk)).
  { rewrite (secret_half_of_ext E (keyPair !!! "secretKey") (VKey hs)); [done |].
    rewrite Hexp_sk. by apply Hstable_sk. }
  assert (Henv_id : forall v : val,
            v !!! "id" = VObj m !!! "id" -> v !!! "controller" = VObj m !!! "controller" ->
            envelope v includeContext = env).
  { intros v Hvid Hvco. apply envelope_ext.
    - rewrite Hvid, get_VObj, Hm, Hnone by done. apply envelope_id.
    - rewrite Hvco, get_VObj, Hm, Hnone by done. apply envelope_controller. }
  destruct (run E (exportKeyPair held (VBool true) (VBool true) (VBool true)))
    as [exported | e] eqn:Hexported.
  2:{ exfalso. rewrite (run_exportKeyPair E _ _ _ _ Hheld_obj) in Hexported.
      rewrite Hhpk, Hhsk in Hexported. cbn [param_default truthy andb] in Hexported.
      rewrite Hhalf_pk' in Hexported. cbn [mbind outcome_bind] in Hexported.
      rewrite Hhalf_sk' in Hexported. discriminate. }
  set (iface := with_methods
                  (<["modulusLength" := bits]>
                     (<["secretKeyMultibase" := exported !!! "secretKeyMultibase"]>
                        (<["publicKeyMultibase" := exported !!! "publicKeyMultibase"]>
                           (spread held))))).
  exists iface. split.
  - rewrite Hfrom, run_createKeyPairInterface, Himport. ok_step.
    rewrite (Hhother "modulusLength"), (Habsent "modulusLength") by done.
    rewrite (Hhother "publicKeyJwk"), Hpkj by done.
    assert (Hdocjwk : VObj fields !!! "publicKeyJwk" = VObj fp).
    { rewrite get_VObj. subst fields.
      by rewrite !lookup_insert_ne, lookup_insert_eq by done. }
    rewrite Hdocjwk in Hbits.
    cbn [truthy negb]. rewrite Hbits. ok_step. rewrite Hexported. reflexivity.
  - rewrite exportFn_document by reflexivity.
    assert (Hiface_obj : truthy iface && String.eqb (typeof iface) "object" = true)
      by reflexivity.
    assert (Hipk : iface !!! "publicKey" = VKey hp).
    { subst iface held. rewrite with_methods_get by (by apply data_property_test).
      rewrite !insert_VObj. cbn [spread].
      rewrite !insert_VObj, get_VObj.
      by rewrite !lookup_insert_ne, lookup_insert_eq by done. }
    assert (Hisk : iface !!! "secretKey" = VKey hs).
    { subst iface held. rewrite with_methods_get by (by apply data_property_test).
      rewrite !insert_VObj. cbn [spread].
      rewrite !insert_VObj, get_VObj.
      by rewrite !lookup_insert_ne, lookup_insert_eq by done. }
    assert (Hiother : forall k, k <> "secretKey" -> k <> "publicKey" ->
              k <> "modulusLength" -> k <> "secretKeyMultibase" ->
              k <> "publicKeyMultibase" -> data_property k ->
              iface !!! k = VObj m !!! k).
    { intros k ? ? ? ? ? ?. subst iface held. rewrite with_methods_get by done.
      rewrite !insert_VObj. cbn [spread].
      rewrite !insert_VObj, !get_VObj. by rewrite !lookup_insert_ne. }
    rewrite (run_exportKeyPair E _ _ _ _ Hiface_obj).
    rewrite Hipk, Hisk, (Henv_id iface)
      by (apply Hiother; try done; by apply data_property_test).
    cbn [param_default truthy andb].
    rewrite Hhalf_pk'. ok_step. rewrite Hhalf_sk'. reflexivity.
Qed.

End FacadeRoundTrip.

(** ** The properties on the reference runtime *)

Import Reference.

(** C1 on the reference runtime: the document exported for the generated
    pair [generated2048], with its id, controller and both halves, imports,
    and the imported pair exports to the same document. *)
Lemma export_import_export_roundtrip_witness :
  document2048 !!! "id" = VStr "did:example:1234#z2Dd"
  /\ document2048 !!! "secretKeyMultibase" = VStr "z2De"
  /\ exists imported,
       run engine (importKeyPair document2048) = Ok imported
       /\ run engine (exportKeyPair imported (VBool true) (VBool true) VUndef)
          = Ok document2048.
Proof.
  split; [reflexivity | split; [reflexivity |]].
  apply (export_import_export_roundtrip engine generated2048 VUndef document2048).
  - reflexivity.
  - reflexivity.
  - intros jwk h Hexport Himport.
    change (Ok (jwk_of_handle 4096%N) = Ok jwk) in Hexport.
    injection Hexport as <-.
    change (handle_of_jwk (VObj (jwk_of_handle 4096%N)) ["verify"] = Ok h) in Himport.
    vm_compute in Himport. injection Himport as <-.
    reflexivity.
  - intros jwk h Hexport Himport.
    change (Ok (jwk_of_handle 4097%N) = Ok jwk) in Hexport.
    injection Hexport as <-.
    change (handle_of_jwk (VObj (jwk_of_handle 4097%N)) ["sign"] = Ok h) in Himport.
    vm_compute in Himport. injection Himport as <-.
    reflexivity.
  - vm_compute. reflexivity.
Defined.

(** C2 on the reference runtime: 1024 bits are refused. *)
Lemma generate_1024_rejected :
  generate VUndef VUndef (VNum 1024)
  = Throw (TypeError (quoted "modulusLength" ++ " must be one of: 2048, 3072, or 4096.")).
Proof.
  apply (generate_modulusLength_validation VUndef VUndef (VNum 1024)).
  intros [H | [H | H]]; discriminate H.
Defined.

(** C3, as stated, fails when neither an id nor a controller is given: the
    id of the generated key pair is [#] followed by its multibase text, not
    undefined. *)
Lemma generate_neither_given_id_defined :
  run engine (generate VUndef VUndef (VNum 2048)) = Ok generatedBare2048
  /\ generatedBare2048 !!! "publicKeyMultibase" = VStr "z2Dd"
  /\ generatedBare2048 !!! "id" = VStr "#z2Dd"
  /\ generatedBare2048 !!! "id" <> VUndef.
Proof.
  repeat split; try (vm_compute; reflexivity).
  vm_compute. discriminate.
Qed.

(** C3 on the reference runtime: with the controller [did:example:1234] the
    id is the controller, [#], and the multibase text of the key pair; with
    the number [1e21] as the controller it starts with [1e+21]; and with a
    controller object that has an own [toString] which is no function the
    call throws. *)
Lemma generate_derives_id_witness :
  run engine (generate VUndef (VStr "did:example:1234") (VNum 2048)) = Ok generated2048
  /\ generated2048 !!! "id" = VStr "did:example:1234#z2Dd"
  /\ run engine (generate VUndef (VNum (10 ^ 21)) (VNum 2048)) = Ok generatedNumeric2048
  /\ generatedNumeric2048 !!! "id" = VStr "1e+21#z2Dd"
  /\ run engine (generate VUndef (VObj {[ "toString" := VNum 1 ]}) (VNum 2048))
     = Err (TypeError "Cannot convert object to primitive value").
Proof.
  assert (Hrun : run engine (generate VUndef (VStr "did:example:1234") (VNum 2048))
                 = Ok generated2048) by (vm_compute; reflexivity).
  assert (Hnum : run engine (generate VUndef (VNum (10 ^ 21)) (VNum 2048))
                 = Ok generatedNumeric2048) by (vm_compute; reflexivity).
  split; [exact Hrun |].
  destruct (generate_derives_id engine VUndef (VStr "did:example:1234") (VNum 2048)
              generated2048 eq_refl Hrun) as (multibase & Hmb & _ & _ & _ & Hid & _).
  split.
  { rewrite (Hid "did:example:1234" eq_refl).
    vm_compute in Hmb. injection Hmb as <-. reflexivity. }
  split; [exact Hnum |].
  destruct (generate_derives_id engine VUndef (VNum (10 ^ 21)) (VNum 2048)
              generatedNumeric2048 eq_refl Hnum) as (text & Htext & _ & _ & _ & _ & Hn).
  split.
  { rewrite (Hn (10 ^ 21) eq_refl) by discriminate.
    vm_compute in Htext. injection Htext as <-. vm_compute. reflexivity. }
  vm_compute. reflexivity.
Defined.

(** C4 on the reference runtime: a Multikey with the context array
    [[{}, URL]] is accepted. *)
Lemma assertMultikey_context_array_accepted :
  _assertMultikey
    (VObj {[ "type" := VStr "Multikey";
             "@context" := VArr [VObj ∅; VStr MULTIKEY_CONTEXT_V1_URL];
             "publicKeyMultibase" := VStr "z2Dd" ]})
  = Ok ().
Proof.
  apply assertMultikey_accepts_iff_valid.
  repeat split; try discriminate.
  right. eexists. split; [reflexivity |]. right. left. reflexivity.
Defined.

(** C5 on the reference runtime: the export of the generated pair with
    the secret half requested resolves to [document2048], which is the
    public document with the two secret fields added; the export of a
    public-only key pair with the secret half requested succeeds and has
    neither secret field. *)
Lemma exportKeyPair_secret_iff_requested_and_held_witness :
  run engine (exportKeyPair generated2048 (VBool true) (VBool true) VUndef)
  = Ok document2048
  /\ document2048
     = VObj (<["secretKeyJwk" := VObj (jwk_of_handle 4097%N)]>
               (<["secretKeyMultibase" := VStr "z2De"]> publicDocument2048))
  /\ has_property (VObj publicDocument2048) "secretKeyMultibase" = false
  /\ exists doc,
       run engine (exportKeyPair publicOnly2048 (VBool true) (VBool true) VUndef) = Ok doc
       /\ doc !!! "publicKeyMultibase" = VStr "z2Dd"
       /\ has_property doc "secretKeyMultibase" = false
       /\ has_property doc "secretKeyJwk" = false.
Proof.
  destruct (exportKeyPair_secret_iff_requested_and_held
              generated2048 (VBool true) (VBool true) VUndef)
    as (_ & _ & _ & Hboth & _).
  assert (Hrun : run engine (exportKeyPair generated2048 (VBool true) (VBool true) VUndef)
                 = Ok document2048).
  { rewrite (Hboth engine (VStr "z2Dd") (VObj (jwk_of_handle 4096%N))
               (VStr "z2De") (VObj (jwk_of_handle 4097%N)));
      [| reflexivity | reflexivity | vm_compute; reflexivity | vm_compute; reflexivity].
    vm_compute. reflexivity. }
  split; [exact Hrun |]. split; [vm_compute; reflexivity |].
  split; [vm_compute; reflexivity |].
  destruct (exportKeyPair_secret_iff_requested_and_held
              publicOnly2048 (VBool true) (VBool true) VUndef)
    as (Hiff & _ & _ & _ & _ & Hrun' & _).
  eexists. split.
  - apply (Hrun' engine); [reflexivity | reflexivity | vm_compute; reflexivity].
  - split; [vm_compute; reflexivity |].
    apply (Hiff engine). vm_compute. reflexivity.
Defined.

(** C6, as stated, fails for a byte-string signature when [data] is not a
    non-empty string or a byte string: the call throws instead of returning
    a boolean. *)
Lemma verify_byte_signature_bad_data_throws :
  exists V,
    createVerifier (VStr "did:example:1234#key-1") (VKey 4096%N) = Ok V
    /\ instanceof_Uint8Array (VBytes [x01; x02]) = true
    /\ run engine (verify V (VNum 42) (VBytes [x01; x02]))
       = Err (TypeError (quoted "data" ++ " must be a string or Uint8Array."))
    /\ run engine (verify V (VStr "") (VBytes [x01; x02]))
       = Err (TypeError (quoted "data" ++ " is required."))
    /\ calls engine (verify V (VNum 42) (VBytes [x01; x02])) = [].
Proof.
  eexists. split; [reflexivity |]. repeat split.
Qed.

(** C6 on the reference runtime: a matching signature verifies, a signature
    over other data does not, an engine rejection (here: a private key given
    as the public key) is turned into [false], and a signature that is not a
    byte string throws. *)
Lemma verifier_verify_boolean_witness :
  exists V W,
    createVerifier (VStr "did:example:1234#key-1") (VKey 4096%N) = Ok V
    /\ createVerifier (VStr "did:example:1234#key-1") (VKey 4097%N) = Ok W
    /\ run engine (verify V (VStr "test 1234")
                     (VBytes (signature_of 4097%N (list_byte_of_string "test 1234"))))
       = Ok (VBool true)
    /\ run engine (verify V (VStr "test 4321")
                     (VBytes (signature_of 4097%N (list_byte_of_string "test 1234"))))
       = Ok (VBool false)
    /\ run engine (verify W (VStr "test 1234")
                     (VBytes (signature_of 4097%N (list_byte_of_string "test 1234"))))
       = Ok (VBool false)
    /\ exists message,
         verify V (VStr "test 1234") (VStr "c2lnbmF0dXJl") = Throw (TypeError message).
Proof.
  destruct (createVerifier (VStr "did:example:1234#key-1") (VKey 4096%N))
    as [V | e] eqn:HV; [| vm_compute in HV; discriminate HV].
  destruct (createVerifier (VStr "did:example:1234#key-1") (VKey 4097%N))
    as [W | e] eqn:HW; [| vm_compute in HW; discriminate HW].
  exists V, W. split; [reflexivity |]. split; [reflexivity |].
  assert (Hsignable : forall s, s <> "" -> signable (VStr s)).
  { intros s Hs. left. by exists s. }
  pose proof (verifier_verify_boolean _ _ V HV) as HVspec.
  pose proof (verifier_verify_boolean _ _ W HW) as HWspec.
  repeat split.
  - destruct (HVspec (VStr "test 1234")
                (VBytes (signature_of 4097%N (list_byte_of_string "test 1234"))))
      as (_ & Hbool & _).
    destruct (Hbool _ eq_refl (Hsignable "test 1234" ltac:(discriminate)))
      as (k & -> & Hk).
    cbn [run]. rewrite Hk. reflexivity.
  - destruct (HVspec (VStr "test 4321")
                (VBytes (signature_of 4097%N (list_byte_of_string "test 1234"))))
      as (_ & Hbool & _).
    destruct (Hbool _ eq_refl (Hsignable "test 4321" ltac:(discriminate)))
      as (k & -> & Hk).
    cbn [run]. rewrite Hk. reflexivity.
  - destruct (HWspec (VStr "test 1234")
                (VBytes (signature_of 4097%N (list_byte_of_string "test 1234"))))
      as (_ & Hbool & _).
    destruct (Hbool _ eq_refl (Hsignable "test 1234" ltac:(discriminate)))
      as (k & -> & Hk).
    cbn [run]. rewrite Hk. reflexivity.
  - destruct (HVspec (VStr "test 1234") (VStr "c2lnbmF0dXJl")) as (Hthrow & _ & _).
    apply Hthrow. reflexivity.
Defined.

(** C7, as stated, fails for the empty string: it is a string, yet it is not
    encoded and signed; the call throws and the engine, which would sign the
    empty byte string, is never invoked. *)
Lemma sign_empty_string_rejected :
  exists S,
    createSigner (VStr "did:example:1234#key-1") (VKey 4097%N) = Ok S
    /\ typeof (VStr "") = "string"
    /\ run engine (sign S (VStr "")) = Err (TypeError (quoted "data" ++ " is required."))
    /\ calls engine (sign S (VStr "")) = []
    /\ engine (subtle_sign RSA_PSS_SALT32 (VKey 4097%N) (TextEncoder_encode ""))
       = Ok (signature_of 4097%N []).
Proof.
  eexists. split; [reflexivity |]. repeat split.
Qed.

(** C7 on the reference runtime: a string is signed as its UTF-8 bytes, a
    byte string as it is, both through one [subtle.sign] call with salt
    length 32, and a number is refused. *)
Lemma signer_sign_encodes_and_signs_witness :
  exists S,
    createSigner (VStr "did:example:1234#key-1") (VKey 4097%N) = Ok S
    /\ signer_algorithm S = VStr "PS256"
    /\ run engine (sign S (VStr "test 1234"))
       = Ok (VBytes (signature_of 4097%N (list_byte_of_string "test 1234")))
    /\ calls engine (sign S (VStr "test 1234"))
       = [subtle_sign RSA_PSS_SALT32 (VKey 4097%N) (list_byte_of_string "test 1234")]
    /\ run engine (sign S (VBytes [x01; x02; x03]))
       = Ok (VBytes (signature_of 4097%N [x01; x02; x03]))
    /\ exists message, sign S (VNum 42) = Throw (TypeError message).
Proof.
  destruct (createSigner (VStr "did:example:1234#key-1") (VKey 4097%N))
    as [S | e] eqn:HS; [| vm_compute in HS; discriminate HS].
  exists S. split; [reflexivity |].
  destruct (signer_sign_encodes_and_signs _ _ S HS)
    as (Halg & Hsign & _ & _ & Hreject).
  split; [exact Halg |].
  assert (Hstring : signable (VStr "test 1234")).
  { left. exists "test 1234". split; [reflexivity | discriminate]. }
  assert (Hbytes : signable (VBytes [x01; x02; x03])).
  { right. by exists [x01; x02; x03]. }
  destruct (Hsign _ Hstring) as (k & Hks & Hk).
  destruct (Hsign _ Hbytes) as (k' & Hks' & Hk').
  repeat split.
  - rewrite Hks. cbn [run]. rewrite Hk. reflexivity.
  - rewrite Hks. cbn [calls]. rewrite Hk. reflexivity.
  - rewrite Hks'. cbn [run]. rewrite Hk'. reflexivity.
  - apply Hreject. intros [(s & Hs & _) | (bs & Hbs)]; discriminate.
Defined.

(** C8, as stated, fails on a JWK whose [n] field is the empty string: the
    field is there and decodes to no bytes, yet no length is derived; the
    JWK is rejected. *)
Lemma getModulusLengthFromJwk_empty_n :
  let jwk := VObj {[ "kty" := VStr "RSA"; "n" := VStr ""; "e" := VStr "AQAB" ]} in
  has_property jwk "n" = true
  /\ Buffer_from_base64url (jwk !!! "n") = Ok []
  /\ getModulusLengthFromJwk jwk <> Ok (VNum (8 * Z.of_nat (length (@nil byte))))
  /\ getModulusLengthFromJwk jwk
     = Err (TypeError (quoted "jwk" ++ " must have an " ++ quoted "n" ++ " property.")).
Proof.
  repeat split; try (vm_compute; reflexivity).
  vm_compute. discriminate.
Qed.

(** C8 on the reference runtime: a modulus text of three bytes gives 24
    bits. *)
Lemma getModulusLengthFromJwk_counts_bytes_witness :
  let jwk := VObj {[ "kty" := VStr "RSA"; "n" := VStr "AAEC"; "e" := VStr "AQAB" ]} in
  truthy (jwk !!! "n") = true
  /\ getModulusLengthFromJwk jwk = Ok (VNum 24).
Proof.
  split; [reflexivity |].
  pose proof (getModulusLengthFromJwk_counts_bytes
                (VObj {[ "kty" := VStr "RSA"; "n" := VStr "AAEC"; "e" := VStr "AQAB" ]}))
    as (Hpresent & _ & _).
  rewrite Hpresent; reflexivity.
Defined.

(** C9 on the reference runtime: a ['JsonWebKey'] document is handed to
    [fromJwk] with its id and controller, and the key pair keeps them; the
    same document under another type gives a key pair with neither. *)
Lemma from_delegates_to_fromJwk_witness :
  from jsonWebKey2048
  = fromJwk (VObj (jwk_of_handle 4096%N)) (VBool false)
      (VStr "did:example:1234#key-1") (VStr "did:example:1234")
  /\ (exists keyPair,
        run engine (from jsonWebKey2048) = Ok keyPair
        /\ keyPair !!! "id" = VStr "did:example:1234#key-1"
        /\ keyPair !!! "controller" = VStr "did:example:1234")
  /\ from otherTyped2048
     = fromJwk (VObj (jwk_of_handle 4096%N)) (VBool false) VUndef VUndef
  /\ (exists keyPair,
        run engine (from otherTyped2048) = Ok keyPair
        /\ has_property keyPair "id" = false
        /\ has_property keyPair "controller" = false).
Proof.
  destruct (from_delegates_to_fromJwk jsonWebKey2048
              ltac:(vm_compute; discriminate) eq_refl) as (Hdelegate & _ & Hkept).
  destruct (from_delegates_to_fromJwk otherTyped2048
              ltac:(vm_compute; discriminate) eq_refl) as (Hother & Hdropped & _).
  split; [exact Hdelegate | split; [| split; [exact Hother |]]].
  - destruct (run engine (from jsonWebKey2048)) as [keyPair | e] eqn:Hrun;
      [| vm_compute in Hrun; discriminate Hrun].
    exists keyPair. split; [reflexivity |].
    apply (Hkept eq_refl engine keyPair); try reflexivity; [discriminate | exact Hrun].
  - destruct (run engine (from otherTyped2048)) as [keyPair | e] eqn:Hrun;
      [| vm_compute in Hrun; discriminate Hrun].
    exists keyPair. split; [reflexivity |].
    by apply (Hdropped eq_refl engine keyPair).
Defined.

(** C10 on the reference runtime: [toJwk] with [secretKey: true] on a
    public-only key pair gives the public JWK, without [d]. *)
Lemma toJwk_public_only_falls_back_witness :
  run engine (toJwk publicOnly2048 (VBool true))
  = run engine (toJwk publicOnly2048 (VBool false))
  /\ exists out,
       run engine (toJwk publicOnly2048 (VBool true)) = Ok out
       /\ has_property out "d" = false
       /\ out !!! "n" = VStr "2048".
Proof.
  destruct (toJwk_public_only_falls_back engine publicOnly2048 (VBool true)
              publicOnly2048 eq_refl eq_refl) as (Hsame & _ & Hout).
  split; [exact Hsame |].
  destruct (Hout (jwk_of_handle 4096%N) eq_refl) as (out & Hrun & Hd & _).
  exists out. split; [exact Hrun |]. split; [rewrite Hd; reflexivity |].
  rewrite Hrun in Hsame. vm_compute in Hsame. injection Hsame as ->.
  reflexivity.
Defined.

(** ** The further properties on the reference runtime *)


(** X2 on the reference runtime: 3072 is in the table and passes the
    validation; 1024 is not in the table. *)
Lemma generate_accepts_RSA_MODULUS_LENGTH_witness :
  (exists c k, generate VUndef VUndef (VNum 3072) = Await c k)
  /\ ~ (exists k, RSA_MODULUS_LENGTH !! k = Some (VNum 1024)).
Proof.
  pose proof (generate_accepts_RSA_MODULUS_LENGTH VUndef VUndef (VNum 3072))
    as (Haccepted & _).
  pose proof (generate_accepts_RSA_MODULUS_LENGTH VUndef VUndef (VNum 1024))
    as (Hrejected & _).
  split.
  - apply Haccepted. by exists "3072".
  - intros Hin. apply Hrejected in Hin as (c & k & Hgen). discriminate Hgen.
Defined.

(** X3 on the reference runtime: three bytes, their text, and the bytes
    again. *)
Lemma multibase_text_roundtrip_witness :
  toPublicKeyMultibase (VBytes [x01; x02; x03]) = Ok (VStr "zLdp")
  /\ fromPublicKeyMultibase (VStr "zLdp") = Ok (VBytes [x01; x02; x03])
  /\ (text ← toSecretKeyMultibase (VBytes [x01; x02; x03]); fromSecretKeyMultibase text)
     = Ok (VBytes [x01; x02; x03]).
Proof.
  pose proof (multibase_text_roundtrip [x01; x02; x03]) as Hround.
  destruct (Hround eq_refl) as (_ & Hsecret & _).
  split; [reflexivity | split; [reflexivity | exact Hsecret]].
Defined.

(** X4 on the reference runtime: for a private JWK the engine is
    handed the four public fields only. *)
Lemma toPublicKeyMultibaseFromJwk_reads_public_fields_witness :
  truthy (VObj (jwk_of_handle 4097%N) !!! "d") = true
  /\ run engine (toPublicKeyMultibaseFromJwk (VObj (jwk_of_handle 4097%N)))
     = Ok (VStr "z2Dd")
  /\ calls engine (toPublicKeyMultibaseFromJwk (VObj (jwk_of_handle 4097%N)))
     = [subtle_importKey fmt_jwk
          (VObj {[ "kty" := VStr "RSA"; "n" := VStr "2048"; "e" := VStr "AQAB";
                   "alg" := VStr "PS256" ]}) RSA_PSS_SHA256 true ["verify"];
        subtle_exportKey fmt_spki (VKey 4096%N)].
Proof.
  pose proof (toPublicKeyMultibaseFromJwk_reads_public_fields engine
                (VObj (jwk_of_handle 4097%N))) as Hreads.
  destruct (Hreads eq_refl) as (_ & _ & _ & Hcalls).
  split; [reflexivity | split; [vm_compute; reflexivity |]].
  rewrite Hcalls. reflexivity.
Defined.

(** X5 on the reference runtime: with the secret key bytes of the
    2048-bit pair, public key bytes that are no key at all do no harm. *)
Lemma cryptoKeyfromRaw_imports_one_key_witness :
  run engine (cryptoKeyfromRaw (VNum 2048) (VBytes [x10; x01]) (VBytes [xff]) VUndef)
  = Ok (VKey 4097%N)
  /\ calls engine
       (cryptoKeyfromRaw (VNum 2048) (VBytes [x10; x01]) (VBytes [xff]) VUndef)
     = [subtle_importKey fmt_pkcs8 (VBytes [x10; x01])
          (VObj {[ "name" := VStr "RSA-PSS"; "hash" := VStr "SHA-256";
                   "modulusLength" := VNum 2048 ]}) true ["sign"]].
Proof.
  pose proof (cryptoKeyfromRaw_imports_one_key engine 2048 (VBytes [x10; x01]) VUndef
                [xff]) as (Hsecret & _).
  destruct (Hsecret [x10; x01] eq_refl) as (Hcalls & Hrun & _).
  split; [rewrite Hrun; reflexivity | exact Hcalls].
Defined.

(** X6 on the reference runtime: importing the imported pair of
    [document2048] gives it back without an engine call. *)
Lemma importKeyPair_idempotent_witness :
  run engine (importKeyPair document2048) = Ok imported2048
  /\ importKeyPair imported2048 = Resolve imported2048
  /\ calls engine (importKeyPair imported2048) = [].
Proof.
  assert (Hrun : run engine (importKeyPair document2048) = Ok imported2048)
    by (vm_compute; reflexivity).
  split; [exact Hrun |].
  apply (importKeyPair_idempotent engine document2048 imported2048 Hrun).
Defined.

(** X7 on the reference runtime: a document with secret
    material only is refused. *)
Lemma importKeyPair_rejects_without_public_material_witness :
  importKeyPair (VObj {[ "type" := VStr "Multikey"; "secretKeyMultibase" := VStr "z2De" ]})
  = Throw (Error "Key pair must have publicKeyJwk or publicKeyMultibase.").
Proof.
  pose proof (importKeyPair_rejects_without_public_material
                (VObj {[ "type" := VStr "Multikey";
                         "secretKeyMultibase" := VStr "z2De" ]}))
    as (_ & _ & Hrejects).
  apply Hrejects; try reflexivity. split; [reflexivity | discriminate].
Defined.

(** X8 on the reference runtime: the secret multibase text of
    [mixedDocument2048] is kept as a property and not imported. *)
Lemma importKeyPair_adds_only_keys_witness :
  run engine (importKeyPair (VObj mixedDocument2048)) = Ok importedMixed2048
  /\ importedMixed2048 !!! "publicKey" = VKey 4096%N
  /\ importedMixed2048 !!! "secretKey" = VUndef
  /\ importedMixed2048 !!! "secretKeyMultibase" = VStr "z2De".
Proof.
  assert (Hrun : run engine (importKeyPair (VObj mixedDocument2048))
                 = Ok importedMixed2048) by (vm_compute; reflexivity).
  split; [exact Hrun |].
  pose proof (importKeyPair_adds_only_keys engine mixedDocument2048 importedMixed2048)
    as Hadds.
  destruct (Hadds eq_refl Hrun) as (_ & Hkeeps & Hsecret).
  split; [reflexivity |]. split; [exact Hsecret |].
  rewrite Hkeeps by done. reflexivity.
Defined.

(** X9 on the reference runtime: the one engine call for
    [mixedDocument2048] imports its JWK; its public text, which is not
    multibase, is not decoded. *)
Lemma importKeyPair_prefers_jwk_witness :
  base58btc_decode "not multibase"
  = Err (Error "base58btc decoder only supports inputs prefixed with z")
  /\ calls engine (importKeyPair (VObj mixedDocument2048))
     = [subtle_importKey fmt_jwk (VObj (jwk_of_handle 4096%N)) RSA_PSS_SHA256 true
          ["verify"]].
Proof.
  split; [reflexivity |].
  pose proof (importKeyPair_prefers_jwk engine mixedDocument2048) as Hcalls.
  rewrite (Hcalls eq_refl eq_refl). reflexivity.
Defined.

(** X10 on the reference runtime: the document exported without its
    context has the id of the pair and no key handle. *)
Lemma exportKeyPair_document_shape_witness :
  run engine (exportKeyPair generated2048 VUndef (VBool true) (VBool false))
  = Ok document2048_bare
  /\ document2048_bare !!! "type" = VStr "Multikey"
  /\ has_property document2048_bare "@context" = false
  /\ document2048_bare !!! "id" = VStr "did:example:1234#z2Dd"
  /\ has_property document2048_bare "publicKey" = false.
Proof.
  assert (Hrun : run engine (exportKeyPair generated2048 VUndef (VBool true) (VBool false))
                 = Ok document2048_bare) by (vm_compute; reflexivity).
  split; [exact Hrun |].
  destruct (exportKeyPair_document_shape engine _ _ _ _ _ Hrun)
    as (Honly & Hty & _ & Hctx & Hid & _).
  split; [exact Hty |]. split; [exact Hctx |]. split; [exact Hid |].
  destruct (has_property document2048_bare "publicKey") eqn:Hp; [| reflexivity].
  apply Honly in Hp. unfold document_properties in Hp. simpl in Hp.
  repeat (destruct Hp as [Hp | Hp]; [discriminate Hp |]). destruct Hp.
Defined.

(** X11 on the reference runtime: an empty id is refused, and so
    is a missing key. *)
Lemma createSigner_createVerifier_validation_witness :
  createSigner (VStr "") VUndef
  = Err (TypeError (quoted "id" ++ " must be a non-empty string."))
  /\ createVerifier (VStr "did:example:1234#key-1") VUndef
     = Err (TypeError (quoted "publicKey" ++ " is required.")).
Proof.
  pose proof (createSigner_createVerifier_validation (VStr "") VUndef) as (Hid & _).
  pose proof (createSigner_createVerifier_validation (VStr "did:example:1234#key-1")
                VUndef) as (_ & Hkey & _).
  split.
  - apply Hid. intros (s & [= <-] & Hs). by apply Hs.
  - apply Hkey; [| reflexivity].
    exists "did:example:1234#key-1". split; [reflexivity | discriminate].
Defined.

(** X12 on the reference runtime: what the signer of the 2048-bit
    pair signs, its verifier accepts. *)
Lemma verifier_checks_what_signer_signed_witness :
  exists S V,
    createSigner (VStr "did:example:1234#z2Dd") (VKey 4097%N) = Ok S
    /\ createVerifier (VStr "did:example:1234#z2Dd") (VKey 4096%N) = Ok V
    /\ run engine (sign S (VStr "test 1234"))
       = Ok (VBytes (signature_of 4097%N (list_byte_of_string "test 1234")))
    /\ run engine (verify V (VStr "test 1234")
                     (VBytes (signature_of 4097%N (list_byte_of_string "test 1234"))))
       = Ok (VBool true).
Proof.
  destruct (createSigner (VStr "did:example:1234#z2Dd") (VKey 4097%N))
    as [S | e] eqn:HS; [| vm_compute in HS; discriminate HS].
  destruct (createVerifier (VStr "did:example:1234#z2Dd") (VKey 4096%N))
    as [V | e] eqn:HV; [| vm_compute in HV; discriminate HV].
  exists S, V. split; [reflexivity |]. split; [reflexivity |].
  assert (Hsign : run engine (sign S (VStr "test 1234"))
                  = Ok (VBytes (signature_of 4097%N (list_byte_of_string "test 1234")))).
  { injection HS as <-. reflexivity. }
  split; [exact Hsign |].
  pose proof (verifier_checks_what_signer_signed engine _ _ _ _ _ _ S V HS HV Hsign)
    as (sig & Hsig & _ & _ & Hverify).
  injection Hsig as <-. rewrite Hverify. reflexivity.
Defined.

(** X13 on the reference runtime: of a JWK-wrapping document that also
    carries a multibase text, only the JWK reaches the Multikey. *)
Lemma toMultikey_document_shape_witness :
  run engine (toMultikey (<["publicKeyMultibase" := VStr "zOther"]> jsonWebKey2048))
  = Ok multikeyOfJsonWebKey2048
  /\ _assertMultikey multikeyOfJsonWebKey2048 = Ok ()
  /\ multikeyOfJsonWebKey2048 !!! "publicKeyMultibase" = VStr "z2Dd"
  /\ has_property multikeyOfJsonWebKey2048 "secretKeyMultibase" = false.
Proof.
  assert (Hrun : run engine
                   (toMultikey (<["publicKeyMultibase" := VStr "zOther"]> jsonWebKey2048))
                 = Ok multikeyOfJsonWebKey2048) by (vm_compute; reflexivity).
  split; [exact Hrun |].
  destruct (toMultikey_document_shape engine _ _ Hrun)
    as (Hvalid & _ & _ & _ & Hsecret & _).
  split; [exact Hvalid |]. split; [reflexivity | exact Hsecret].
Defined.

(** X14 on the reference runtime: a public-only pair has no signer. *)
Lemma keyPair_capabilities_use_own_keys_witness :
  keyPair_signer publicOnly2048 = Err (Error "Secret key is required for signing.").
Proof.
  pose proof (keyPair_capabilities_use_own_keys publicOnly2048) as (Hsigner & _).
  by apply Hsigner.
Defined.

(** X15 on the reference runtime: the interface of [mixedDocument2048]
    has the multibase text of the engine's key, not the text of the
    document, and its secret text is replaced by [undefined]; the [export]
    the document had is replaced by the function, and it has a [verifier]. *)
Lemma createKeyPairInterface_derives_fields_witness :
  run engine (_createKeyPairInterface
                (VObj (<["export" := VStr "mine"]> mixedDocument2048)) VUndef)
  = Ok interfaceMixed2048
  /\ interfaceMixed2048 !!! "publicKeyMultibase" = VStr "z2Dd"
  /\ interfaceMixed2048 !!! "secretKeyMultibase" = VUndef
  /\ has_property interfaceMixed2048 "secretKeyMultibase" = true
  /\ interfaceMixed2048 !!! "type" = VStr "Multikey"
  /\ typeof (interfaceMixed2048 !!! "export") = "function"
  /\ typeof (interfaceMixed2048 !!! "verifier") = "function".
Proof.
  assert (Hrun : run engine (_createKeyPairInterface
                               (VObj (<["export" := VStr "mine"]> mixedDocument2048))
                               VUndef)
                 = Ok interfaceMixed2048) by (vm_compute; reflexivity).
  split; [exact Hrun |].
  pose proof (createKeyPairInterface_derives_fields engine
                (<["export" := VStr "mine"]> mixedDocument2048) VUndef
                interfaceMixed2048) as Hfields.
  destruct (Hfields Hrun) as (_ & _ & Hsecret & Hhas & _ & _ & _ & Hmethods & Hkeeps).
  split; [reflexivity |]. split; [exact Hsecret |]. split; [exact Hhas |].
  split; [rewrite Hkeeps by done; reflexivity |].
  destruct Hmethods as (fs & Hfs & Hexport & _ & Hverifier).
  rewrite Hfs, !get_VObj, Hexport, Hverifier. split; reflexivity.
Defined.

(** X16 on the reference runtime: the raw export of the generated pair gives both DER
    byte strings; on a public-only pair, a raw export with the secret key
    requested fails. *)
Lemma raw_export_bytes_witness :
  run engine (exportFn generated2048 VUndef (VBool true) VUndef (VBool true))
  = Ok raw2048
  /\ raw2048 !!! "publicKey" = VBytes [x10; x00]
  /\ raw2048 !!! "secretKey" = VBytes [x10; x01]
  /\ exists e,
       run engine (exportFn publicOnly2048 VUndef (VBool true) VUndef (VBool true))
       = Err e.
Proof.
  split; [vm_compute; reflexivity |].
  split; [reflexivity |]. split; [reflexivity |].
  pose proof (raw_export_bytes engine publicOnly2048 VUndef (VBool true) VUndef
                (VBool true)) as Hraw.
  destruct (Hraw eq_refl) as (_ & Hfails).
  apply (Hfails publicOnly2048 (jwk_of_handle 4096%N)); reflexivity.
Defined.

(** X17 on the reference runtime: the private JWK of the generated pair has its
    algorithm and the engine's fields. *)
Lemma toJwk_ensures_alg_witness :
  run engine (toJwk generated2048 (VBool true)) = Ok privateJwk2048
  /\ truthy (privateJwk2048 !!! "alg") = true
  /\ privateJwk2048 !!! "alg" = VStr "PS256"
  /\ privateJwk2048 !!! "d" = VStr "2048".
Proof.
  assert (Hrun : run engine (toJwk generated2048 (VBool true)) = Ok privateJwk2048)
    by (vm_compute; reflexivity).
  split; [exact Hrun |].
  pose proof (toJwk_ensures_alg engine generated2048 (VBool true) privateJwk2048) as Halg.
  destruct (Halg Hrun) as (held & jwk & _ & _ & _ & Htruthy & _).
  split; [exact Htruthy |]. split; reflexivity.
Defined.

(** X18 on the reference runtime: the pair generated for [did:example:1234]. *)
Lemma generate_key_pair_witness :
  run engine (generate VUndef (VStr "did:example:1234") (VNum 2048)) = Ok generated2048
  /\ generated2048 !!! "modulusLength" = VNum 2048
  /\ generated2048 !!! "controller" = VStr "did:example:1234"
  /\ has_property generated2048 "privateKey" = false
  /\ exists bs, generated2048 !!! "secretKeyMultibase" = VStr (base58btc_encode bs).
Proof.
  assert (Hrun : run engine (generate VUndef (VStr "did:example:1234") (VNum 2048))
                 = Ok generated2048) by (vm_compute; reflexivity).
  split; [exact Hrun |].
  pose proof (generate_key_pair engine VUndef (VStr "did:example:1234") (VNum 2048)
                generated2048) as Hpair.
  destruct (Hpair Hrun) as (_ & Hml & _ & Hprivate & Hsecret & _ & Hco).
  by repeat split.
Defined.

(** X19 on the reference runtime: a document exported without its
    context fails the bare validation and is still accepted by [from]. *)
Lemma from_accepts_exported_document_witness :
  run engine (exportKeyPair generated2048 VUndef (VBool true) (VBool false))
  = Ok document2048_bare
  /\ (exists message, _assertMultikey document2048_bare = Err (TypeError message))
  /\ from document2048_bare
     = _createKeyPairInterface
         (<["@context" := VStr MULTIKEY_CONTEXT_V1_URL]> document2048_bare) VUndef
  /\ run engine (from document2048_bare) = Ok fromBare2048
  /\ fromBare2048 !!! "@context" = VStr MULTIKEY_CONTEXT_V1_URL.
Proof.
  assert (Hrun : run engine (exportKeyPair generated2048 VUndef (VBool true) (VBool false))
                 = Ok document2048_bare) by (vm_compute; reflexivity).
  split; [exact Hrun |].
  pose proof (from_accepts_exported_document engine _ _ _ _ _ Hrun)
    as (Hassert & Hfrom & _).
  split; [rewrite Hassert; by eexists |]. split; [by apply Hfrom |].
  split; [vm_compute; reflexivity | reflexivity].
Defined.

(** X20 on the reference runtime: a key given by its multibase text
    alone is read as a Multikey. *)
Lemma from_fills_in_type_and_context_witness :
  from (VObj {[ "publicKeyMultibase" := VStr "z2Dd" ]})
  = from (VObj {[ "type" := VStr "Multikey"; "publicKeyMultibase" := VStr "z2Dd" ]}).
Proof.
  pose proof (from_fills_in_type_and_context {[ "publicKeyMultibase" := VStr "z2Dd" ]})
    as (Htype & _).
  apply Htype; reflexivity.
Defined.

(** X21 on the reference runtime: a Multikey under another context
    is refused, and a Multikey with no key material is refused for want of
    it. *)
Lemma from_rejects_before_any_engine_call_witness :
  (exists message,
     from (VObj {[ "type" := VStr "Multikey";
                   "@context" := VStr "https://w3id.org/security/suites/ed25519-2020/v1";
                   "publicKeyMultibase" := VStr "z2Dd" ]})
     = Throw (TypeError message))
  /\ from (VObj {[ "type" := VStr "Multikey"; "controller" := VStr "did:example:1234" ]})
     = Throw (Error "Key pair must have publicKeyJwk or publicKeyMultibase.").
Proof.
  split.
  - pose proof (from_rejects_before_any_engine_call
                  {[ "type" := VStr "Multikey";
                     "@context" := VStr "https://w3id.org/security/suites/ed25519-2020/v1";
                     "publicKeyMultibase" := VStr "z2Dd" ]}) as Hrejects.
    destruct (Hrejects eq_refl) as (Hcontext & _ & Hquiet).
    assert (Hbad : ~ context_ok
                       (VObj {[ "type" := VStr "Multikey";
                                "@context" :=
                                  VStr "https://w3id.org/security/suites/ed25519-2020/v1";
                                "publicKeyMultibase" := VStr "z2Dd" ]} !!! "@context")).
    { intros [Hurl | (xs & Harr & _)]; discriminate. }
    destruct (Hcontext eq_refl Hbad) as (Hthrow & _).
    eexists. apply Hthrow, Hquiet. by left.
  - pose proof (from_rejects_before_any_engine_call
                  {[ "type" := VStr "Multikey"; "controller" := VStr "did:example:1234" ]})
      as Hrejects.
    destruct (Hrejects eq_refl) as (_ & Hmaterial & Hquiet).
    destruct (Hmaterial (or_intror eq_refl) eq_refl eq_refl eq_refl) as (Hthrow & _).
    apply Hthrow, Hquiet. right. by split.
Defined.

(** X22 on the reference runtime: [otherSuite2048] is refused although it
    has a [publicKeyMultibase]. *)
Lemma from_typed_without_jwk_fails_witness :
  truthy (otherSuite2048 !!! "publicKeyMultibase") = true
  /\ from otherSuite2048
     = Throw (Error "Key pair must have publicKeyJwk or publicKeyMultibase.").
Proof.
  split; [reflexivity |].
  pose proof (from_typed_without_jwk_fails engine otherSuite2048) as Hfails.
  cbv zeta in Hfails.
  destruct (Hfails eq_refl ltac:(discriminate) eq_refl) as (_ & Hthrow).
  by apply Hthrow.
Defined.

(** X23 on the reference runtime: the id derived for
    [jwkOnlyMultikey2048] ends in [undefined], while the key pair has the
    multibase text [z2Dd]; with the number [1e21] for the controller the id
    starts with [1e+21]. *)
Lemma from_derives_id_from_document_witness :
  run engine (from (VObj jwkOnlyMultikey2048)) = Ok fromJwkOnlyMultikey2048
  /\ fromJwkOnlyMultikey2048 !!! "id" = VStr "did:example:1234#undefined"
  /\ fromJwkOnlyMultikey2048 !!! "publicKeyMultibase" = VStr "z2Dd"
  /\ run engine (from (VObj numericControllerMultikey2048))
     = Ok fromNumericControllerMultikey2048
  /\ fromNumericControllerMultikey2048 !!! "id" = VStr "1e+21#undefined".
Proof.
  assert (Hrun : run engine (from (VObj jwkOnlyMultikey2048))
                 = Ok fromJwkOnlyMultikey2048) by (vm_compute; reflexivity).
  assert (Hnum : run engine (from (VObj numericControllerMultikey2048))
                 = Ok fromNumericControllerMultikey2048) by (vm_compute; reflexivity).
  split; [exact Hrun |].
  pose proof (from_derives_id_from_document engine jwkOnlyMultikey2048
                fromJwkOnlyMultikey2048) as Hid.
  destruct (Hid eq_refl eq_refl eq_refl Hrun)
    as (c & p & _ & _ & Hkid & _ & Hundefined & Hstring & _).
  split.
  { by rewrite Hkid, (Hstring "did:example:1234" eq_refl), (Hundefined eq_refl). }
  split; [reflexivity |]. split; [exact Hnum |].
  pose proof (from_derives_id_from_document engine numericControllerMultikey2048
                fromNumericControllerMultikey2048) as Hid'.
  destruct (Hid' eq_refl eq_refl eq_refl Hnum)
    as (c' & p' & _ & _ & Hkid' & _ & Hundefined' & _ & Hnumber).
  rewrite Hkid', (Hnumber (10 ^ 21) eq_refl), (Hundefined' eq_refl).
  vm_compute. reflexivity.
Defined.

(** X24 on the reference runtime: an elliptic-curve JWK is
    refused. *)
Lemma fromJwk_validates_before_any_engine_call_witness :
  fromJwk (VObj {[ "kty" := VStr "EC"; "crv" := VStr "P-256" ]}) VUndef VUndef VUndef
  = Throw (TypeError ("JWK must have kty " ++ quoted "RSA" ++ ".")).
Proof.
  pose proof (fromJwk_validates_before_any_engine_call
                (VObj {[ "kty" := VStr "EC"; "crv" := VStr "P-256" ]}) VUndef VUndef VUndef)
    as (_ & Hkty & _).
  apply Hkty; [split; [reflexivity | discriminate] | discriminate].
Defined.

(** X25 on the reference runtime: from the private JWK of the 2048-bit pair, with the
    secret key requested. *)
Lemma fromJwk_key_pair_witness :
  run engine (fromJwk (VObj (jwk_of_handle 4097%N)) (VBool true) VUndef VUndef)
  = Ok fromPrivateJwk2048
  /\ fromPrivateJwk2048 !!! "modulusLength" = VNum 24
  /\ (exists hs, fromPrivateJwk2048 !!! "secretKey" = VKey hs)
  /\ has_property fromPrivateJwk2048 "secretKeyJwk" = true.
Proof.
  assert (Hrun : run engine
                   (fromJwk (VObj (jwk_of_handle 4097%N)) (VBool true) VUndef VUndef)
                 = Ok fromPrivateJwk2048) by (vm_compute; reflexivity).
  split; [exact Hrun |].
  pose proof (fromJwk_key_pair engine _ _ _ _ _ Hrun) as (_ & _ & _ & Hsecret).
  change (truthy (VBool true) && truthy (VObj (jwk_of_handle 4097%N) !!! "d"))
    with true in Hsecret.
  destruct Hsecret as (Hsk & _ & Hjwk).
  split; [reflexivity | split; [exact Hsk | exact Hjwk]].
Defined.

(** X26 on the reference runtime: the key pair made from a JWK
    alone holds a secret key and has no id; neither its verifier nor its
    signer can be made. *)
Lemma fromJwk_without_id_cannot_sign_or_verify_witness :
  run engine (fromJwk (VObj (jwk_of_handle 4097%N)) (VBool true) VUndef VUndef)
  = Ok fromPrivateJwk2048
  /\ truthy (fromPrivateJwk2048 !!! "secretKey") = true
  /\ keyPair_verifier fromPrivateJwk2048
     = Err (TypeError (quoted "id" ++ " must be a non-empty string."))
  /\ exists e, keyPair_signer fromPrivateJwk2048 = Err e.
Proof.
  assert (Hrun : run engine
                   (fromJwk (VObj (jwk_of_handle 4097%N)) (VBool true) VUndef VUndef)
                 = Ok fromPrivateJwk2048) by (vm_compute; reflexivity).
  split; [exact Hrun |].
  pose proof (fromJwk_without_id_cannot_sign_or_verify engine
                (VObj (jwk_of_handle 4097%N)) (VBool true) VUndef VUndef
                fromPrivateJwk2048) as Hnone.
  destruct (Hnone ltac:(discriminate) ltac:(discriminate) Hrun)
    as (_ & _ & Hverifier & Hsigner).
  split; [reflexivity | split; [exact Hverifier | exact Hsigner]].
Defined.

(** X27 on the reference runtime: a modulus length given as text is refused. *)
Lemma fromRaw_validation_witness :
  fromRaw (VStr "2048") VUndef (VBytes [x10; x00])
  = Throw (TypeError (quoted "modulusLength" ++ " must be a number.")).
Proof.
  pose proof (fromRaw_validation (VStr "2048") VUndef (VBytes [x10; x00])) as (Hml & _).
  apply Hml. discriminate.
Defined.

(** X28 on the reference runtime: the key pair made from the raw public key of the
    2048-bit pair. *)
Lemma fromRaw_key_pair_witness :
  run engine (fromRaw (VNum 2048) VUndef (VBytes [x10; x00])) = Ok fromRawPublic2048
  /\ fromRawPublic2048 !!! "publicKey" = VKey 4096%N
  /\ has_property fromRawPublic2048 "id" = false
  /\ keyPair_verifier fromRawPublic2048
     = Err (TypeError (quoted "id" ++ " must be a non-empty string.")).
Proof.
  assert (Hrun : run engine (fromRaw (VNum 2048) VUndef (VBytes [x10; x00]))
                 = Ok fromRawPublic2048) by (vm_compute; reflexivity).
  split; [exact Hrun |].
  pose proof (fromRaw_key_pair engine _ _ _ _ Hrun) as (_ & Hid & _ & Hverifier & _).
  split; [reflexivity | split; [exact Hid | exact Hverifier]].
Defined.

(** X29 on the reference runtime: [from] on the exported document of the
    generated pair gives a pair that exports to the same document. *)
Lemma export_from_export_roundtrip_witness :
  run engine (from document2048) = Ok fromDocument2048
  /\ run engine (exportFn fromDocument2048 (VBool true) (VBool true) VUndef VUndef)
     = Ok document2048.
Proof.
  assert (Hfrom : run engine (from document2048) = Ok fromDocument2048)
    by (vm_compute; reflexivity).
  split; [exact Hfrom |].
  pose proof (export_from_export_roundtrip engine generated2048 VUndef document2048)
    as Hround.
  destruct Hround as (imported & Himported & Hexport).
  - reflexivity.
  - reflexivity.
  - intros jwk h Hexp Himp.
    change (Ok (jwk_of_handle 4096%N) = Ok jwk) in Hexp.
    injection Hexp as <-.
    change (handle_of_jwk (VObj (jwk_of_handle 4096%N)) ["verify"] = Ok h) in Himp.
    vm_compute in Himp. injection Himp as <-.
    reflexivity.
  - intros jwk h Hexp Himp.
    change (Ok (jwk_of_handle 4097%N) = Ok jwk) in Hexp.
    injection Hexp as <-.
    change (handle_of_jwk (VObj (jwk_of_handle 4097%N)) ["sign"] = Ok h) in Himp.
    vm_compute in Himp. injection Himp as <-.
    reflexivity.
  - reflexivity.
  - vm_compute. reflexivity.
  - exists (VNum 24). vm_compute. reflexivity.
  - rewrite Hfrom in Himported. injection Himported as <-. exact Hexport.
Defined.
